(** * Authentication module of the e-commerce admin dashboard backend

    A shallow embedding of the NestJS authentication code:

    - [PasswordService]   (src/auth/password.service.ts)
    - [JwtService]        (src/auth/jwt.service.ts)
    - [UsersService]      (src/users/users.service.ts)
    - [AuthService]       (src/auth/auth.service.ts)
    - [JwtAuthGuard]      (src/auth/guards/jwt-auth.guard.ts)
    - [RolesGuard]        (src/auth/guards/roles.guard.ts)
    - [AuthController]    (src/auth/auth.controller.ts, the two guarded routes)

    Asynchronous methods are embedded as computations in a state and
    exception monad over a [World] (the two database tables, the outcome
    schedule of the database, the clock, the entropy counter and the
    console).  The npm packages the services call (jsonwebtoken, ms, bcrypt,
    crypto.randomUUID) are operations of an interface, [Externals]; the values
    read from the configuration are a record, [Config].

    A JavaScript string is embedded as a [string]; one [ascii] stands for one
    UTF-16 code unit, so the embedding covers the code units below 256. *)

From Stdlib Require Import String Ascii List ZArith Bool Lia.
From Stdlib Require Import DecimalString DecimalZ.
Import ListNotations.

Local Open Scope string_scope.
Local Open Scope Z_scope.

(** ** JavaScript values *)

Module Js.

(** [!s] on a string: only the empty string is falsy. *)
Definition falsy (s : string) : bool := (s =? "")%string.

(** [!v] on a value that may be [undefined]. *)
Definition falsy_opt (v : option string) : bool :=
  match v with
  | None => true
  | Some s => falsy s
  end.

(** [v || d] on a string that may be [undefined]. *)
Definition or_else (v : option string) (d : string) : string :=
  match v with
  | None => d
  | Some s => if falsy s then d else s
  end.

(** [s.split(sep)] for a separator of one code unit: the pieces between the
    occurrences of [sep], in order; never the empty array. *)
Fixpoint split (sep : ascii) (s : string) : list string :=
  match s with
  | EmptyString => [EmptyString]
  | String c rest =>
      if (c =? sep)%char then EmptyString :: split sep rest
      else match split sep rest with
           | [] => [String c EmptyString]
           | piece :: pieces => String c piece :: pieces
           end
  end.

(** [/[...]/.test(s)] for a class of code units. *)
Fixpoint test (cls : ascii -> bool) (s : string) : bool :=
  match s with
  | EmptyString => false
  | String c rest => cls c || test cls rest
  end.

(** The character classes of the regular expressions in the sources. *)
Definition lower (c : ascii) : bool := (("a" <=? c) && (c <=? "z"))%char.
Definition upper (c : ascii) : bool := (("A" <=? c) && (c <=? "Z"))%char.
Definition digit (c : ascii) : bool := (("0" <=? c) && (c <=? "9"))%char.
Definition special (c : ascii) : bool :=
  existsb (Ascii.eqb c) ["@"; "$"; "!"; "%"; "*"; "?"; "&"]%char.

(** [xs.includes(x)] on an array of strings. *)
Definition includes (xs : list string) (x : string) : bool :=
  existsb (String.eqb x) xs.

End Js.

(** ** Exceptions *)

(** The subclasses of Nest's [HttpException] the sources throw. *)
Inductive HttpStatus :=
| BadRequest
| Unauthorized
| Forbidden
| NotFound
| Conflict
| InternalServerError.

Definition statusCode (s : HttpStatus) : Z :=
  match s with
  | BadRequest => 400
  | Unauthorized => 401
  | Forbidden => 403
  | NotFound => 404
  | Conflict => 409
  | InternalServerError => 500
  end.

Definition HttpStatus_eqb (a b : HttpStatus) : bool := statusCode a =? statusCode b.

(** What a Prisma query rejects with: a known request error carries a [code]
    ("P2002" unique constraint, "P2025" record not found); any other failure
    (connection lost, timeout) carries none. *)
Inductive DbError :=
| KnownRequestError (code : string)
| UnknownRequestError (message : string).

Inductive Exn :=
| HttpException (status : HttpStatus) (message : string) (details : list string)
| DbException (e : DbError)
| Error (message : string).

(** [new XxxException(message)] *)
Definition http (status : HttpStatus) (message : string) : Exn :=
  HttpException status message [].

(** [error instanceof XxxException] *)
Definition instanceof (status : HttpStatus) (e : Exn) : bool :=
  match e with
  | HttpException s _ _ => HttpStatus_eqb s status
  | _ => false
  end.

(** [error.code === code] *)
Definition has_code (code : string) (e : Exn) : bool :=
  match e with
  | DbException (KnownRequestError c) => (c =? code)%string
  | _ => false
  end.

Inductive Result (A : Type) :=
| Ok (a : A)
| Throw (e : Exn).
Arguments Ok {A} a.
Arguments Throw {A} e.

(** ** Rows of the two tables *)

Inductive user_role := admin | customer.

Definition role_name (r : user_role) : string :=
  match r with
  | admin => "admin"
  | customer => "customer"
  end.

(** [public.profiles] *)
Record Profile := {
  p_id : string;
  p_email : string;
  p_full_name : option string;
  p_avatar_url : option string;
  p_role : option user_role;
  p_updated_at : Z
}.

(** [auth.users] *)
Record AuthUser := {
  u_id : string;
  u_email : string;
  u_encrypted_password : option string;
  u_email_confirmed_at : Z;
  u_created_at : Z;
  u_updated_at : Z
}.

(** ** The world a request runs in *)

Record World := {
  profiles : list Profile;
  users : list AuthUser;
  (** what the next database queries do: [Some e] rejects with [e], [None]
      (and the exhausted schedule) runs the query *)
  outcomes : list (option DbError);
  (** [Math.floor(Date.now() / 1000)] *)
  clock : Z;
  (** how many random values were drawn *)
  entropy : nat;
  (** [console.error] *)
  console : list (string * Exn)
}.

Definition set_profiles (ps : list Profile) (w : World) : World :=
  {| profiles := ps; users := users w; outcomes := outcomes w;
     clock := clock w; entropy := entropy w; console := console w |}.

Definition set_users (us : list AuthUser) (w : World) : World :=
  {| profiles := profiles w; users := us; outcomes := outcomes w;
     clock := clock w; entropy := entropy w; console := console w |}.

Definition set_outcomes (os : list (option DbError)) (w : World) : World :=
  {| profiles := profiles w; users := users w; outcomes := os;
     clock := clock w; entropy := entropy w; console := console w |}.

Definition set_entropy (n : nat) (w : World) : World :=
  {| profiles := profiles w; users := users w; outcomes := outcomes w;
     clock := clock w; entropy := n; console := console w |}.

Definition set_console (c : list (string * Exn)) (w : World) : World :=
  {| profiles := profiles w; users := users w; outcomes := outcomes w;
     clock := clock w; entropy := entropy w; console := c |}.

(** ** Promises: state and exceptions *)

Definition M (A : Type) : Type := World -> Result A * World.

Definition ret {A} (a : A) : M A := fun w => (Ok a, w).

Definition throw {A} (e : Exn) : M A := fun w => (Throw e, w).

Definition bind {A B} (m : M A) (k : A -> M B) : M B :=
  fun w =>
    match m w with
    | (Ok a, w') => k a w'
    | (Throw e, w') => (Throw e, w')
    end.

(** [try { m } catch (error) { h error }] *)
Definition try_catch {A} (m : M A) (h : Exn -> M A) : M A :=
  fun w =>
    match m w with
    | (Ok a, w') => (Ok a, w')
    | (Throw e, w') => h e w'
    end.

(** Lifts a result that needs no state. *)
Definition lift {A} (r : Result A) : M A := fun w => (r, w).

Definition gets {A} (f : World -> A) : M A := fun w => (Ok (f w), w).

Definition console_error (label : string) (e : Exn) : M unit :=
  fun w => (Ok tt, set_console (console w ++ [(label, e)]) w).

Declare Scope promise_scope.
Delimit Scope promise_scope with promise.
Notation "x <- m ;; k" := (bind m (fun x => k))
  (at level 100, m at next level, right associativity) : promise_scope.
Notation "m ;;; k" := (bind m (fun _ => k))
  (at level 100, right associativity) : promise_scope.
Notation "'try' m 'catch' h" := (try_catch m h)
  (at level 100, m at level 200, h at level 9) : promise_scope.
Local Open Scope promise_scope.

(** ** Tokens *)

(** The payload [generateTokens] signs. *)
Record Subject := {
  s_sub : string;
  s_email : string;
  s_role : string
}.

(** [JwtPayload]: [iat] and [exp] are optional. *)
Record JwtPayload := {
  sub : string;
  email : string;
  role : string;
  iat : option Z;
  exp : option Z
}.

Record TokenPair := {
  access_token : string;
  refresh_token : string
}.

(** ** The npm packages *)

Class Externals := {
  (** jsonwebtoken: the compact serialisation of the claims with their HMAC
      under a key, and its inverse, [None] on a malformed token or on a
      signature that does not match *)
  jws_encode : JwtPayload -> string -> string;
  jws_decode : string -> string -> option JwtPayload;
  (** ms: the seconds of a time span such as "15m" or "7d" *)
  timespan : string -> option Z;
  (** bcrypt: [hash(data, rounds)] with the salt drawn from the entropy, and
      [compare(data, encrypted)]; [None] when the package rejects *)
  bcrypt_hash : string -> nat -> nat -> option string;
  bcrypt_compare : string -> string -> option bool;
  (** crypto.randomUUID *)
  uuid : nat -> string
}.

(** What the sources rely on from jsonwebtoken. *)
Class JwsLaws (X : Externals) : Prop := {
  jws_decode_encode :
    forall c key, jws_decode (jws_encode c key) key = Some c;
  jws_decode_other_key :
    forall c key key', key <> key' -> jws_decode (jws_encode c key') key = None
}.

(** The errors [jwt.verify] passes to its callback. *)
Inductive VerifyError :=
| JsonWebTokenError
| TokenExpiredError.

Section Jsonwebtoken.
Context {X : Externals}.

(** [jwt.sign(payload, secret, { expiresIn }, callback)]: stamps [iat] with
    the clock and [exp] with [iat] plus the time span. *)
Definition jwt_sign (payload : Subject) (secret expiresIn : string) (now : Z)
  : Result string :=
  match timespan expiresIn with
  | None => Throw (Error "expiresIn should be a number of seconds or string representing a timespan")
  | Some span =>
      Ok (jws_encode {| sub := s_sub payload; email := s_email payload;
                        role := s_role payload;
                        iat := Some now; exp := Some (now + span) |} secret)
  end.

(** [jwt.verify(token, secret, callback)]: the signature, then the expiry. *)
Definition jwt_verify (token secret : string) (now : Z)
  : VerifyError + JwtPayload :=
  match jws_decode token secret with
  | None => inl JsonWebTokenError
  | Some decoded =>
      match exp decoded with
      | Some e => if now >=? e then inl TokenExpiredError else inr decoded
      | None => inr decoded
      end
  end.

End Jsonwebtoken.

(** ** PasswordService *)

Record ValidationResult := {
  isValid : bool;
  errors : list string
}.

Module PasswordService.
Section PasswordService.
Context {X : Externals}.

Definition saltRounds : nat := 12.

(** [bcrypt.hash(password, rounds)]: draws the salt. *)
Definition bcrypt_hash_call (password : string) (rounds : nat) : M string :=
  fun w =>
    match bcrypt_hash password rounds (entropy w) with
    | Some h => (Ok h, set_entropy (S (entropy w)) w)
    | None => (Throw (Error "bcrypt: hash failed"), w)
    end.

(** [bcrypt.compare(plain, hashed)] *)
Definition bcrypt_compare_call (plain hashed : string) : M bool :=
  match bcrypt_compare plain hashed with
  | Some b => ret b
  | None => throw (Error "bcrypt: compare failed")
  end.

Definition hashPassword (password : string) : M string :=
  try bcrypt_hash_call password saltRounds
  catch (fun error => throw (Error "Password hashing failed")).

Definition comparePasswords (plainPassword hashedPassword : string) : M bool :=
  try bcrypt_compare_call plainPassword hashedPassword
  catch (fun error => throw (Error "Password comparison failed")).

Definition msg_length := "Password must be at least 8 characters long".
Definition msg_lower := "Password must contain at least one lowercase letter".
Definition msg_upper := "Password must contain at least one uppercase letter".
Definition msg_digit := "Password must contain at least one digit".
Definition msg_special :=
  "Password must contain at least one special character (@$!%*?&)".

(** [if (c) { errors.push(m) }] *)
Definition push_if (c : bool) (m : string) (errors : list string) : list string :=
  if c then errors ++ [m] else errors.

Definition validatePasswordStrength (password : string) : ValidationResult :=
  let errors := [] in
  let errors := push_if (String.length password <? 8)%nat msg_length errors in
  let errors := push_if (negb (Js.test Js.lower password)) msg_lower errors in
  let errors := push_if (negb (Js.test Js.upper password)) msg_upper errors in
  let errors := push_if (negb (Js.test Js.digit password)) msg_digit errors in
  let errors := push_if (negb (Js.test Js.special password)) msg_special errors in
  {| isValid := (List.length errors =? 0)%nat; errors := errors |}.

End PasswordService.
End PasswordService.

(** ** RegisterDto: the decorators of [password] *)

Module RegisterDtoPassword.

(** [.] of a regular expression without the [s] flag: any code unit but a
    line terminator. *)
Definition line_terminator (c : ascii) : bool :=
  ((c =? "010") || (c =? "013"))%char.

(** [(?=.*[...])] at the start of [s]: some code unit of the class, with no
    line terminator before it. *)
Fixpoint lookahead (cls : ascii -> bool) (s : string) : bool :=
  match s with
  | EmptyString => false
  | String c rest => cls c || (negb (line_terminator c) && lookahead cls rest)
  end.

(** [[A-Za-z\d@$!%*?&]] *)
Definition allowed (c : ascii) : bool :=
  Js.upper c || Js.lower c || Js.digit c || Js.special c.

(** [/^(?=.*[a-z])(?=.*[A-Z])(?=.*\d)(?=.*[@$!%*?&])[A-Za-z\d@$!%*?&]/.test(s)] *)
Definition matches (s : string) : bool :=
  lookahead Js.lower s && lookahead Js.upper s && lookahead Js.digit s
  && lookahead Js.special s
  && match s with
     | EmptyString => false
     | String c _ => allowed c
     end.

(** [@MinLength(8)] *)
Definition minLength (s : string) : bool := (8 <=? String.length s)%nat.

Definition msg_minLength := "Password must be at least 8 characters long".
Definition msg_matches :=
  "Password must contain at least one lowercase letter, one uppercase letter, one number, and one special character (@$!%*?&)".

(** The messages of the constraints [password] fails. *)
Definition constraints (password : string) : list string :=
  (if minLength password then [] else [msg_minLength])
    ++ (if matches password then [] else [msg_matches]).

End RegisterDtoPassword.

(** ** Configuration ([jwt.*] of the ConfigService) *)

Record Config := {
  jwt_secret : option string;
  jwt_accessTokenExpiration : option string;
  jwt_refreshTokenExpiration : option string
}.

(** ** JwtService *)

Module JwtService.
Section JwtService.
Context {X : Externals} (cfg : Config).

Definition secret : string := Js.or_else (jwt_secret cfg) "default-secret".

Definition generateAccessToken (payload : Subject) : M string :=
  let expiresIn := Js.or_else (jwt_accessTokenExpiration cfg) "15m" in
  now <- gets clock ;;
  lift (jwt_sign payload secret expiresIn now).

Definition generateRefreshToken (payload : Subject) : M string :=
  let expiresIn := Js.or_else (jwt_refreshTokenExpiration cfg) "7d" in
  now <- gets clock ;;
  lift (jwt_sign payload secret expiresIn now).

Definition generateTokens (payload : JwtPayload) : M TokenPair :=
  let jwtPayload :=
    {| s_sub := sub payload; s_email := email payload; s_role := role payload |} in
  access_token <- generateAccessToken jwtPayload ;;
  refresh_token <- generateRefreshToken jwtPayload ;;
  ret {| access_token := access_token; refresh_token := refresh_token |}.

Definition msg_access := "Invalid or expired access token".
Definition msg_refresh := "Invalid or expired refresh token".

Definition verifyAccessToken (token : string) : M JwtPayload :=
  now <- gets clock ;;
  match jwt_verify token secret now with
  | inl err => throw (http Unauthorized msg_access)
  | inr payload =>
      ret {| sub := sub payload; email := email payload; role := role payload;
             iat := iat payload; exp := exp payload |}
  end.

Definition verifyRefreshToken (token : string) : M JwtPayload :=
  now <- gets clock ;;
  match jwt_verify token secret now with
  | inl err => throw (http Unauthorized msg_refresh)
  | inr payload =>
      ret {| sub := sub payload; email := email payload; role := role payload;
             iat := iat payload; exp := exp payload |}
  end.

Definition extractTokenFromHeader (authHeader : string) : option string :=
  if Js.falsy authHeader then None
  else
    let parts := Js.split " " authHeader in
    let type := nth_error parts 0 in
    let token := nth_error parts 1 in
    if negb (match type with Some t => (t =? "Bearer")%string | None => false end)
       || Js.falsy_opt token
    then None
    else token.

Definition refreshTokens (refreshToken : string) : M TokenPair :=
  payload <- verifyRefreshToken refreshToken ;;
  tokens <- generateTokens {| sub := sub payload; email := email payload;
                              role := role payload; iat := None; exp := None |} ;;
  ret tokens.

End JwtService.
End JwtService.

(** ** PrismaService: the two tables *)

Module Prisma.

Definition P2002 : Exn := DbException (KnownRequestError "P2002").

(** Every query first meets the outcome scheduled for it. *)
Definition query {A} (run : M A) : M A :=
  fun w =>
    match outcomes w with
    | Some e :: rest => (Throw (DbException e), set_outcomes rest w)
    | None :: rest => run (set_outcomes rest w)
    | [] => run w
    end.

Definition by_email (e : string) (p : Profile) : bool := (p_email p =? e)%string.
Definition by_id (i : string) (p : Profile) : bool := (p_id p =? i)%string.

(** [prisma.profiles.findUnique({ where })] *)
Definition profiles_findUnique (selects : Profile -> bool) : M (option Profile) :=
  query (fun w => (Ok (find selects (profiles w)), w)).

(** [prisma.profiles.create({ data })]: [id] and [email] are unique. *)
Definition profiles_create (data : Profile) : M Profile :=
  query (fun w =>
    if existsb (fun p => by_id (p_id data) p || by_email (p_email data) p) (profiles w)
    then (Throw P2002, w)
    else (Ok data, set_profiles (profiles w ++ [data]) w)).

(** [prisma.users.findFirst({ where: { email } })] *)
Definition users_findFirst (e : string) : M (option AuthUser) :=
  query (fun w => (Ok (find (fun u => (u_email u =? e)%string) (users w)), w)).

(** [prisma.users.create({ data })]: [id] is the primary key, and [email] is
    unique as well: [register] answers a P2002 from this insert, the only one
    whose P2002 reaches its handler, with
    [User with this email already exists]. *)
Definition same_account (data u : AuthUser) : bool :=
  (u_id u =? u_id data)%string || (u_email u =? u_email data)%string.

Definition users_create (data : AuthUser) : M AuthUser :=
  query (fun w =>
    if existsb (same_account data) (users w)
    then (Throw P2002, w)
    else (Ok data, set_users (users w ++ [data]) w)).

(** The fields [prisma.profiles.update] may set; a field left [undefined] is
    not touched. *)
Definition P2025 : Exn := DbException (KnownRequestError "P2025").

Definition apply_update
    (full_name avatar_url : option string) (role : option user_role) (now : Z)
    (p : Profile) : Profile :=
  {| p_id := p_id p;
     p_email := p_email p;
     p_full_name := match full_name with Some n => Some n | None => p_full_name p end;
     p_avatar_url := match avatar_url with Some a => Some a | None => p_avatar_url p end;
     p_role := match role with Some r => Some r | None => p_role p end;
     p_updated_at := now |}.

(** Replaces the first row [selects] picks. *)
Fixpoint replace_first (selects : Profile -> bool) (row : Profile) (rows : list Profile)
  : list Profile :=
  match rows with
  | [] => []
  | p :: rest =>
      if selects p then row :: rest else p :: replace_first selects row rest
  end.

(** [prisma.profiles.update({ where: { id }, data })]: rejects with P2025 when
    no row has the id. *)
Definition profiles_update
    (i : string) (full_name avatar_url : option string) (role : option user_role)
    (now : Z) : M Profile :=
  query (fun w =>
    match find (by_id i) (profiles w) with
    | None => (Throw P2025, w)
    | Some p =>
        let row := apply_update full_name avatar_url role now p in
        (Ok row, set_profiles (replace_first (by_id i) row (profiles w)) w)
    end).

End Prisma.

(** ** UsersService *)

Record CreateUserDto := {
  cu_id : string;
  cu_email : string;
  cu_full_name : string;
  cu_role : option user_role
}.

Record UpdateUserDto := {
  up_full_name : option string;
  up_avatar_url : option string;
  up_role : option user_role
}.

Module UsersService.

Definition msg_conflict := "User with this email already exists".

Definition findByEmail (e : string) : M (option Profile) :=
  try
    (user <- Prisma.profiles_findUnique (Prisma.by_email e) ;;
     ret user)
  catch (fun error =>
    console_error "Error finding user by email:" error ;;;
    ret None).

Definition findById (i : string) : M (option Profile) :=
  try
    (user <- Prisma.profiles_findUnique (Prisma.by_id i) ;;
     ret user)
  catch (fun error =>
    console_error "Error finding user by id:" error ;;;
    ret None).

Definition create (userData : CreateUserDto) : M Profile :=
  try
    (existingUser <- findByEmail (cu_email userData) ;;
     match existingUser with
     | Some _ => throw (http Conflict msg_conflict)
     | None =>
         now <- gets clock ;;
         user <- Prisma.profiles_create
                   {| p_id := cu_id userData;
                      p_email := cu_email userData;
                      p_full_name := Some (cu_full_name userData);
                      p_avatar_url := None;
                      p_role := Some (match cu_role userData with
                                      | Some r => r
                                      | None => customer
                                      end);
                      p_updated_at := now |} ;;
         ret user
     end)
  catch (fun error =>
    if instanceof Conflict error then throw error
    else if has_code "P2002" error then throw (http Conflict msg_conflict)
    else throw error).

Definition msg_not_found := "User not found".

Definition updateProfile (i : string) (updateData : UpdateUserDto) : M Profile :=
  try
    (existingUser <- findById i ;;
     match existingUser with
     | None => throw (http NotFound msg_not_found)
     | Some _ =>
         now <- gets clock ;;
         updatedUser <- Prisma.profiles_update i
                          (up_full_name updateData) (up_avatar_url updateData)
                          (up_role updateData) now ;;
         ret updatedUser
     end)
  catch (fun error =>
    if instanceof NotFound error then throw error
    else if has_code "P2025" error then throw (http NotFound msg_not_found)
    else throw error).

End UsersService.

(** ** AuthService *)

Record RegisterDto := {
  r_email : string;
  r_password : string;
  r_full_name : string
}.

Record LoginDto := {
  l_email : string;
  l_password : string
}.

Record PublicUser := {
  pu_id : string;
  pu_email : string;
  pu_role : option user_role;
  pu_full_name : string
}.

Record AuthResponse := {
  ar_access_token : string;
  ar_refresh_token : string;
  ar_user : PublicUser
}.

Module AuthService.
Section AuthService.
Context {X : Externals} (cfg : Config).

Definition msg_weak := "Password does not meet strength requirements".
Definition msg_register_failed := "Registration failed. Please try again.".
Definition msg_login_failed := "Authentication failed. Please try again.".
Definition msg_refresh_failed := "Token refresh failed. Please login again.".

(** [crypto.randomUUID()] *)
Definition randomUUID : M string :=
  fun w => (Ok (uuid (entropy w)), set_entropy (S (entropy w)) w).

(** [user.role || 'customer'] *)
Definition role_or_customer (r : option user_role) : string :=
  match r with
  | Some r => role_name r
  | None => "customer"
  end.

(** [user.full_name || ''] *)
Definition full_name_or_empty (n : option string) : string := Js.or_else n "".

Definition respond (tokens : TokenPair) (user : Profile) : AuthResponse :=
  {| ar_access_token := access_token tokens;
     ar_refresh_token := refresh_token tokens;
     ar_user := {| pu_id := p_id user;
                   pu_email := p_email user;
                   pu_role := p_role user;
                   pu_full_name := full_name_or_empty (p_full_name user) |} |}.

Definition register (registerDto : RegisterDto) : M AuthResponse :=
  try
    (let passwordValidation :=
       PasswordService.validatePasswordStrength (r_password registerDto) in
     if negb (isValid passwordValidation)
     then throw (HttpException BadRequest msg_weak (errors passwordValidation))
     else
       existingUser <- UsersService.findByEmail (r_email registerDto) ;;
       match existingUser with
       | Some _ => throw (http Conflict UsersService.msg_conflict)
       | None =>
           hashedPassword <- PasswordService.hashPassword (r_password registerDto) ;;
           userId <- randomUUID ;;
           now <- gets clock ;;
           Prisma.users_create
             {| u_id := userId;
                u_email := r_email registerDto;
                u_encrypted_password := Some hashedPassword;
                u_email_confirmed_at := now;
                u_created_at := now;
                u_updated_at := now |} ;;;
           user <- UsersService.create
                     {| cu_id := userId;
                        cu_email := r_email registerDto;
                        cu_full_name := r_full_name registerDto;
                        cu_role := Some customer |} ;;
           tokens <- JwtService.generateTokens cfg
                       {| sub := p_id user;
                          email := p_email user;
                          role := role_or_customer (p_role user);
                          iat := None; exp := None |} ;;
           ret (respond tokens user)
       end)
  catch (fun error =>
    if instanceof Conflict error || instanceof BadRequest error then throw error
    else if has_code "P2002" error then throw (http Conflict UsersService.msg_conflict)
    else
      console_error "Registration error:" error ;;;
      throw (http InternalServerError msg_register_failed)).

Definition validateUser (e password : string) : M (option Profile) :=
  try
    (authUser <- Prisma.users_findFirst e ;;
     match authUser with
     | None => ret None
     | Some authUser =>
         if Js.falsy_opt (u_encrypted_password authUser) then ret None
         else
           isPasswordValid <-
             PasswordService.comparePasswords password
               (Js.or_else (u_encrypted_password authUser) "") ;;
           if negb isPasswordValid then ret None
           else
             userProfile <- UsersService.findByEmail e ;;
             ret userProfile
     end)
  catch (fun error =>
    console_error "User validation error:" error ;;;
    ret None).

Definition invalidCredentialsError : Exn := http Unauthorized "Invalid credentials".

Definition login (loginDto : LoginDto) : M AuthResponse :=
  try
    (user <- UsersService.findByEmail (l_email loginDto) ;;
     match user with
     | None => throw invalidCredentialsError
     | Some user =>
         isValidUser <- validateUser (l_email loginDto) (l_password loginDto) ;;
         match isValidUser with
         | None => throw invalidCredentialsError
         | Some _ =>
             tokens <- JwtService.generateTokens cfg
                         {| sub := p_id user;
                            email := p_email user;
                            role := role_or_customer (p_role user);
                            iat := None; exp := None |} ;;
             ret (respond tokens user)
         end
     end)
  catch (fun error =>
    if instanceof Unauthorized error then throw error
    else
      console_error "Login error:" error ;;;
      throw (http InternalServerError msg_login_failed)).

Definition refreshTokens (refreshToken : string) : M TokenPair :=
  try JwtService.refreshTokens cfg refreshToken
  catch (fun error =>
    if instanceof Unauthorized error then throw error
    else
      console_error "Token refresh error:" error ;;;
      throw (http InternalServerError msg_refresh_failed)).

End AuthService.
End AuthService.

(** ** The guards *)

(** [request.user], as the authentication guard attaches it. *)
Record RequestUser := {
  ru_id : string;
  ru_email : string;
  ru_role : string
}.

Record Request := {
  authorization : option string;   (** [request.headers.authorization] *)
  user : option RequestUser        (** [request.user] *)
}.

Module JwtAuthGuard.
Section JwtAuthGuard.
Context {X : Externals} (cfg : Config).

Definition canActivate (request : Request) : M (bool * Request) :=
  let authHeader := authorization request in
  if Js.falsy_opt authHeader
  then throw (http Unauthorized "Authorization header is missing")
  else
    let token := JwtService.extractTokenFromHeader (Js.or_else authHeader "") in
    match token with
    | None => throw (http Unauthorized "Invalid authorization header format")
    | Some token =>
        if Js.falsy token
        then throw (http Unauthorized "Invalid authorization header format")
        else
          try
            (payload <- JwtService.verifyAccessToken cfg token ;;
             ret (true,
                  {| authorization := authorization request;
                     user := Some {| ru_id := sub payload;
                                     ru_email := email payload;
                                     ru_role := role payload |} |}))
          catch (fun error =>
            if instanceof Unauthorized error then throw error
            else throw (http Unauthorized "Invalid or expired token"))
    end.

End JwtAuthGuard.
End JwtAuthGuard.

Module RolesGuard.

(** [requiredRoles] is what the reflector reads from the route metadata:
    [None] when the route carries no [@Roles]. *)
Definition canActivate (requiredRoles : option (list user_role)) (request : Request)
  : Result bool :=
  match requiredRoles with
  | None => Ok true
  | Some [] => Ok true
  | Some roles =>
      match user request with
      | None => Throw (http Unauthorized "User not authenticated")
      | Some u =>
          let userRole := ru_role u in
          if Js.falsy userRole
          then Throw (http Forbidden "User role not found")
          else
            let hasRequiredRole := Js.includes (map role_name roles) userRole in
            if negb hasRequiredRole
            then Throw (http Forbidden "Insufficient permissions")
            else Ok true
      end
  end.

End RolesGuard.

(** ** JwtStrategy *)

(** What [validate] hands to Passport. *)
Record StrategyUser := {
  su_id : string;
  su_email : string;
  su_role : option user_role;
  su_full_name : option string;
  su_avatar_url : option string
}.

Module JwtStrategy.

Definition validate (payload : JwtPayload) : M StrategyUser :=
  try
    (let userId := sub payload in
     if Js.falsy userId
     then throw (http Unauthorized "Invalid token payload: missing user ID")
     else
       user <- UsersService.findById userId ;;
       match user with
       | None => throw (http Unauthorized "User not found or has been deactivated")
       | Some user =>
           ret {| su_id := p_id user;
                  su_email := p_email user;
                  su_role := p_role user;
                  su_full_name := p_full_name user;
                  su_avatar_url := p_avatar_url user |}
       end)
  catch (fun error =>
    if instanceof Unauthorized error then throw error
    else
      console_error "JWT Strategy validation error:" error ;;;
      throw (http Unauthorized "Token validation failed")).

End JwtStrategy.

(** ** AuthController: the guarded routes *)

Record ProfileView := {
  pv_id : string;
  pv_email : string;
  pv_role : string;
  pv_message : string
}.

Module AuthController.
Section AuthController.
Context {X : Externals} (cfg : Config).

(** Nest runs the guards of [@UseGuards] in order; a guard that returns
    [false] is answered with 403. *)
Definition guard (g : Request -> M (bool * Request)) (request : Request) : M Request :=
  r <- g request ;;
  if fst r then ret (snd r) else throw (http Forbidden "Forbidden resource").

Definition roles_guard (requiredRoles : option (list user_role)) (request : Request)
  : M (bool * Request) :=
  ok <- lift (RolesGuard.canActivate requiredRoles request) ;;
  ret (ok, request).

Definition view (message : string) (request : Request) : M ProfileView :=
  match user request with
  | Some u => ret {| pv_id := ru_id u; pv_email := ru_email u;
                     pv_role := ru_role u; pv_message := message |}
  | None => throw (Error "TypeError: Cannot read properties of undefined")
  end.

(** [GET /auth/profile], [@UseGuards(JwtAuthGuard)] *)
Definition getProfile (request : Request) : M ProfileView :=
  request <- guard (JwtAuthGuard.canActivate cfg) request ;;
  view "Profile retrieved successfully" request.

(** [GET /auth/admin], [@UseGuards(JwtAuthGuard, RolesGuard)], [@Roles('admin')] *)
Definition getAdminData (request : Request) : M ProfileView :=
  request <- guard (JwtAuthGuard.canActivate cfg) request ;;
  request <- guard (roles_guard (Some [admin])) request ;;
  view "Admin access granted" request.

End AuthController.
End AuthController.

(** ** A small instance of the packages

    It runs the services on concrete requests.  It is no cryptography: a
    token is the framed fields of the claims followed by the framed key. *)

Module Toy.

(** A self-delimiting encoding of a string: every code unit is preceded by
    "1", and "0" closes the field. *)
Fixpoint frame (s : string) : string :=
  match s with
  | EmptyString => "0"
  | String c rest => String "1" (String c (frame rest))
  end.

Fixpoint unframe (s : string) : option (string * string) :=
  match s with
  | String "0" rest => Some (EmptyString, rest)
  | String "1" (String c rest) =>
      match unframe rest with
      | Some (field, rest') => Some (String c field, rest')
      | None => None
      end
  | _ => None
  end.

Definition string_of_Z (z : Z) : string := NilEmpty.string_of_int (Z.to_int z).

Definition Z_of_string (s : string) : option Z :=
  option_map Z.of_int (NilEmpty.int_of_string s).

Definition string_of_time (t : option Z) : string :=
  match t with
  | None => "n"
  | Some z => String "s" (string_of_Z z)
  end.

Definition time_of_string (s : string) : option (option Z) :=
  match s with
  | String "n" EmptyString => Some None
  | String "s" digits => option_map Some (Z_of_string digits)
  | _ => None
  end.

Definition encode (c : JwtPayload) (key : string) : string :=
  frame (sub c) ++ frame (email c) ++ frame (role c)
    ++ frame (string_of_time (iat c)) ++ frame (string_of_time (exp c))
    ++ frame key.

Definition decode (token key : string) : option JwtPayload :=
  match unframe token with
  | Some (f_sub, r1) =>
  match unframe r1 with
  | Some (f_email, r2) =>
  match unframe r2 with
  | Some (f_role, r3) =>
  match unframe r3 with
  | Some (f_iat, r4) =>
  match unframe r4 with
  | Some (f_exp, r5) =>
  match unframe r5 with
  | Some (f_key, EmptyString) =>
      match time_of_string f_iat, time_of_string f_exp with
      | Some t_iat, Some t_exp =>
          if (f_key =? key)%string
          then Some {| sub := f_sub; email := f_email; role := f_role;
                       iat := t_iat; exp := t_exp |}
          else None
      | _, _ => None
      end
  | _ => None
  end
  | None => None
  end
  | None => None
  end
  | None => None
  end
  | None => None
  end
  | None => None
  end.

Fixpoint split_last (s : string) : option (string * ascii) :=
  match s with
  | EmptyString => None
  | String c rest =>
      match split_last rest with
      | None => Some (EmptyString, c)
      | Some (front, l) => Some (String c front, l)
      end
  end.

Definition unit_seconds (c : ascii) : option Z :=
  match c with
  | "s"%char => Some 1
  | "m"%char => Some 60
  | "h"%char => Some 3600
  | "d"%char => Some 86400
  | _ => None
  end.

(** "15m", "7d", "-1s", ... *)
Definition seconds (span : string) : option Z :=
  match split_last span with
  | Some (String d ds, u) =>
      match Z_of_string (String d ds), unit_seconds u with
      | Some n, Some k => Some (n * k)
      | _, _ => None
      end
  | _ => None
  end.

Definition hash (password : string) (rounds salt : nat) : option string :=
  Some ("$2b$" ++ string_of_Z (Z.of_nat rounds) ++ "$"
          ++ string_of_Z (Z.of_nat salt) ++ "$" ++ password).

(** The rest of [s] after its [n]-th "$". *)
Fixpoint after_dollars (n : nat) (s : string) : option string :=
  match n with
  | O => Some s
  | S n' =>
      match s with
      | EmptyString => None
      | String c rest =>
          if (c =? "$")%char then after_dollars n' rest else after_dollars n rest
      end
  end.

Definition compare (plain hashed : string) : option bool :=
  match after_dollars 4 hashed with
  | Some p => Some (plain =? p)%string
  | None => Some false
  end.

Definition random_uuid (n : nat) : string := "user-" ++ string_of_Z (Z.of_nat n).

Definition externals : Externals :=
  {| jws_encode := encode;
     jws_decode := decode;
     timespan := seconds;
     bcrypt_hash := hash;
     bcrypt_compare := compare;
     uuid := random_uuid |}.

(** The configuration of the tests: everything left to its default. *)
Definition defaults : Config :=
  {| jwt_secret := None;
     jwt_accessTokenExpiration := None;
     jwt_refreshTokenExpiration := None |}.

(** An empty database at time [1000]. *)
Definition world0 : World :=
  {| profiles := []; users := []; outcomes := []; clock := 1000;
     entropy := O; console := [] |}.

End Toy.

(** ** The password rules, as the specification words them *)

Module PasswordRules.

Inductive Rule :=
| MinLength
| Lowercase
| Uppercase
| Digit
| SpecialChar.

(** Some code unit of [p] is in the class. *)
Definition has (cls : ascii -> Prop) (p : string) : Prop :=
  exists c, In c (list_ascii_of_string p) /\ cls c.

Definition between (lo hi : N) (c : ascii) : Prop :=
  (lo <= N_of_ascii c /\ N_of_ascii c <= hi)%N.

Definition meets (r : Rule) (p : string) : Prop :=
  match r with
  | MinLength => (8 <= String.length p)%nat
  | Lowercase => has (between 97 122) p
  | Uppercase => has (between 65 90) p
  | Digit => has (between 48 57) p
  | SpecialChar => has (fun c => In c ["@"; "$"; "!"; "%"; "*"; "?"; "&"]%char) p
  end.

Definition message (r : Rule) : string :=
  match r with
  | MinLength => PasswordService.msg_length
  | Lowercase => PasswordService.msg_lower
  | Uppercase => PasswordService.msg_upper
  | Digit => PasswordService.msg_digit
  | SpecialChar => PasswordService.msg_special
  end.

End PasswordRules.

(** ** Shapes of an Authorization header *)

Definition space_free (s : string) : Prop :=
  Js.test (fun c => (c =? " ")%char) s = false.

(** "Bearer <token>", or "Bearer <token> <anything>". *)
Definition bearer_then (token h : string) : Prop :=
  h = "Bearer " ++ token \/ exists tail, h = "Bearer " ++ token ++ " " ++ tail.

(** ** Tokens a verifier must refuse *)

Inductive invalid_token {X : Externals} (key : string) (now : Z) (token : string)
  : Prop :=
| malformed :
    (forall k, jws_decode token k = None) ->
    invalid_token key now token
| wrong_signature (c : JwtPayload) (key' : string) :
    key' <> key -> token = jws_encode c key' ->
    invalid_token key now token
| expired (c : JwtPayload) (e : Z) :
    jws_decode token key = Some c -> exp c = Some e -> e <= now ->
    invalid_token key now token.

(** The claims [jwt.sign] stamps on an identity at [now] for [span] seconds. *)
Definition stamped (id : JwtPayload) (now span : Z) : JwtPayload :=
  {| sub := sub id; email := email id; role := role id;
     iat := Some now; exp := Some (now + span) |}.

(** The time spans the configuration asks for. *)
Definition access_span {X : Externals} (cfg : Config) : option Z :=
  timespan (Js.or_else (jwt_accessTokenExpiration cfg) "15m").

Definition refresh_span {X : Externals} (cfg : Config) : option Z :=
  timespan (Js.or_else (jwt_refreshTokenExpiration cfg) "7d").

(** ** Concrete requests, run on the toy packages *)

Module Fixtures.

#[local] Existing Instance Toy.externals.

Definition customer_id : JwtPayload :=
  {| sub := "123e4567-e89b-12d3-a456-426614174000";
     email := "test@example.com";
     role := "customer";
     iat := None; exp := None |}.

Definition admin_id : JwtPayload :=
  {| sub := "222e2222-e22b-22d3-a222-222222222222";
     email := "admin@example.com";
     role := "admin";
     iat := None; exp := None |}.

(** [jwt.sign(payload, 'wrong-secret', { expiresIn: '15m' })] at time 1000 *)
Definition token_of_wrong_secret : string :=
  jws_encode (stamped customer_id 1000 900) "wrong-secret".

(** [jwt.sign(payload, secret, { expiresIn: '-1s' })] at time 1000 *)
Definition token_expired : string :=
  jws_encode (stamped customer_id 1000 (-1)) (JwtService.secret Toy.defaults).

Definition register_a : RegisterDto :=
  {| r_email := "a@x.com"; r_password := "Str0ng!Pw"; r_full_name := "A" |}.

(** The world after [register_a] in the empty database. *)
Definition world1 : World :=
  snd (AuthService.register Toy.defaults register_a Toy.world0).

(** The same, when the next database query is going to fail. *)
Definition world1_failing : World :=
  set_outcomes [Some (UnknownRequestError "Database connection failed")] world1.

(** The same, when the database cannot be reached: the next two queries are
    going to fail. *)
Definition world1_unreachable : World :=
  set_outcomes [Some (UnknownRequestError "Database connection failed");
                Some (UnknownRequestError "Database connection failed")] world1.

(** [world1] at a later time, 2000. *)
Definition world1_later : World :=
  {| profiles := profiles world1;
     users := users world1;
     outcomes := outcomes world1;
     clock := 2000;
     entropy := entropy world1;
     console := console world1 |}.

(** The pair issued for the customer at time 1000. *)
Definition customer_pair : TokenPair :=
  {| access_token :=
       jws_encode (stamped customer_id 1000 900) (JwtService.secret Toy.defaults);
     refresh_token :=
       jws_encode (stamped customer_id 1000 604800) (JwtService.secret Toy.defaults) |}.

Definition admin_pair : TokenPair :=
  {| access_token :=
       jws_encode (stamped admin_id 1000 900) (JwtService.secret Toy.defaults);
     refresh_token :=
       jws_encode (stamped admin_id 1000 604800) (JwtService.secret Toy.defaults) |}.

(** A request with the header "Bearer <token>". *)
Definition bearing (token : string) : Request :=
  {| authorization := Some ("Bearer " ++ token); user := None |}.

(** [world1] with both tables emptied: every account deleted. *)
Definition world1_emptied : World := set_profiles [] (set_users [] world1).

End Fixtures.

(** ** The next database query *)

(** The outcome scheduled for the next query, if it is a failure. *)
Definition next_failure (w : World) : option DbError :=
  match outcomes w with
  | Some e :: _ => Some e
  | _ => None
  end.

(** The world once the next query has met its outcome. *)
Definition after_query (w : World) : World :=
  match outcomes w with
  | _ :: rest => set_outcomes rest w
  | [] => w
  end.

(** The world once [label] and the failure [e] are on the console. *)
Definition logged (label : string) (e : Exn) (w : World) : World :=
  set_console (console w ++ [(label, e)]) w.

(** ** What [register] persists *)

(** The tables, the clock and the entropy are the same; only the schedule of
    the database and the console may differ. *)
Definition same_store (w w' : World) : Prop :=
  profiles w' = profiles w /\ users w' = users w
  /\ clock w' = clock w /\ entropy w' = entropy w.

(** The credential row of a registration: the hash, never the password. *)
Definition credential_row (id : string) (dto : RegisterDto) (hash : string) (now : Z)
  : AuthUser :=
  {| u_id := id;
     u_email := r_email dto;
     u_encrypted_password := Some hash;
     u_email_confirmed_at := now;
     u_created_at := now;
     u_updated_at := now |}.

(** The profile row of a registration: the role is [customer]. *)
Definition profile_row (id : string) (dto : RegisterDto) (now : Z) : Profile :=
  {| p_id := id;
     p_email := r_email dto;
     p_full_name := Some (r_full_name dto);
     p_avatar_url := None;
     p_role := Some customer;
     p_updated_at := now |}.

(** The identity the tokens of a registration are issued for. *)
Definition registered_identity (id : string) (dto : RegisterDto) : JwtPayload :=
  {| sub := id; email := r_email dto; role := "customer"; iat := None; exp := None |}.

(** The weak-password error: 400, with the list of the violated rules. *)
Definition weak_password_error (password : string) : Exn :=
  HttpException BadRequest "Password does not meet strength requirements"
    (errors (PasswordService.validatePasswordStrength password)).

(** The duplicate-email error: 409. *)
Definition duplicate_email_error : Exn :=
  http Conflict "User with this email already exists".

(** ** Credentials *)

(** The password is wrong for the email: whatever hash the first credential
    row of the email stores, [bcrypt.compare] does not answer [true] on it. *)
Definition wrong_password {X : Externals} (w : World) (e password : string) : Prop :=
  forall u h,
    find (fun u => (u_email u =? e)%string) (users w) = Some u ->
    u_encrypted_password u = Some h ->
    bcrypt_compare password h <> Some true.

(** ** The identity of a payload *)

(** What the authentication guard attaches for a payload. *)
Definition identity_of (p : JwtPayload) : RequestUser :=
  {| ru_id := sub p; ru_email := email p; ru_role := role p |}.

(** The request with an identity attached. *)
Definition attach (request : Request) (u : RequestUser) : Request :=
  {| authorization := authorization request; user := Some u |}.

(** ** Operations that only read *)

(** Whatever it answers, the operation leaves the tables, the clock and the
    entropy as they were. *)
Definition preserves {A} (m : M A) : Prop :=
  forall w, same_store w (snd (m w)).

(** An error that is no [HttpException]: a database error or a plain [Error]. *)
Definition not_http (e : Exn) : Prop :=
  match e with
  | HttpException _ _ _ => False
  | _ => True
  end.

(** ** The errors an operation can throw *)

(** Every error the operation throws satisfies [P]. *)
Definition throws_only {A} (P : Exn -> Prop) (m : M A) : Prop :=
  forall w e w', m w = (Throw e, w') -> P e.

(** The 500 of a registration, a login, a refresh. *)
Definition registration_failed : Exn :=
  http InternalServerError "Registration failed. Please try again.".

Definition authentication_failed : Exn :=
  http InternalServerError "Authentication failed. Please try again.".

(** The hash of the first credential row of an email. *)
Definition stored_hash (w : World) (e : string) : option string :=
  match find (fun u => (u_email u =? e)%string) (users w) with
  | Some u => u_encrypted_password u
  | None => None
  end.

(** ** Users *)

(** The 404 of [updateProfile]. *)
Definition user_not_found : Exn := http NotFound "User not found".

(** The role a created profile gets. *)
Definition created_role (userData : CreateUserDto) : user_role :=
  match cu_role userData with
  | Some r => r
  | None => customer
  end.

(** ** The Passport strategy *)

Definition missing_user_id : Exn :=
  http Unauthorized "Invalid token payload: missing user ID".

Definition user_deactivated : Exn :=
  http Unauthorized "User not found or has been deactivated".

(** What [validate] reports of a profile. *)
Definition strategy_user (p : Profile) : StrategyUser :=
  {| su_id := p_id p;
     su_email := p_email p;
     su_role := p_role p;
     su_full_name := p_full_name p;
     su_avatar_url := p_avatar_url p |}.

(** What a guarded route answers for an identity. *)
Definition view_of (u : RequestUser) (message : string) : ProfileView :=
  {| pv_id := ru_id u; pv_email := ru_email u; pv_role := ru_role u;
     pv_message := message |}.

(** ** The errors of the guard and of a refresh *)




Definition refresh_token_refused : Exn :=
  http Unauthorized "Invalid or expired refresh token".

Definition refresh_failed : Exn :=
  http InternalServerError "Token refresh failed. Please login again.".

(** ** Updating a profile *)

(** A field of an update request: the value the request gives is the new
    value, and a field the request leaves out keeps the old one. *)
Definition given_or_kept {A} (given old new : option A) : Prop :=
  match given with
  | Some v => new = Some v
  | None => new = old
  end.
(** * Properties *)

(** ** The toy packages meet what the services rely on *)

Lemma unframe_frame (s rest : string) :
  Toy.unframe (Toy.frame s ++ rest) = Some (s, rest).
Proof.
  induction s as [|c s IH]; cbn [Toy.frame append Toy.unframe].
  - reflexivity.
  - now rewrite IH.
Qed.

Lemma Z_of_string_of_Z (z : Z) : Toy.Z_of_string (Toy.string_of_Z z) = Some z.
Proof.
  unfold Toy.Z_of_string, Toy.string_of_Z.
  rewrite NilEmpty.isi. cbn. now rewrite DecimalZ.of_to.
Qed.

Lemma time_of_string_of_time (t : option Z) :
  Toy.time_of_string (Toy.string_of_time t) = Some t.
Proof.
  destruct t as [z|]; cbn; [|reflexivity].
  now rewrite Z_of_string_of_Z.
Qed.

Lemma toy_decode_encode (c : JwtPayload) (key key' : string) :
  Toy.decode (Toy.encode c key') key = if (key' =? key)%string then Some c else None.
Proof.
  unfold Toy.decode, Toy.encode.
  repeat rewrite unframe_frame.
  replace (Toy.frame key') with (Toy.frame key' ++ "")%string
    by (generalize (Toy.frame key'); intro s; induction s; cbn; congruence).
  rewrite unframe_frame, !time_of_string_of_time.
  destruct c; reflexivity.
Qed.

Lemma toy_laws : JwsLaws Toy.externals.
Proof.
  split; cbn; intros.
  - now rewrite toy_decode_encode, String.eqb_refl.
  - rewrite toy_decode_encode.
    destruct (String.eqb_spec key' key); congruence.
Qed.

(** ** PasswordService.validatePasswordStrength *)

Section CharacterClasses.

Lemma leb_le (a b : ascii) :
  (a <=? b)%char = true <-> (N_of_ascii a <= N_of_ascii b)%N.
Proof.
  unfold Ascii.leb, Ascii.compare, N.le.
  destruct (N_of_ascii a ?= N_of_ascii b)%N; split; congruence.
Qed.

Lemma lower_between c : Js.lower c = true <-> PasswordRules.between 97 122 c.
Proof.
  unfold Js.lower, PasswordRules.between.
  now rewrite andb_true_iff, !leb_le.
Qed.

Lemma upper_between c : Js.upper c = true <-> PasswordRules.between 65 90 c.
Proof.
  unfold Js.upper, PasswordRules.between.
  now rewrite andb_true_iff, !leb_le.
Qed.

Lemma digit_between c : Js.digit c = true <-> PasswordRules.between 48 57 c.
Proof.
  unfold Js.digit, PasswordRules.between.
  now rewrite andb_true_iff, !leb_le.
Qed.

Lemma special_in c :
  Js.special c = true <-> In c ["@"; "$"; "!"; "%"; "*"; "?"; "&"]%char.
Proof.
  unfold Js.special. rewrite existsb_exists. split.
  - intros (x & Hin & Heq). apply Ascii.eqb_eq in Heq. now subst.
  - intros Hin. exists c. split; [assumption | apply Ascii.eqb_refl].
Qed.

Lemma test_has (cls : ascii -> bool) (P : ascii -> Prop) (p : string) :
  (forall c, cls c = true <-> P c) ->
  Js.test cls p = true <-> PasswordRules.has P p.
Proof.
  intros Hcls. unfold PasswordRules.has.
  induction p as [|c p IH]; cbn.
  - split; [discriminate | intros (c & [] & _)].
  - rewrite orb_true_iff, IH, Hcls. split.
    + intros [Hc | (d & Hin & Hd)]; [exists c | exists d]; auto.
    + intros (d & [-> | Hin] & Hd); [left | right; exists d]; auto.
Qed.

End CharacterClasses.

(** Whether a rule is met, read off the tests the method makes. *)
Lemma meets_iff (password : string) :
  ((String.length password <? 8)%nat = false <->
     PasswordRules.meets PasswordRules.MinLength password)
  /\ (Js.test Js.lower password = true <->
        PasswordRules.meets PasswordRules.Lowercase password)
  /\ (Js.test Js.upper password = true <->
        PasswordRules.meets PasswordRules.Uppercase password)
  /\ (Js.test Js.digit password = true <->
        PasswordRules.meets PasswordRules.Digit password)
  /\ (Js.test Js.special password = true <->
        PasswordRules.meets PasswordRules.SpecialChar password).
Proof.
  split; [|split; [|split; [|split]]]; cbn [PasswordRules.meets].
  - now rewrite Nat.ltb_ge.
  - apply test_has, lower_between.
  - apply test_has, upper_between.
  - apply test_has, digit_between.
  - apply test_has, special_in.
Qed.

Ltac decide_rule H :=
  match type of H with
  | (?b = ?b) <-> ?P => assert P by (apply H; reflexivity)
  | (_ = _) <-> ?P => assert (~ P) by (intros HP; apply H in HP; discriminate)
  end;
  clear H.

Ltac name_rule :=
  first [ exists PasswordRules.MinLength; reflexivity
        | exists PasswordRules.Lowercase; reflexivity
        | exists PasswordRules.Uppercase; reflexivity
        | exists PasswordRules.Digit; reflexivity
        | exists PasswordRules.SpecialChar; reflexivity ].

(** C4.  For every password, [validatePasswordStrength] answers
    [isValid = true] exactly when the password has at least 8 code units and
    contains a lowercase letter, an uppercase letter, a digit and one of
    [@ $ ! % * ? &]; the error list holds the message of every violated rule
    exactly once and the message of no rule that is met (all violated rules
    are reported together), every entry is the message of a rule, and the
    list is empty exactly when [isValid] is [true]. *)
Theorem validatePasswordStrength_reports_every_violated_rule (password : string) :
  let result := PasswordService.validatePasswordStrength password in
  (isValid result = true <-> forall r, PasswordRules.meets r password)
  /\ (forall r,
        (PasswordRules.meets r password ->
           count_occ string_dec (errors result) (PasswordRules.message r) = 0%nat)
        /\ (~ PasswordRules.meets r password ->
              count_occ string_dec (errors result) (PasswordRules.message r) = 1%nat))
  /\ (forall m, In m (errors result) -> exists r, m = PasswordRules.message r)
  /\ (errors result = [] <-> isValid result = true).
Proof.
  destruct (meets_iff password) as (Hlen & Hlow & Hup & Hdig & Hspec).
  unfold PasswordService.validatePasswordStrength.
  destruct (String.length password <? 8)%nat;
    destruct (Js.test Js.lower password);
    destruct (Js.test Js.upper password);
    destruct (Js.test Js.digit password);
    destruct (Js.test Js.special password);
    cbn -[PasswordRules.meets PasswordRules.message string_dec];
    decide_rule Hlen; decide_rule Hlow; decide_rule Hup; decide_rule Hdig;
    decide_rule Hspec.
  all: split; [|split; [|split]].
  all: try (split; intros; first [ reflexivity | discriminate ]).
  all: try (split;
            [ first [ discriminate | intros _ r; destruct r; assumption ]
            | intros Hall;
              first [ reflexivity
                    | exfalso;
                      match goal with Hn : ~ _ |- _ => exact (Hn (Hall _)) end ] ]).
  all: try (intros r; destruct r; split; intros Hm;
            first [ contradiction | vm_compute; reflexivity ]).
  all: intros m Hin; cbn in Hin;
    repeat (destruct Hin as [Hin | Hin]; [subst m; name_rule | ]);
    contradiction.
Qed.

Lemma validatePasswordStrength_reports_every_violated_rule_witness :
  isValid (PasswordService.validatePasswordStrength "StrongPass123!") = true
  /\ count_occ string_dec (errors (PasswordService.validatePasswordStrength "a"))
       "Password must be at least 8 characters long" = 1%nat
  /\ count_occ string_dec (errors (PasswordService.validatePasswordStrength "a"))
       "Password must contain at least one lowercase letter" = 0%nat.
Proof.
  split; [|split].
  - apply (proj2 (proj1
             (validatePasswordStrength_reports_every_violated_rule "StrongPass123!"))).
    intros r; destruct r; cbn.
    + lia.
    + exists "t"%char. split; [cbn; tauto | split; cbn; lia].
    + exists "S"%char. split; [cbn; tauto | split; cbn; lia].
    + exists "1"%char. split; [cbn; tauto | split; cbn; lia].
    + exists "!"%char. split; cbn; tauto.
  - apply (proj2 (proj1 (proj2
             (validatePasswordStrength_reports_every_violated_rule "a"))
             PasswordRules.MinLength)).
    cbn. lia.
  - apply (proj1 (proj1 (proj2
             (validatePasswordStrength_reports_every_violated_rule "a"))
             PasswordRules.Lowercase)).
    exists "a"%char. split; [cbn; tauto | split; cbn; lia].
Defined.

(** The passwords of the test suite. *)
Example password_strong :
  PasswordService.validatePasswordStrength "StrongPass123!"
  = {| isValid := true; errors := [] |}.
Proof. reflexivity. Qed.

Example password_single_letter :
  PasswordService.validatePasswordStrength "a"
  = {| isValid := false;
       errors := [PasswordService.msg_length; PasswordService.msg_upper;
                  PasswordService.msg_digit; PasswordService.msg_special] |}.
Proof. reflexivity. Qed.

Example password_only_spaces :
  PasswordService.validatePasswordStrength "        "
  = {| isValid := false;
       errors := [PasswordService.msg_lower; PasswordService.msg_upper;
                  PasswordService.msg_digit; PasswordService.msg_special] |}.
Proof. reflexivity. Qed.

Example password_unsupported_special :
  PasswordService.validatePasswordStrength "Password123#"
  = {| isValid := false; errors := [PasswordService.msg_special] |}.
Proof. reflexivity. Qed.

Example password_every_special :
  forallb (fun c => isValid (PasswordService.validatePasswordStrength
                               ("Password123" ++ String c "")))
    ["@"; "$"; "!"; "%"; "*"; "?"; "&"]%char = true.
Proof. reflexivity. Qed.

(** ** JwtService.extractTokenFromHeader *)

Section Split.

Lemma split_not_nil (sep : ascii) (s : string) : Js.split sep s <> [].
Proof.
  destruct s as [|c s]; cbn; [discriminate|].
  destruct (c =? sep)%char; [discriminate|].
  destruct (Js.split sep s); discriminate.
Qed.

(** A piece followed by a space and the rest is split after the piece. *)
Lemma split_piece (piece rest : string) :
  space_free piece ->
  Js.split " " (piece ++ String " " rest) = piece :: Js.split " " rest.
Proof.
  unfold space_free.
  induction piece as [|c piece IH]; cbn; intros Hfree.
  - reflexivity.
  - apply orb_false_iff in Hfree as [Hc Hfree].
    rewrite Hc, (IH Hfree). reflexivity.
Qed.

Lemma split_last_piece (piece : string) :
  space_free piece -> Js.split " " piece = [piece].
Proof.
  unfold space_free.
  induction piece as [|c piece IH]; cbn; intros Hfree.
  - reflexivity.
  - apply orb_false_iff in Hfree as [Hc Hfree].
    rewrite Hc, (IH Hfree). reflexivity.
Qed.

(** Conversely, the first piece of a split has no space, and what follows
    it in the string is a space and the string of the other pieces. *)
Lemma split_cons (h piece : string) (pieces : list string) :
  Js.split " " h = piece :: pieces ->
  space_free piece
  /\ match pieces with
     | [] => h = piece
     | _ :: _ => exists rest, h = piece ++ String " " rest
                              /\ Js.split " " rest = pieces
     end.
Proof.
  unfold space_free.
  revert piece pieces.
  induction h as [|c h IH]; cbn; intros piece pieces Hsplit.
  - injection Hsplit as <- <-. split; reflexivity.
  - destruct (c =? " ")%char eqn:Hc.
    + injection Hsplit as <- <-. split; [reflexivity|].
      apply Ascii.eqb_eq in Hc. subst c.
      pose proof (split_not_nil " " h) as Hne.
      destruct (Js.split " " h) as [|p ps] eqn:Hh; [contradiction|].
      exists h. now split.
    + destruct (Js.split " " h) as [|p ps] eqn:Hh;
        [now apply split_not_nil in Hh|].
      injection Hsplit as <- <-.
      destruct (IH p ps eq_refl) as [Hp Hshape].
      split; [cbn; now rewrite Hc|].
      destruct ps as [|p' ps'].
      * now subst h.
      * destruct Hshape as (rest & -> & Hrest).
        exists rest. now split.
Qed.

End Split.

(** The token is the second piece, when the first is "Bearer" and the second
    is not empty. *)
Lemma extractTokenFromHeader_pieces (h : string) :
  JwtService.extractTokenFromHeader h =
    match Js.split " " h with
    | type :: token :: _ =>
        if (type =? "Bearer")%string && negb (Js.falsy token) then Some token else None
    | _ => None
    end.
Proof.
  unfold JwtService.extractTokenFromHeader.
  destruct (Js.falsy h) eqn:Hh.
  - apply String.eqb_eq in Hh. subst h. reflexivity.
  - destruct (Js.split " " h) as [|type [|token rest]] eqn:Hs.
    + now apply split_not_nil in Hs.
    + cbn. now rewrite orb_true_r.
    + cbn. destruct (type =? "Bearer")%string, (Js.falsy token); reflexivity.
Qed.

(** C5, as the code has it.  For every Authorization header value,
    [extractTokenFromHeader] returns a token [t] exactly when [t] is not empty,
    holds no space, and the header is "Bearer", a space and [t], followed
    either by nothing or by a space and anything at all: the pieces after the
    second are ignored.  Every other value gives [null]; the function is
    total, so no value gives an error. *)
Theorem extractTokenFromHeader_second_piece (h t : string) :
  JwtService.extractTokenFromHeader h = Some t
  <-> t <> "" /\ space_free t /\ bearer_then t h.
Proof.
  rewrite extractTokenFromHeader_pieces. unfold bearer_then. split.
  - destruct (Js.split " " h) as [|type [|token rest]] eqn:Hs; try discriminate.
    destruct (String.eqb_spec type "Bearer") as [->|]; [|discriminate].
    destruct (Js.falsy token) eqn:Hf; [discriminate|].
    cbn. intros [= ->].
    apply split_cons in Hs as [_ (rest1 & -> & Hs)].
    apply split_cons in Hs as [Hfree Hshape].
    split; [|split; [assumption|]].
    + intros ->. discriminate.
    + destruct rest as [|p ps].
      * left. now subst rest1.
      * right. destruct Hshape as (tail & -> & _). now exists tail.
  - intros (Hne & Hfree & [-> | (tail & ->)]).
    + change ("Bearer " ++ t)%string with ("Bearer" ++ String " " t)%string.
      rewrite split_piece by reflexivity.
      rewrite split_last_piece by assumption.
      cbn. unfold Js.falsy. destruct (String.eqb_spec t ""); [contradiction | reflexivity].
    + change ("Bearer " ++ t ++ " " ++ tail)%string
        with ("Bearer" ++ String " " (t ++ String " " tail))%string.
      rewrite split_piece by reflexivity.
      rewrite split_piece by assumption.
      pose proof (split_not_nil " " tail).
      cbn. unfold Js.falsy. destruct (String.eqb_spec t ""); [contradiction | reflexivity].
Qed.

Lemma extractTokenFromHeader_second_piece_witness :
  JwtService.extractTokenFromHeader "Bearer abc def" = Some "abc"
  /\ JwtService.extractTokenFromHeader "Bearer abc" = Some "abc"
  /\ space_free "abc".
Proof.
  split; [|split].
  - apply (extractTokenFromHeader_second_piece "Bearer abc def" "abc").
    split; [discriminate|]. split; [reflexivity|].
    right. exists "def". reflexivity.
  - apply (extractTokenFromHeader_second_piece "Bearer abc" "abc").
    split; [discriminate|]. split; [reflexivity|].
    left. reflexivity.
  - apply (extractTokenFromHeader_second_piece "Bearer abc" "abc").
    reflexivity.
Defined.

(** C5, as the specification words it, fails: a header of three pieces still
    gives a token. *)
Lemma extractTokenFromHeader_three_pieces :
  JwtService.extractTokenFromHeader "Bearer abc def" = Some "abc"
  /\ Js.split " " "Bearer abc def" = ["Bearer"; "abc"; "def"]
  /\ "Bearer abc def" <> "Bearer " ++ "abc".
Proof.
  repeat split. discriminate.
Qed.

(** The headers of the test suite. *)
Example extract_valid :
  JwtService.extractTokenFromHeader "Bearer eyJhbGciOiJIUzI1NiIsInR5cCI6IkpXVCJ9.test.token"
  = Some "eyJhbGciOiJIUzI1NiIsInR5cCI6IkpXVCJ9.test.token".
Proof. reflexivity. Qed.

Example extract_missing_header : JwtService.extractTokenFromHeader "" = None.
Proof. reflexivity. Qed.

Example extract_invalid_format :
  JwtService.extractTokenFromHeader "InvalidFormat token" = None.
Proof. reflexivity. Qed.

Example extract_missing_token : JwtService.extractTokenFromHeader "Bearer " = None.
Proof. reflexivity. Qed.

(** ** JwtService: issuing and verifying *)

Ltac run_jwt :=
  unfold JwtService.generateTokens, JwtService.generateAccessToken,
    JwtService.generateRefreshToken, JwtService.verifyAccessToken,
    JwtService.verifyRefreshToken, JwtService.refreshTokens,
    jwt_sign, jwt_verify, access_span, refresh_span,
    bind, ret, throw, lift, gets in *.

Section Issuing.
Context {X : Externals} (cfg : Config).

(** With time spans the [ms] package understands, a pair is issued, the
    world is left as it was, and the two tokens are the stamped claims under
    the secret. *)
Lemma generateTokens_ok (id : JwtPayload) (w : World) (da dr : Z) :
  access_span cfg = Some da ->
  refresh_span cfg = Some dr ->
  JwtService.generateTokens cfg id w =
    (Ok {| access_token :=
             jws_encode (stamped id (clock w) da) (JwtService.secret cfg);
           refresh_token :=
             jws_encode (stamped id (clock w) dr) (JwtService.secret cfg) |}, w).
Proof.
  intros Ha Hr. run_jwt. now rewrite Ha, Hr.
Qed.

(** A pair is issued only with such time spans. *)
Lemma generateTokens_inv (id : JwtPayload) (w w' : World) (pair : TokenPair) :
  JwtService.generateTokens cfg id w = (Ok pair, w') ->
  exists da dr, access_span cfg = Some da /\ refresh_span cfg = Some dr.
Proof.
  run_jwt.
  destruct (timespan (Js.or_else (jwt_accessTokenExpiration cfg) "15m")) as [da|];
    [|discriminate].
  destruct (timespan (Js.or_else (jwt_refreshTokenExpiration cfg) "7d")) as [dr|];
    [|discriminate].
  intros _. now exists da, dr.
Qed.

(** Issuing reads the clock and nothing else, and changes nothing. *)
Lemma generateTokens_clock_only (id : JwtPayload) (w w' : World) :
  clock w = clock w' ->
  fst (JwtService.generateTokens cfg id w) = fst (JwtService.generateTokens cfg id w')
  /\ snd (JwtService.generateTokens cfg id w) = w.
Proof.
  intros Hclock. run_jwt. rewrite <- Hclock.
  destruct (timespan (Js.or_else (jwt_accessTokenExpiration cfg) "15m"));
    destruct (timespan (Js.or_else (jwt_refreshTokenExpiration cfg) "7d"));
    split; reflexivity.
Qed.

(** What a verifier answers is read off [jwt.verify]; the world is left as
    it was. *)
Lemma verifyAccessToken_cases (token : string) (w : World) :
  JwtService.verifyAccessToken cfg token w =
    match jwt_verify token (JwtService.secret cfg) (clock w) with
    | inl _ => (Throw (http Unauthorized JwtService.msg_access), w)
    | inr c => (Ok c, w)
    end.
Proof.
  run_jwt.
  destruct (jws_decode token (JwtService.secret cfg)) as [c|]; [|reflexivity].
  destruct c as [s e r i [x|]]; cbn; [destruct (clock w >=? x)|]; reflexivity.
Qed.

Lemma verifyRefreshToken_cases (token : string) (w : World) :
  JwtService.verifyRefreshToken cfg token w =
    match jwt_verify token (JwtService.secret cfg) (clock w) with
    | inl _ => (Throw (http Unauthorized JwtService.msg_refresh), w)
    | inr c => (Ok c, w)
    end.
Proof.
  run_jwt.
  destruct (jws_decode token (JwtService.secret cfg)) as [c|]; [|reflexivity].
  destruct c as [s e r i [x|]]; cbn; [destruct (clock w >=? x)|]; reflexivity.
Qed.

Context {L : JwsLaws X}.

(** [jwt.verify] on claims stamped under the same key, before they expire. *)
Lemma jwt_verify_stamped (id : JwtPayload) (key : string) (t0 span now : Z) :
  now < t0 + span ->
  jwt_verify (jws_encode (stamped id t0 span) key) key now
  = inr (stamped id t0 span).
Proof.
  intros Hfresh. unfold jwt_verify.
  rewrite jws_decode_encode. cbn.
  destruct (Z.geb_spec now (t0 + span)); [lia | reflexivity].
Qed.

(** [jwt.verify] refuses every invalid token. *)
Lemma jwt_verify_invalid (key token : string) (now : Z) :
  invalid_token key now token ->
  exists err, jwt_verify token key now = inl err.
Proof.
  unfold jwt_verify.
  intros [Hmal | c key' Hkey -> | c e Hdec Hexp Hle].
  - rewrite Hmal. now exists JsonWebTokenError.
  - rewrite jws_decode_other_key by congruence. now exists JsonWebTokenError.
  - rewrite Hdec, Hexp.
    destruct (Z.geb_spec now e); [|lia]. now exists TokenExpiredError.
Qed.

End Issuing.

(** C1.  For every identity, the pair [generateTokens] issues verifies: until
    the access token expires, [verifyAccessToken] on it returns a payload with
    the [sub], [email] and [role] of the identity (stamped with the time of
    issue and the expiry), and until the refresh token expires
    [verifyRefreshToken] does the same on the refresh token.  The pair is
    issued whenever the configured time spans are ones the package
    understands. *)
Theorem generateTokens_verify_roundtrip
    {X : Externals} {L : JwsLaws X} (cfg : Config)
    (id : JwtPayload) (w : World) (da dr : Z) :
  access_span cfg = Some da ->
  refresh_span cfg = Some dr ->
  exists pair,
    JwtService.generateTokens cfg id w = (Ok pair, w)
    /\ (forall w', clock w' < clock w + da ->
          exists p,
            JwtService.verifyAccessToken cfg (access_token pair) w' = (Ok p, w')
            /\ sub p = sub id /\ email p = email id /\ role p = role id
            /\ iat p = Some (clock w) /\ exp p = Some (clock w + da))
    /\ (forall w', clock w' < clock w + dr ->
          exists p,
            JwtService.verifyRefreshToken cfg (refresh_token pair) w' = (Ok p, w')
            /\ sub p = sub id /\ email p = email id /\ role p = role id
            /\ iat p = Some (clock w) /\ exp p = Some (clock w + dr)).
Proof.
  intros Ha Hr. eexists. split; [apply (generateTokens_ok cfg id w da dr Ha Hr)|].
  cbn [access_token refresh_token]. split; intros w' Hfresh.
  - exists (stamped id (clock w) da).
    rewrite verifyAccessToken_cases, jwt_verify_stamped by assumption.
    now repeat split.
  - exists (stamped id (clock w) dr).
    rewrite verifyRefreshToken_cases, jwt_verify_stamped by assumption.
    now repeat split.
Qed.

(** C2.  Every token that is malformed, signed under another secret, or
    expired is refused by both verifiers with one fixed 401 error each, which
    differ in the word access or refresh only: no payload is returned, and
    the error does not tell an expired token from a tampered one.  No other
    error ever leaves a verifier. *)
Theorem verify_refuses_with_one_error
    {X : Externals} {L : JwsLaws X} (cfg : Config) (token : string) (w : World) :
  (invalid_token (JwtService.secret cfg) (clock w) token ->
     JwtService.verifyAccessToken cfg token w
       = (Throw (http Unauthorized "Invalid or expired access token"), w)
     /\ JwtService.verifyRefreshToken cfg token w
        = (Throw (http Unauthorized "Invalid or expired refresh token"), w))
  /\ (forall e, fst (JwtService.verifyAccessToken cfg token w) = Throw e ->
        e = http Unauthorized "Invalid or expired access token")
  /\ (forall e, fst (JwtService.verifyRefreshToken cfg token w) = Throw e ->
        e = http Unauthorized "Invalid or expired refresh token").
Proof.
  rewrite verifyAccessToken_cases, verifyRefreshToken_cases.
  split; [|split].
  - intros Hinv. apply jwt_verify_invalid in Hinv as [err ->]. now split.
  - destruct (jwt_verify _ _ _); cbn; intros e [=]. now subst.
  - destruct (jwt_verify _ _ _); cbn; intros e [=]. now subst.
Qed.

Lemma generateTokens_verify_roundtrip_witness :
  exists pair,
    JwtService.generateTokens (X := Toy.externals) Toy.defaults
      Fixtures.customer_id Toy.world0 = (Ok pair, Toy.world0)
    /\ (forall w', clock w' < 1000 + 900 ->
          exists p,
            JwtService.verifyAccessToken (X := Toy.externals) Toy.defaults
              (access_token pair) w' = (Ok p, w')
            /\ sub p = "123e4567-e89b-12d3-a456-426614174000"
            /\ email p = "test@example.com" /\ role p = "customer"
            /\ iat p = Some 1000 /\ exp p = Some (1000 + 900))
    /\ (forall w', clock w' < 1000 + 604800 ->
          exists p,
            JwtService.verifyRefreshToken (X := Toy.externals) Toy.defaults
              (refresh_token pair) w' = (Ok p, w')
            /\ sub p = "123e4567-e89b-12d3-a456-426614174000"
            /\ email p = "test@example.com" /\ role p = "customer"
            /\ iat p = Some 1000 /\ exp p = Some (1000 + 604800)).
Proof.
  apply (@generateTokens_verify_roundtrip Toy.externals toy_laws Toy.defaults
           Fixtures.customer_id Toy.world0 900 604800); reflexivity.
Defined.

Lemma verify_refuses_with_one_error_witness :
  (JwtService.verifyAccessToken (X := Toy.externals) Toy.defaults
     "not-a-jwt" Toy.world0
   = (Throw (http Unauthorized "Invalid or expired access token"), Toy.world0)
   /\ JwtService.verifyRefreshToken (X := Toy.externals) Toy.defaults
        "not-a-jwt" Toy.world0
      = (Throw (http Unauthorized "Invalid or expired refresh token"), Toy.world0))
  /\ (JwtService.verifyAccessToken (X := Toy.externals) Toy.defaults
        Fixtures.token_of_wrong_secret Toy.world0
      = (Throw (http Unauthorized "Invalid or expired access token"), Toy.world0)
      /\ JwtService.verifyRefreshToken (X := Toy.externals) Toy.defaults
           Fixtures.token_of_wrong_secret Toy.world0
         = (Throw (http Unauthorized "Invalid or expired refresh token"), Toy.world0))
  /\ (JwtService.verifyAccessToken (X := Toy.externals) Toy.defaults
        Fixtures.token_expired Toy.world0
      = (Throw (http Unauthorized "Invalid or expired access token"), Toy.world0)
      /\ JwtService.verifyRefreshToken (X := Toy.externals) Toy.defaults
           Fixtures.token_expired Toy.world0
         = (Throw (http Unauthorized "Invalid or expired refresh token"), Toy.world0)).
Proof.
  split; [|split].
  - apply (@verify_refuses_with_one_error Toy.externals toy_laws Toy.defaults
             "not-a-jwt" Toy.world0).
    apply malformed. intros k. reflexivity.
  - apply (@verify_refuses_with_one_error Toy.externals toy_laws Toy.defaults
             Fixtures.token_of_wrong_secret Toy.world0).
    apply (wrong_signature _ _ _ (stamped Fixtures.customer_id 1000 900) "wrong-secret");
      [discriminate | reflexivity].
  - apply (@verify_refuses_with_one_error Toy.externals toy_laws Toy.defaults
             Fixtures.token_expired Toy.world0).
    apply (expired _ _ _ (stamped Fixtures.customer_id 1000 (-1)) 999);
      [vm_compute; reflexivity | reflexivity | vm_compute; discriminate].
Defined.

(** ** UsersService: the lookups *)

Ltac run :=
  unfold bind, ret, throw, lift, gets, try_catch, console_error in *.

Lemma query_cases {A} (run : M A) (w : World) :
  Prisma.query run w =
    match next_failure w with
    | Some e => (Throw (DbException e), after_query w)
    | None => run (after_query w)
    end.
Proof.
  unfold Prisma.query, next_failure, after_query.
  destruct (outcomes w) as [|[e|] rest]; reflexivity.
Qed.

Lemma after_query_tables (w : World) :
  profiles (after_query w) = profiles w
  /\ users (after_query w) = users w
  /\ clock (after_query w) = clock w
  /\ entropy (after_query w) = entropy w
  /\ console (after_query w) = console w.
Proof.
  unfold after_query. destruct (outcomes w); repeat split.
Qed.

Lemma findByEmail_cases (e : string) (w : World) :
  UsersService.findByEmail e w =
    match next_failure w with
    | Some err =>
        (Ok None,
         logged "Error finding user by email:" (DbException err) (after_query w))
    | None => (Ok (find (Prisma.by_email e) (profiles w)), after_query w)
    end.
Proof.
  unfold UsersService.findByEmail, Prisma.profiles_findUnique. run.
  rewrite query_cases.
  destruct (next_failure w); [reflexivity|].
  now destruct (after_query_tables w) as (-> & _).
Qed.

Lemma findById_cases (i : string) (w : World) :
  UsersService.findById i w =
    match next_failure w with
    | Some err =>
        (Ok None,
         logged "Error finding user by id:" (DbException err) (after_query w))
    | None => (Ok (find (Prisma.by_id i) (profiles w)), after_query w)
    end.
Proof.
  unfold UsersService.findById, Prisma.profiles_findUnique. run.
  rewrite query_cases.
  destruct (next_failure w); [reflexivity|].
  now destruct (after_query_tables w) as (-> & _).
Qed.

(** ** AuthService.register *)

Section MonadSteps.

Lemma bind_ok_inv {A B} (m : M A) (k : A -> M B) (w w' : World) (b : B) :
  bind m k w = (Ok b, w') ->
  exists a w1, m w = (Ok a, w1) /\ k a w1 = (Ok b, w').
Proof.
  unfold bind. destruct (m w) as [[a|e] w1]; [|discriminate].
  intros Hk. now exists a, w1.
Qed.

(** A handler that always throws lets no failure of the body through as an
    answer. *)
Lemma try_ok_inv {A} (m : M A) (h : Exn -> M A) (w w' : World) (a : A) :
  (forall e w1, exists e' w2, h e w1 = (Throw e', w2)) ->
  try_catch m h w = (Ok a, w') ->
  m w = (Ok a, w').
Proof.
  unfold try_catch. intros Hh.
  destruct (m w) as [[a0|e] w1]; [trivial|].
  destruct (Hh e w1) as (e' & w2 & ->). discriminate.
Qed.

Lemma same_store_refl (w : World) : same_store w w.
Proof. now repeat split. Qed.

Lemma same_store_trans (w1 w2 w3 : World) :
  same_store w1 w2 -> same_store w2 w3 -> same_store w1 w3.
Proof.
  unfold same_store. intros (? & ? & ? & ?) (? & ? & ? & ?).
  repeat split; congruence.
Qed.

Lemma same_store_after_query (w : World) : same_store w (after_query w).
Proof.
  destruct (after_query_tables w) as (? & ? & ? & ? & _). now repeat split.
Qed.

Lemma find_none_existsb {A} (f : A -> bool) (l : list A) :
  find f l = None -> existsb f l = false.
Proof.
  induction l as [|x l IH]; cbn; [reflexivity|].
  destruct (f x); [discriminate | exact IH].
Qed.

Lemma or_else_empty (s : string) : Js.or_else (Some s) "" = s.
Proof.
  cbn. unfold Js.falsy. now destruct (String.eqb_spec s "").
Qed.

End MonadSteps.

Section Steps.
Context {X : Externals}.

(** The lookup always answers; it answers with what the table holds when
    its query runs, and with [null] when its query fails. *)
Lemma findByEmail_answers (e : string) (w : World) :
  exists o w1,
    UsersService.findByEmail e w = (Ok o, w1)
    /\ same_store w w1
    /\ match next_failure w with
       | Some _ => o = None
       | None => o = find (Prisma.by_email e) (profiles w)
       end.
Proof.
  rewrite findByEmail_cases.
  destruct (next_failure w) as [err|]; do 2 eexists;
    (split; [reflexivity|]); split; try reflexivity.
  - apply (same_store_trans _ (after_query w)); [apply same_store_after_query|].
    now repeat split.
  - apply same_store_after_query.
Qed.

Lemma hashPassword_ok_inv (password h : string) (w w1 : World) :
  PasswordService.hashPassword password w = (Ok h, w1) ->
  bcrypt_hash password 12 (entropy w) = Some h
  /\ w1 = set_entropy (S (entropy w)) w.
Proof.
  unfold PasswordService.hashPassword, PasswordService.bcrypt_hash_call. run.
  change PasswordService.saltRounds with 12%nat.
  destruct (bcrypt_hash password 12 (entropy w)); [|discriminate].
  intros [= <- <-]. now split.
Qed.

Lemma users_create_ok_inv (data u : AuthUser) (w w1 : World) :
  Prisma.users_create data w = (Ok u, w1) ->
  u = data
  /\ users w1 = (users w ++ [data])%list
  /\ profiles w1 = profiles w
  /\ clock w1 = clock w.
Proof.
  unfold Prisma.users_create. rewrite query_cases.
  destruct (after_query_tables w) as (Hp & Hu & Hc & _).
  destruct (next_failure w); [discriminate|].
  destruct (existsb _ _); [discriminate|].
  intros [= <- <-]. cbn. now rewrite Hp, Hu, Hc.
Qed.

Lemma profiles_create_ok_inv (data p : Profile) (w w1 : World) :
  Prisma.profiles_create data w = (Ok p, w1) ->
  p = data
  /\ profiles w1 = (profiles w ++ [data])%list
  /\ users w1 = users w
  /\ clock w1 = clock w.
Proof.
  unfold Prisma.profiles_create. rewrite query_cases.
  destruct (after_query_tables w) as (Hp & Hu & Hc & _).
  destruct (next_failure w); [discriminate|].
  destruct (existsb _ _); [discriminate|].
  intros [= <- <-]. cbn. now rewrite Hp, Hu, Hc.
Qed.

Lemma create_handler_throws (error : Exn) (w : World) :
  exists e' w2,
    (if instanceof Conflict error then throw error
     else if has_code "P2002" error
          then throw (http Conflict UsersService.msg_conflict)
          else throw error) w = (@Throw Profile e', w2).
Proof.
  destruct (instanceof Conflict error), (has_code "P2002" error);
    unfold throw; eauto.
Qed.

Lemma create_ok_inv (userData : CreateUserDto) (p : Profile) (w w1 : World) :
  UsersService.create userData w = (Ok p, w1) ->
  p = {| p_id := cu_id userData;
         p_email := cu_email userData;
         p_full_name := Some (cu_full_name userData);
         p_avatar_url := None;
         p_role := Some (match cu_role userData with
                         | Some r => r
                         | None => customer
                         end);
         p_updated_at := clock w |}
  /\ profiles w1 = (profiles w ++ [p])%list
  /\ users w1 = users w
  /\ clock w1 = clock w.
Proof.
  unfold UsersService.create. intros H.
  apply try_ok_inv in H; [|apply create_handler_throws].
  apply bind_ok_inv in H as (existing & w2 & Hfind & H).
  destruct (findByEmail_answers (cu_email userData) w)
    as (o & w2' & Hfind' & (Hp & Hu & Hc & _) & _).
  rewrite Hfind in Hfind'. injection Hfind' as <- <-.
  destruct existing; [discriminate|].
  apply bind_ok_inv in H as (now & w3 & Hnow & H).
  injection Hnow as <- <-.
  apply bind_ok_inv in H as (row & w4 & Hcreate & H).
  injection H as <- <-.
  apply profiles_create_ok_inv in Hcreate as (-> & Hp' & Hu' & Hc').
  rewrite Hc. repeat split; congruence.
Qed.

End Steps.

Section Register.
Context {X : Externals} (cfg : Config).

Lemma register_handler_throws (error : Exn) (w : World) :
  exists e' w2,
    (if instanceof Conflict error || instanceof BadRequest error
     then throw error
     else if has_code "P2002" error
          then throw (http Conflict UsersService.msg_conflict)
          else (console_error "Registration error:" error ;;;
                throw (http InternalServerError AuthService.msg_register_failed)))
      w = (@Throw AuthResponse e', w2).
Proof.
  destruct (instanceof Conflict error || instanceof BadRequest error),
    (has_code "P2002" error); run; eauto.
Qed.

(** A weak password: refused before anything else is done. *)
Lemma register_weak (dto : RegisterDto) (w : World) :
  isValid (PasswordService.validatePasswordStrength (r_password dto)) = false ->
  AuthService.register cfg dto w = (Throw (weak_password_error (r_password dto)), w).
Proof.
  intros Hweak. unfold AuthService.register. run.
  rewrite Hweak. reflexivity.
Qed.

(** A strong password and a lookup that finds the email: refused after that
    one query, which is a read. *)
Lemma register_duplicate (dto : RegisterDto) (w : World) (p : Profile) :
  isValid (PasswordService.validatePasswordStrength (r_password dto)) = true ->
  next_failure w = None ->
  find (Prisma.by_email (r_email dto)) (profiles w) = Some p ->
  AuthService.register cfg dto w = (Throw duplicate_email_error, after_query w).
Proof.
  intros Hstrong Hruns Hfound. unfold AuthService.register.
  unfold try_catch, bind at 1. rewrite Hstrong. cbn [negb].
  unfold bind at 1. rewrite findByEmail_cases, Hruns, Hfound. reflexivity.
Qed.

(** An answer: both checks passed, and the two rows were appended. *)
Lemma register_ok_inv (dto : RegisterDto) (w w' : World) (resp : AuthResponse) :
  AuthService.register cfg dto w = (Ok resp, w') ->
  let id := uuid (S (entropy w)) in
  isValid (PasswordService.validatePasswordStrength (r_password dto)) = true
  /\ (next_failure w = None ->
        find (Prisma.by_email (r_email dto)) (profiles w) = None)
  /\ (exists h,
        bcrypt_hash (r_password dto) 12 (entropy w) = Some h
        /\ users w' = (users w ++ [credential_row id dto h (clock w)])%list)
  /\ profiles w' = (profiles w ++ [profile_row id dto (clock w)])%list
  /\ ar_user resp = {| pu_id := id; pu_email := r_email dto;
                       pu_role := Some customer;
                       pu_full_name := r_full_name dto |}
  /\ JwtService.generateTokens cfg (registered_identity id dto) w'
     = (Ok {| access_token := ar_access_token resp;
              refresh_token := ar_refresh_token resp |}, w').
Proof.
  intros H id. unfold AuthService.register in H.
  apply try_ok_inv in H; [|apply register_handler_throws].
  destruct (isValid (PasswordService.validatePasswordStrength (r_password dto)));
    [cbn [negb] in H | discriminate].
  split; [reflexivity|].
  apply bind_ok_inv in H as (existing & w1 & Hfind & H).
  destruct (findByEmail_answers (r_email dto) w)
    as (o & w1' & Hfind' & (Hp1 & Hu1 & Hc1 & He1) & Ho).
  rewrite Hfind in Hfind'. injection Hfind' as <- <-.
  destruct existing; [discriminate|].
  split; [intros Hruns; now rewrite Hruns in Ho|].
  apply bind_ok_inv in H as (h & w2 & Hhash & H).
  apply hashPassword_ok_inv in Hhash as (Hh & ->).
  apply bind_ok_inv in H as (userId & w3 & Hid & H).
  injection Hid as <- <-.
  apply bind_ok_inv in H as (now & w4 & Hnow & H).
  injection Hnow as <- <-.
  apply bind_ok_inv in H as (cred & w5 & Hcred & H).
  apply users_create_ok_inv in Hcred as (-> & Hu5 & Hp5 & Hc5).
  apply bind_ok_inv in H as (row & w6 & Hrow & H).
  apply create_ok_inv in Hrow as (-> & Hp6 & Hu6 & Hc6).
  apply bind_ok_inv in H as (tokens & w7 & Htok & H).
  injection H as <- <-.
  cbn -[Js.or_else JwtService.generateTokens] in Hu5, Hp5, Hc5, Hp6, Hc6 |- *.
  rewrite He1, Hc1, Hc5 in *. cbn in Hc6.
  change (JwtService.generateTokens cfg
            (registered_identity (uuid (S (entropy w))) dto) w6 = (Ok tokens, w7))
    in Htok.
  destruct (generateTokens_inv cfg _ _ _ _ Htok) as (da & dr & Ha & Hr).
  rewrite (generateTokens_ok cfg _ _ da dr Ha Hr) in Htok.
  injection Htok as <- <-.
  split; [|split; [|split]].
  - exists h. split; [exact Hh|].
    rewrite Hu6, Hu5, Hu1. reflexivity.
  - rewrite Hp6, Hp5, Hp1. reflexivity.
  - unfold AuthService.respond, AuthService.full_name_or_empty.
    cbn -[Js.or_else]. now rewrite or_else_empty.
  - rewrite (generateTokens_ok cfg _ _ da dr Ha Hr).
    reflexivity.
Qed.

Lemma existsb_orb {A} (f g : A -> bool) (l : list A) :
  existsb (fun x => f x || g x) l = existsb f l || existsb g l.
Proof.
  induction l as [|x l IH]; cbn; [reflexivity|].
  rewrite IH. destruct (f x), (g x), (existsb f l); reflexivity.
Qed.

(** An id and an email no credential row has: the insert is not refused. *)
Lemma same_account_fresh (data : AuthUser) (us : list AuthUser) :
  existsb (fun u => (u_id u =? u_id data)%string) us = false ->
  find (fun u => (u_email u =? u_email data)%string) us = None ->
  existsb (Prisma.same_account data) us = false.
Proof.
  intros Hid Hmail. apply find_none_existsb in Hmail.
  unfold Prisma.same_account. now rewrite existsb_orb, Hid, Hmail.
Qed.

Ltac simp :=
  cbn -[PasswordService.validatePasswordStrength JwtService.generateTokens
        Prisma.same_account].

Ltac run_register :=
  unfold AuthService.register, UsersService.create, UsersService.findByEmail,
    Prisma.profiles_findUnique, Prisma.users_create, Prisma.profiles_create,
    PasswordService.hashPassword, PasswordService.bcrypt_hash_call,
    AuthService.randomUUID, Prisma.query, credential_row, profile_row;
  run;
  change PasswordService.saltRounds with 12%nat.

(** In a database that answers every query, a strong password and an email
    no profile and no credential row has do get an answer. *)
Lemma register_ok (dto : RegisterDto) (w : World) (h : string) (da dr : Z) :
  isValid (PasswordService.validatePasswordStrength (r_password dto)) = true ->
  outcomes w = [] ->
  find (Prisma.by_email (r_email dto)) (profiles w) = None ->
  bcrypt_hash (r_password dto) 12 (entropy w) = Some h ->
  existsb (fun u => (u_id u =? uuid (S (entropy w)))%string) (users w) = false ->
  find (fun u => (u_email u =? r_email dto)%string) (users w) = None ->
  existsb (Prisma.by_id (uuid (S (entropy w)))) (profiles w) = false ->
  access_span cfg = Some da ->
  refresh_span cfg = Some dr ->
  exists resp w', AuthService.register cfg dto w = (Ok resp, w').
Proof.
  intros Hstrong Hquiet Hfree Hhash Hid_u Hmail_u Hid_p Ha Hr.
  pose proof (same_account_fresh
                (credential_row (uuid (S (entropy w))) dto h (clock w))
                (users w) Hid_u Hmail_u) as Hacc.
  apply find_none_existsb in Hfree.
  run_register.
  destruct w as [ps us os clk ent con]. cbn in Hquiet, Hfree, Hhash, Hacc, Hid_p.
  subst os. rewrite Hstrong.
  simp.
  assert (Hfind : find (Prisma.by_email (r_email dto)) ps = None).
  { clear - Hfree. induction ps as [|p ps IH]; cbn in *; [reflexivity|].
    destruct (Prisma.by_email (r_email dto) p); [discriminate | auto]. }
  rewrite Hfind. simp. rewrite Hhash. simp.
  unfold credential_row in Hacc. rewrite Hacc. simp.
  rewrite Hfind. simp. rewrite existsb_orb, Hid_p, Hfree. simp.
  rewrite (generateTokens_ok cfg _ _ da dr Ha Hr).
  do 2 eexists. reflexivity.
Qed.

(** When the lookup of the duplicate check fails, [register] carries on as
    for a free email, whether or not the email has a profile: the password is
    hashed and the credential insert is attempted.  If the insert fails as
    well, the answer is the one [register] has for that failure; if it runs
    for an id and an email no credential row has, the row is written. *)
Lemma register_lookup_fails (dto : RegisterDto) (w : World) (err : DbError)
    (h : string) :
  isValid (PasswordService.validatePasswordStrength (r_password dto)) = true ->
  bcrypt_hash (r_password dto) 12 (entropy w) = Some h ->
  (forall err2 rest,
     outcomes w = Some err :: Some err2 :: rest ->
     fst (AuthService.register cfg dto w)
     = Throw (if has_code "P2002" (DbException err2)
              then duplicate_email_error
              else registration_failed)
     /\ profiles (snd (AuthService.register cfg dto w)) = profiles w
     /\ users (snd (AuthService.register cfg dto w)) = users w)
  /\ (outcomes w = [Some err] ->
      existsb (fun u => (u_id u =? uuid (S (entropy w)))%string) (users w) = false ->
      find (fun u => (u_email u =? r_email dto)%string) (users w) = None ->
      users (snd (AuthService.register cfg dto w))
      = (users w ++ [credential_row (uuid (S (entropy w))) dto h (clock w)])%list
      /\ (forall p, find (Prisma.by_email (r_email dto)) (profiles w) = Some p ->
            fst (AuthService.register cfg dto w) = Throw duplicate_email_error
            /\ profiles (snd (AuthService.register cfg dto w)) = profiles w)).
Proof.
  intros Hstrong Hhash. split.
  - intros err2 rest Hfails.
    run_register. unfold registration_failed.
    destruct w as [ps us os clk ent con]. cbn in Hfails, Hhash.
    subst os. rewrite Hstrong.
    simp. rewrite Hhash. simp.
    destruct err2 as [code|message]; unfold has_code; simp.
    + destruct (code =? "P2002")%string eqn:Hcode; simp;
        rewrite ?Hcode; simp; repeat split.
    + repeat split.
  - intros Hfails Hid_u Hmail_u.
    pose proof (same_account_fresh
                  (credential_row (uuid (S (entropy w))) dto h (clock w))
                  (users w) Hid_u Hmail_u) as Hacc.
    run_register.
    destruct w as [ps us os clk ent con]. cbn in Hfails, Hhash, Hacc.
    subst os. rewrite Hstrong.
    simp.
    rewrite Hhash. simp. unfold credential_row in Hacc. rewrite Hacc. simp.
    split.
    + destruct (find (Prisma.by_email (r_email dto)) ps); simp; [reflexivity|].
      match goal with
      | |- context [existsb ?f ps] => destruct (existsb f ps)
      end; simp; [reflexivity|].
      match goal with
      | |- context [JwtService.generateTokens cfg ?id ?w] =>
          pose proof (generateTokens_clock_only cfg id w w eq_refl) as [_ Hsame];
          destruct (JwtService.generateTokens cfg id w) as [[tokens|e] w0]
      end; cbn in Hsame; subst w0; simp; [reflexivity|].
      destruct (instanceof Conflict e || instanceof BadRequest e),
        (has_code "P2002" e); reflexivity.
    + intros p Hfound. rewrite Hfound. simp. split; reflexivity.
Qed.

End Register.

(** C6, as the code has it.  [register] fails early.  A password that fails
    the strength check is refused with the 400 error that carries every
    violated rule, and the world is left exactly as it was: no query at all.
    A password that passes with an email whose lookup runs and finds a
    profile is refused with the 409 error, and neither table is written.  An
    answer is returned only when both checks passed: the password was hashed,
    the credential row with the hash and the profile row with role [customer]
    were appended, and the tokens are the ones issued for the new identity.
    In a database that answers every query such a registration, for an email
    no credential row has either, does succeed. *)
Theorem register_fails_early
    {X : Externals} (cfg : Config) (dto : RegisterDto) (w : World) :
  (isValid (PasswordService.validatePasswordStrength (r_password dto)) = false ->
     AuthService.register cfg dto w
     = (Throw (weak_password_error (r_password dto)), w))
  /\ (isValid (PasswordService.validatePasswordStrength (r_password dto)) = true ->
      next_failure w = None ->
      forall p, find (Prisma.by_email (r_email dto)) (profiles w) = Some p ->
        fst (AuthService.register cfg dto w) = Throw duplicate_email_error
        /\ profiles (snd (AuthService.register cfg dto w)) = profiles w
        /\ users (snd (AuthService.register cfg dto w)) = users w)
  /\ (forall resp w',
        AuthService.register cfg dto w = (Ok resp, w') ->
        isValid (PasswordService.validatePasswordStrength (r_password dto)) = true
        /\ (next_failure w = None ->
              find (Prisma.by_email (r_email dto)) (profiles w) = None)
        /\ (exists h,
              bcrypt_hash (r_password dto) 12 (entropy w) = Some h
              /\ users w' = (users w ++ [credential_row (uuid (S (entropy w)))
                                           dto h (clock w)])%list)
        /\ profiles w' = (profiles w ++ [profile_row (uuid (S (entropy w)))
                                           dto (clock w)])%list
        /\ ar_user resp = {| pu_id := uuid (S (entropy w));
                             pu_email := r_email dto;
                             pu_role := Some customer;
                             pu_full_name := r_full_name dto |}
        /\ JwtService.generateTokens cfg
             (registered_identity (uuid (S (entropy w))) dto) w'
           = (Ok {| access_token := ar_access_token resp;
                    refresh_token := ar_refresh_token resp |}, w'))
  /\ (forall h da dr,
        isValid (PasswordService.validatePasswordStrength (r_password dto)) = true ->
        outcomes w = [] ->
        find (Prisma.by_email (r_email dto)) (profiles w) = None ->
        bcrypt_hash (r_password dto) 12 (entropy w) = Some h ->
        existsb (fun u => (u_id u =? uuid (S (entropy w)))%string) (users w) = false ->
        find (fun u => (u_email u =? r_email dto)%string) (users w) = None ->
        existsb (Prisma.by_id (uuid (S (entropy w)))) (profiles w) = false ->
        access_span cfg = Some da ->
        refresh_span cfg = Some dr ->
        exists resp w', AuthService.register cfg dto w = (Ok resp, w')).
Proof.
  split; [|split; [|split]].
  - apply register_weak.
  - intros Hstrong Hruns p Hfound.
    rewrite (register_duplicate cfg dto w p Hstrong Hruns Hfound). cbn.
    destruct (after_query_tables w) as (Hp & Hu & _). now repeat split.
  - intros resp w' Hok. exact (register_ok_inv cfg dto w w' resp Hok).
  - intros h da dr. apply register_ok.
Qed.

Lemma register_fails_early_witness :
  AuthService.register (X := Toy.externals) Toy.defaults
    {| r_email := "weak@x.com"; r_password := "weak"; r_full_name := "W" |}
    Fixtures.world1
  = (Throw (weak_password_error "weak"), Fixtures.world1)
  /\ (fst (AuthService.register (X := Toy.externals) Toy.defaults
             Fixtures.register_a Fixtures.world1) = Throw duplicate_email_error
      /\ profiles (snd (AuthService.register (X := Toy.externals) Toy.defaults
                          Fixtures.register_a Fixtures.world1))
         = profiles Fixtures.world1
      /\ users (snd (AuthService.register (X := Toy.externals) Toy.defaults
                       Fixtures.register_a Fixtures.world1))
         = users Fixtures.world1)
  /\ exists resp w',
       AuthService.register (X := Toy.externals) Toy.defaults
         Fixtures.register_a Toy.world0 = (Ok resp, w').
Proof.
  split; [|split].
  - apply (@register_fails_early Toy.externals Toy.defaults
             {| r_email := "weak@x.com"; r_password := "weak"; r_full_name := "W" |}
             Fixtures.world1).
    reflexivity.
  - apply (proj1 (proj2 (@register_fails_early Toy.externals Toy.defaults
                           Fixtures.register_a Fixtures.world1)))
      with (p := profile_row "user-1" Fixtures.register_a 1000);
      reflexivity.
  - apply (proj2 (proj2 (proj2 (@register_fails_early Toy.externals Toy.defaults
                                  Fixtures.register_a Toy.world0))))
      with (h := "$2b$12$0$Str0ng!Pw") (da := 900) (dr := 604800);
      reflexivity.
Defined.

(** C6, as the specification words it, fails: the email has a profile, the
    database cannot be reached, and [register] answers the 500
    [Registration failed. Please try again.], not the duplicate-email error.
    The lookup of the duplicate check fails, so [findByEmail] answers [null];
    [register] goes on past the check, and the insert fails as well. *)
Lemma register_duplicate_unreachable_store :
  find (Prisma.by_email (r_email Fixtures.register_a))
       (profiles Fixtures.world1_unreachable) <> None
  /\ fst (AuthService.register (X := Toy.externals) Toy.defaults
            Fixtures.register_a Fixtures.world1_unreachable)
     = Throw registration_failed
  /\ registration_failed <> duplicate_email_error.
Proof.
  repeat split; vm_compute; discriminate.
Qed.

(** ** The lookups never throw *)

Lemma findById_answers {X : Externals} (i : string) (w : World) :
  exists o w1,
    UsersService.findById i w = (Ok o, w1)
    /\ same_store w w1
    /\ match next_failure w with
       | Some _ => o = None
       | None => o = find (Prisma.by_id i) (profiles w)
       end.
Proof.
  rewrite findById_cases.
  destruct (next_failure w) as [err|]; do 2 eexists;
    (split; [reflexivity|]); split; try reflexivity.
  - apply (same_store_trans _ (after_query w)); [apply same_store_after_query|].
    now repeat split.
  - apply same_store_after_query.
Qed.

(** C10.  [findByEmail] and [findById] never throw: in every world, whatever
    the database does with the query, each returns a profile or [null] and
    leaves the tables as they were; the answer is what the table holds when
    the query runs and [null] when the query fails, as for an absent row.  In
    particular, when the lookup of its duplicate check fails [register] goes
    on as for a free email, whether or not the email has a profile: it hashes
    the password and attempts the credential insert.  If that insert fails
    too, [register] answers as it does for that failure (409 for P2002, 500
    otherwise) and the tables are unchanged; if it runs, for an id and an
    email no credential row has, the credential row is written, and an email
    that has a profile is answered with 409 only then. *)
Theorem lookups_never_throw
    {X : Externals} (cfg : Config) (key : string) (w : World) :
  (exists o w1,
     UsersService.findByEmail key w = (Ok o, w1)
     /\ same_store w w1
     /\ match next_failure w with
        | Some _ => o = None
        | None => o = find (Prisma.by_email key) (profiles w)
        end)
  /\ (exists o w1,
        UsersService.findById key w = (Ok o, w1)
        /\ same_store w w1
        /\ match next_failure w with
           | Some _ => o = None
           | None => o = find (Prisma.by_id key) (profiles w)
           end)
  /\ (forall dto err h,
        isValid (PasswordService.validatePasswordStrength (r_password dto)) = true ->
        bcrypt_hash (r_password dto) 12 (entropy w) = Some h ->
        (forall err2 rest,
           outcomes w = Some err :: Some err2 :: rest ->
           fst (AuthService.register cfg dto w)
           = Throw (if has_code "P2002" (DbException err2)
                    then duplicate_email_error
                    else registration_failed)
           /\ profiles (snd (AuthService.register cfg dto w)) = profiles w
           /\ users (snd (AuthService.register cfg dto w)) = users w)
        /\ (outcomes w = [Some err] ->
            existsb (fun u => (u_id u =? uuid (S (entropy w)))%string) (users w)
            = false ->
            find (fun u => (u_email u =? r_email dto)%string) (users w) = None ->
            users (snd (AuthService.register cfg dto w))
            = (users w ++ [credential_row (uuid (S (entropy w))) dto h (clock w)])%list
            /\ (forall p, find (Prisma.by_email (r_email dto)) (profiles w) = Some p ->
                  fst (AuthService.register cfg dto w) = Throw duplicate_email_error
                  /\ profiles (snd (AuthService.register cfg dto w)) = profiles w))).
Proof.
  split; [|split].
  - apply findByEmail_answers.
  - apply findById_answers.
  - intros dto err h. apply register_lookup_fails.
Qed.

Lemma lookups_never_throw_witness :
  fst (UsersService.findByEmail "a@x.com" Fixtures.world1_failing) = Ok None
  /\ fst (UsersService.findById "user-1" Fixtures.world1_failing) = Ok None
  /\ fst (UsersService.findByEmail "a@x.com" Fixtures.world1)
     = Ok (Some (profile_row "user-1" Fixtures.register_a 1000))
  /\ fst (AuthService.register (X := Toy.externals) Toy.defaults
            Fixtures.register_a Fixtures.world1_unreachable)
     = Throw registration_failed
  /\ users (snd (AuthService.register (X := Toy.externals) Toy.defaults
                   {| r_email := "b@x.com"; r_password := "Str0ng!Pw";
                      r_full_name := "B" |} Fixtures.world1_failing))
     = (users Fixtures.world1_failing
          ++ [credential_row "user-3"
                {| r_email := "b@x.com"; r_password := "Str0ng!Pw";
                   r_full_name := "B" |} "$2b$12$2$Str0ng!Pw" 1000])%list.
Proof.
  pose proof (@lookups_never_throw Toy.externals Toy.defaults "a@x.com"
                Fixtures.world1_failing) as (Hemail & _ & Hwrites).
  pose proof (@lookups_never_throw Toy.externals Toy.defaults "user-1"
                Fixtures.world1_failing) as (_ & Hid & _).
  pose proof (@lookups_never_throw Toy.externals Toy.defaults "a@x.com"
                Fixtures.world1) as (Hfound & _ & _).
  pose proof (@lookups_never_throw Toy.externals Toy.defaults "a@x.com"
                Fixtures.world1_unreachable) as (_ & _ & Hdown).
  destruct Hemail as (o1 & w1 & -> & _ & ->).
  destruct Hid as (o2 & w2 & -> & _ & ->).
  destruct Hfound as (o3 & w3 & -> & _ & ->).
  split; [reflexivity|]. split; [reflexivity|]. split; [reflexivity|].
  split.
  - apply (proj1 (Hdown Fixtures.register_a
                    (UnknownRequestError "Database connection failed")
                    "$2b$12$2$Str0ng!Pw" eq_refl eq_refl)
             (UnknownRequestError "Database connection failed") []).
    reflexivity.
  - apply (proj2 (Hwrites {| r_email := "b@x.com"; r_password := "Str0ng!Pw";
                             r_full_name := "B" |}
                    (UnknownRequestError "Database connection failed")
                    "$2b$12$2$Str0ng!Pw" eq_refl eq_refl));
      reflexivity.
Defined.

(** ** AuthService.login *)

Section Login.
Context {X : Externals} (cfg : Config).

(** [validateUser] never throws, and answers [null] on a wrong password,
    whatever the database does with its queries. *)
Lemma validateUser_wrong_password (e password : string) (w : World) :
  wrong_password w e password ->
  fst (AuthService.validateUser e password w) = Ok None.
Proof.
  unfold wrong_password. intros Hwrong.
  unfold AuthService.validateUser, Prisma.users_findFirst,
    PasswordService.comparePasswords, PasswordService.bcrypt_compare_call.
  unfold try_catch, bind at 1. rewrite query_cases.
  destruct (after_query_tables w) as (_ & Hu & _).
  destruct (next_failure w); [reflexivity|].
  rewrite Hu.
  destruct (find _ (users w)) as [u|] eqn:Hfind; [|reflexivity].
  specialize (Hwrong u).
  destruct (u_encrypted_password u) as [h|]; [|reflexivity].
  specialize (Hwrong h eq_refl eq_refl).
  cbn [Js.falsy_opt]. destruct (Js.falsy h) eqn:Hh; [reflexivity|].
  replace (Js.or_else (Some h) "") with h by (cbn; now rewrite Hh).
  run. destruct (bcrypt_compare password h) as [[|]|]; cbn;
    [congruence | reflexivity | reflexivity].
Qed.

Lemma login_unregistered (dto : LoginDto) (w : World) :
  find (Prisma.by_email (l_email dto)) (profiles w) = None ->
  fst (AuthService.login cfg dto w) = Throw AuthService.invalidCredentialsError.
Proof.
  intros Hnone. unfold AuthService.login.
  unfold try_catch, bind at 1. rewrite findByEmail_cases.
  destruct (next_failure w); [reflexivity|].
  rewrite Hnone. reflexivity.
Qed.

Lemma login_wrong_password (dto : LoginDto) (w : World) :
  wrong_password w (l_email dto) (l_password dto) ->
  fst (AuthService.login cfg dto w) = Throw AuthService.invalidCredentialsError.
Proof.
  intros Hwrong. unfold AuthService.login.
  unfold try_catch, bind at 1.
  destruct (findByEmail_answers (l_email dto) w)
    as (o & w1 & -> & (_ & Hu & _) & _).
  destruct o as [p|]; [|reflexivity].
  unfold bind at 1.
  assert (Hwrong1 : wrong_password w1 (l_email dto) (l_password dto)).
  { unfold wrong_password in *. now rewrite Hu. }
  pose proof (validateUser_wrong_password _ _ _ Hwrong1) as Hv.
  destruct (AuthService.validateUser (l_email dto) (l_password dto) w1)
    as [r w2].
  cbn in Hv. subst r. reflexivity.
Qed.

End Login.

(** C3.  A login with a registered email and a wrong password, and a login
    with an email that was never registered, whatever its password, fail with
    the same error, the 401 [Invalid credentials] with no further detail: the
    error does not tell whether the email exists.  This holds whatever the
    database does with the queries of either login. *)
Theorem login_failures_are_identical
    {X : Externals} (cfg : Config)
    (registered unregistered : LoginDto) (w1 w2 : World) (p : Profile) :
  find (Prisma.by_email (l_email registered)) (profiles w1) = Some p ->
  wrong_password w1 (l_email registered) (l_password registered) ->
  find (Prisma.by_email (l_email unregistered)) (profiles w2) = None ->
  fst (AuthService.login cfg registered w1)
  = Throw (HttpException Unauthorized "Invalid credentials" [])
  /\ fst (AuthService.login cfg unregistered w2)
     = Throw (HttpException Unauthorized "Invalid credentials" [])
  /\ fst (AuthService.login cfg registered w1)
     = fst (AuthService.login cfg unregistered w2).
Proof.
  intros _ Hwrong Hnone.
  rewrite (login_wrong_password cfg registered w1 Hwrong).
  rewrite (login_unregistered cfg unregistered w2 Hnone).
  now repeat split.
Qed.

Lemma login_failures_are_identical_witness :
  fst (AuthService.login (X := Toy.externals) Toy.defaults
         {| l_email := "a@x.com"; l_password := "Wr0ng!Pw" |} Fixtures.world1)
  = Throw (HttpException Unauthorized "Invalid credentials" [])
  /\ fst (AuthService.login (X := Toy.externals) Toy.defaults
            {| l_email := "nobody@x.com"; l_password := "Str0ng!Pw" |} Fixtures.world1)
     = Throw (HttpException Unauthorized "Invalid credentials" [])
  /\ fst (AuthService.login (X := Toy.externals) Toy.defaults
            {| l_email := "a@x.com"; l_password := "Wr0ng!Pw" |} Fixtures.world1)
     = fst (AuthService.login (X := Toy.externals) Toy.defaults
              {| l_email := "nobody@x.com"; l_password := "Str0ng!Pw" |}
              Fixtures.world1).
Proof.
  apply (@login_failures_are_identical Toy.externals Toy.defaults
           {| l_email := "a@x.com"; l_password := "Wr0ng!Pw" |}
           {| l_email := "nobody@x.com"; l_password := "Str0ng!Pw" |}
           Fixtures.world1 Fixtures.world1
           (profile_row "user-1" Fixtures.register_a 1000)).
  - reflexivity.
  - intros u h Hu Hh. vm_compute in Hu. injection Hu as <-.
    vm_compute in Hh. injection Hh as <-. vm_compute. discriminate.
  - reflexivity.
Defined.

(** The scenario of the specification: after a registration, the login with
    the same credentials succeeds. *)
Example login_after_register :
  exists resp,
    fst (AuthService.login (X := Toy.externals) Toy.defaults
           {| l_email := "a@x.com"; l_password := "Str0ng!Pw" |} Fixtures.world1)
    = Ok resp
    /\ pu_email (ar_user resp) = "a@x.com"
    /\ pu_role (ar_user resp) = Some customer.
Proof. eexists. vm_compute. repeat split. Qed.

(** ** AuthService.refreshTokens *)


Lemma refreshTokens_cases {X : Externals} (cfg : Config) (token : string) (w : World) :
  AuthService.refreshTokens cfg token w =
    match jwt_verify token (JwtService.secret cfg) (clock w) with
    | inl _ => (Throw (http Unauthorized JwtService.msg_refresh), w)
    | inr c =>
        match JwtService.generateTokens cfg
                {| sub := sub c; email := email c; role := role c;
                   iat := None; exp := None |} w with
        | (Ok tokens, w1) => (Ok tokens, w1)
        | (Throw e, w1) =>
            if instanceof Unauthorized e then (Throw e, w1)
            else (Throw (http InternalServerError AuthService.msg_refresh_failed),
                  logged "Token refresh error:" e w1)
        end
    end.
Proof.
  unfold AuthService.refreshTokens, JwtService.refreshTokens.
  unfold try_catch, bind at 1. rewrite verifyRefreshToken_cases.
  destruct (jwt_verify token (JwtService.secret cfg) (clock w)) as [err|c];
    [reflexivity|].
  unfold bind at 1.
  destruct (JwtService.generateTokens cfg _ w) as [[tokens|e] w1]; [reflexivity|].
  destruct (instanceof Unauthorized e); reflexivity.
Qed.

(** C7, as the code has it.  When the refresh token verifies, the
    orchestrator returns a new pair issued for the [sub], [email] and [role]
    of the old payload alone, stamped with the present time (the old [iat]
    and [exp] are dropped); the answer depends on the token and the clock
    only, so no user is looked up.  When verification fails, the orchestrator
    rethrows the error of the token service as it is, the 401
    [Invalid or expired refresh token]: nothing is translated. *)
Theorem refreshTokens_reissues_or_rethrows
    {X : Externals} (cfg : Config) (token : string) (w : World) :
  (forall p da dr,
     JwtService.verifyRefreshToken cfg token w = (Ok p, w) ->
     access_span cfg = Some da ->
     refresh_span cfg = Some dr ->
     AuthService.refreshTokens cfg token w
     = (Ok {| access_token :=
                jws_encode {| sub := sub p; email := email p; role := role p;
                              iat := Some (clock w);
                              exp := Some (clock w + da) |}
                  (JwtService.secret cfg);
              refresh_token :=
                jws_encode {| sub := sub p; email := email p; role := role p;
                              iat := Some (clock w);
                              exp := Some (clock w + dr) |}
                  (JwtService.secret cfg) |}, w))
  /\ (forall e,
        fst (JwtService.verifyRefreshToken cfg token w) = Throw e ->
        AuthService.refreshTokens cfg token w
        = (Throw (http Unauthorized "Invalid or expired refresh token"), w)
        /\ e = http Unauthorized "Invalid or expired refresh token")
  /\ (forall w',
        clock w' = clock w ->
        fst (AuthService.refreshTokens cfg token w')
        = fst (AuthService.refreshTokens cfg token w)).
Proof.
  split; [|split].
  - intros p da dr Hverify Ha Hr.
    unfold AuthService.refreshTokens, JwtService.refreshTokens.
    unfold try_catch, bind at 1. rewrite Hverify.
    unfold bind at 1.
    rewrite (generateTokens_ok cfg _ w da dr Ha Hr). reflexivity.
  - intros e. rewrite verifyRefreshToken_cases.
    unfold AuthService.refreshTokens, JwtService.refreshTokens.
    unfold try_catch, bind at 1. rewrite verifyRefreshToken_cases.
    destruct (jwt_verify token (JwtService.secret cfg) (clock w));
      cbn; intros [= <-]. now split.
  - intros w' Hclock. rewrite !refreshTokens_cases, Hclock.
    destruct (jwt_verify token (JwtService.secret cfg) (clock w)) as [err|c];
      [reflexivity|].
    match goal with
    | |- context [JwtService.generateTokens cfg ?id w'] =>
        destruct (generateTokens_clock_only cfg id w' w Hclock) as [Hfst Hsnd'];
        destruct (generateTokens_clock_only cfg id w w eq_refl) as [_ Hsnd];
        destruct (JwtService.generateTokens cfg id w') as [r' v'];
        destruct (JwtService.generateTokens cfg id w) as [r v]
    end.
    cbn in Hfst, Hsnd, Hsnd'. subst r' v v'.
    destruct r as [tokens|e]; [reflexivity|].
    destruct (instanceof Unauthorized e); reflexivity.
Qed.

Lemma refreshTokens_reissues_or_rethrows_witness :
  fst (AuthService.refreshTokens (X := Toy.externals) Toy.defaults
         (refresh_token Fixtures.customer_pair) Fixtures.world1_emptied)
  = Ok Fixtures.customer_pair
  /\ AuthService.refreshTokens (X := Toy.externals) Toy.defaults
       "invalid.refresh.token" Toy.world0
     = (Throw (http Unauthorized "Invalid or expired refresh token"), Toy.world0).
Proof.
  split.
  - pose proof (@refreshTokens_reissues_or_rethrows Toy.externals Toy.defaults
                  (refresh_token Fixtures.customer_pair) Fixtures.world1_emptied)
      as (Hreissue & _ & _).
    rewrite (Hreissue (stamped Fixtures.customer_id 1000 604800) 900 604800);
      reflexivity.
  - apply (@refreshTokens_reissues_or_rethrows Toy.externals Toy.defaults
             "invalid.refresh.token" Toy.world0)
      with (e := http Unauthorized "Invalid or expired refresh token").
    reflexivity.
Defined.

(** C7, as the specification words it, fails: the error of a refresh with an
    invalid token is the one of the token service, not the
    [Invalid credentials] of a failed login. *)
Lemma refreshTokens_does_not_translate :
  fst (JwtService.verifyRefreshToken (X := Toy.externals) Toy.defaults
         "invalid.refresh.token" Toy.world0)
  = Throw (http Unauthorized "Invalid or expired refresh token")
  /\ fst (AuthService.refreshTokens (X := Toy.externals) Toy.defaults
            "invalid.refresh.token" Toy.world0)
     = Throw (http Unauthorized "Invalid or expired refresh token")
  /\ fst (AuthService.refreshTokens (X := Toy.externals) Toy.defaults
            "invalid.refresh.token" Toy.world0)
     <> Throw AuthService.invalidCredentialsError.
Proof.
  repeat split. vm_compute. discriminate.
Qed.

(** ** RolesGuard *)

Lemma includes_In (xs : list string) (x : string) :
  Js.includes xs x = true <-> In x xs.
Proof.
  unfold Js.includes. rewrite existsb_exists. split.
  - intros (y & Hin & Heq). apply String.eqb_eq in Heq. now subst.
  - intros Hin. exists x. split; [assumption | apply String.eqb_refl].
Qed.

(** C8.  The role guard passes a route that declares no roles, or an empty
    list of them.  On a route with roles it fails with the 401
    [User not authenticated] when the request carries no identity; with an
    identity whose role is not among the declared ones it fails with a 403,
    which is not the 401 of authentication; otherwise it passes. *)
Theorem rolesGuard_decides (requiredRoles : option (list user_role)) (request : Request) :
  ((requiredRoles = None \/ requiredRoles = Some []) ->
     RolesGuard.canActivate requiredRoles request = Ok true)
  /\ (forall roles,
        requiredRoles = Some roles -> roles <> [] ->
        (user request = None ->
           RolesGuard.canActivate requiredRoles request
           = Throw (http Unauthorized "User not authenticated"))
        /\ (forall u,
              user request = Some u ->
              (~ In (ru_role u) (map role_name roles) ->
                 exists message,
                   RolesGuard.canActivate requiredRoles request
                   = Throw (http Forbidden message)
                   /\ statusCode Forbidden = 403
                   /\ statusCode Forbidden <> statusCode Unauthorized)
              /\ (In (ru_role u) (map role_name roles) ->
                    RolesGuard.canActivate requiredRoles request = Ok true))).
Proof.
  split.
  - intros [-> | ->]; reflexivity.
  - intros roles -> Hne. destruct roles as [|r roles]; [contradiction|].
    unfold RolesGuard.canActivate. split.
    + intros ->. reflexivity.
    + intros u ->. split.
      * intros Hnot. destruct (Js.falsy (ru_role u)).
        -- exists "User role not found". repeat split. discriminate.
        -- destruct (Js.includes (map role_name (r :: roles)) (ru_role u)) eqn:Hinc.
           ++ apply includes_In in Hinc. contradiction.
           ++ exists "Insufficient permissions". repeat split. discriminate.
      * intros Hin.
        assert (Hfalsy : Js.falsy (ru_role u) = false).
        { unfold Js.falsy. destruct (String.eqb_spec (ru_role u) ""); [|reflexivity].
          exfalso. rewrite e in Hin. clear - Hin.
          induction (r :: roles) as [|x xs IH]; [contradiction|].
          destruct Hin as [Hx | Hin]; [now destruct x | auto]. }
        rewrite Hfalsy. apply includes_In in Hin. now rewrite Hin.
Qed.

Lemma rolesGuard_decides_witness :
  RolesGuard.canActivate None {| authorization := None; user := None |} = Ok true
  /\ RolesGuard.canActivate (Some [admin]) {| authorization := None; user := None |}
     = Throw (http Unauthorized "User not authenticated")
  /\ (exists message,
        RolesGuard.canActivate (Some [admin])
          {| authorization := None;
             user := Some {| ru_id := "u"; ru_email := "c@x.com";
                             ru_role := "customer" |} |}
        = Throw (http Forbidden message)
        /\ statusCode Forbidden = 403
        /\ statusCode Forbidden <> statusCode Unauthorized)
  /\ RolesGuard.canActivate (Some [admin])
       {| authorization := None;
          user := Some {| ru_id := "u"; ru_email := "a@x.com";
                          ru_role := "admin" |} |}
     = Ok true.
Proof.
  split; [|split; [|split]].
  - apply (rolesGuard_decides None). now left.
  - apply (proj2 (rolesGuard_decides (Some [admin])
                    {| authorization := None; user := None |}) [admin]);
      [reflexivity | discriminate | reflexivity].
  - apply (proj2 (rolesGuard_decides (Some [admin]) _) [admin] eq_refl
             ltac:(discriminate)) with
      (u := {| ru_id := "u"; ru_email := "c@x.com"; ru_role := "customer" |});
      [reflexivity|].
    cbn. intros [H | []]. discriminate.
  - apply (proj2 (rolesGuard_decides (Some [admin]) _) [admin] eq_refl
             ltac:(discriminate)) with
      (u := {| ru_id := "u"; ru_email := "a@x.com"; ru_role := "admin" |});
      [reflexivity|].
    cbn. now left.
Defined.

(** ** JwtAuthGuard *)

Section AuthGuard.
Context {X : Externals} (cfg : Config).

Lemma canActivate_cases (request : Request) (w : World) :
  JwtAuthGuard.canActivate cfg request w =
    match authorization request with
    | None => (Throw (http Unauthorized "Authorization header is missing"), w)
    | Some h =>
        if Js.falsy h
        then (Throw (http Unauthorized "Authorization header is missing"), w)
        else
          match JwtService.extractTokenFromHeader h with
          | None =>
              (Throw (http Unauthorized "Invalid authorization header format"), w)
          | Some token =>
              if Js.falsy token
              then (Throw (http Unauthorized "Invalid authorization header format"), w)
              else
                match jwt_verify token (JwtService.secret cfg) (clock w) with
                | inl _ => (Throw (http Unauthorized JwtService.msg_access), w)
                | inr p => (Ok (true, attach request (identity_of p)), w)
                end
          end
    end.
Proof.
  unfold JwtAuthGuard.canActivate, attach.
  destruct (authorization request) as [h|]; [|reflexivity].
  cbn [Js.falsy_opt]. destruct (Js.falsy h) eqn:Hh; [reflexivity|].
  replace (Js.or_else (Some h) "") with h by (cbn; now rewrite Hh).
  destruct (JwtService.extractTokenFromHeader h) as [token|]; [|reflexivity].
  destruct (Js.falsy token); [reflexivity|].
  unfold try_catch, bind at 1. rewrite verifyAccessToken_cases.
  destruct (jwt_verify token (JwtService.secret cfg) (clock w)); reflexivity.
Qed.

(** A token [extractTokenFromHeader] returns is never empty. *)
Lemma extracted_not_falsy (h token : string) :
  JwtService.extractTokenFromHeader h = Some token -> Js.falsy token = false.
Proof.
  rewrite extractTokenFromHeader_pieces.
  destruct (Js.split " " h) as [|type [|piece rest]]; try discriminate.
  destruct (type =? "Bearer")%string; [|discriminate].
  destruct (Js.falsy piece) eqn:Hpiece; [discriminate|].
  cbn. now intros [= <-].
Qed.

Lemma extracted_header_not_falsy (h token : string) :
  JwtService.extractTokenFromHeader h = Some token -> Js.falsy h = false.
Proof.
  unfold JwtService.extractTokenFromHeader.
  destruct (Js.falsy h); [discriminate | reflexivity].
Qed.

End AuthGuard.



(** ** The guarded routes *)

(** The scenario of the specification: the admin route answers 403 to the
    token of a customer and succeeds for the token of an admin; without a
    header both guarded routes answer 401. *)
Example admin_route_customer :
  fst (AuthController.getAdminData (X := Toy.externals) Toy.defaults
         (Fixtures.bearing (access_token Fixtures.customer_pair)) Fixtures.world1)
  = Throw (http Forbidden "Insufficient permissions").
Proof. reflexivity. Qed.

Example admin_route_admin :
  fst (AuthController.getAdminData (X := Toy.externals) Toy.defaults
         (Fixtures.bearing (access_token Fixtures.admin_pair)) Fixtures.world1)
  = Ok {| pv_id := "222e2222-e22b-22d3-a222-222222222222";
          pv_email := "admin@example.com";
          pv_role := "admin";
          pv_message := "Admin access granted" |}.
Proof. reflexivity. Qed.

Example routes_without_header :
  fst (AuthController.getProfile (X := Toy.externals) Toy.defaults
         {| authorization := None; user := None |} Fixtures.world1)
  = Throw (http Unauthorized "Authorization header is missing")
  /\ fst (AuthController.getAdminData (X := Toy.externals) Toy.defaults
            {| authorization := None; user := None |} Fixtures.world1)
     = Throw (http Unauthorized "Authorization header is missing").
Proof. split; reflexivity. Qed.

Example profile_route_invalid_token :
  fst (AuthController.getProfile (X := Toy.externals) Toy.defaults
         (Fixtures.bearing "invalid-token") Fixtures.world1)
  = Throw (http Unauthorized "Invalid or expired access token").
Proof. reflexivity. Qed.

(** * Further properties *)

(** ** JwtService: what a token is good for *)

(** X1.  The two tokens of a pair are told apart by nothing but their
    expiry.  Until the refresh token expires, [verifyAccessToken] accepts it
    and the authentication guard lets a request bearing it through with the
    identity attached; until the access token expires, the orchestrator's
    [refreshTokens] accepts the access token and issues a new pair. *)
Theorem tokens_of_a_pair_are_interchangeable
    {X : Externals} {L : JwsLaws X} (cfg : Config)
    (id : JwtPayload) (w : World) (da dr : Z) :
  access_span cfg = Some da ->
  refresh_span cfg = Some dr ->
  exists pair,
    JwtService.generateTokens cfg id w = (Ok pair, w)
    /\ (forall w', clock w' < clock w + dr ->
          JwtService.verifyAccessToken cfg (refresh_token pair) w'
          = (Ok (stamped id (clock w) dr), w')
          /\ forall h,
               JwtService.extractTokenFromHeader h = Some (refresh_token pair) ->
               fst (JwtAuthGuard.canActivate cfg
                      {| authorization := Some h; user := None |} w')
               = Ok (true, {| authorization := Some h;
                              user := Some (identity_of id) |}))
    /\ (forall w', clock w' < clock w + da ->
          AuthService.refreshTokens cfg (access_token pair) w'
          = (Ok {| access_token :=
                     jws_encode (stamped id (clock w') da) (JwtService.secret cfg);
                   refresh_token :=
                     jws_encode (stamped id (clock w') dr) (JwtService.secret cfg) |},
             w')).
Proof.
  intros Ha Hr. eexists. split; [apply (generateTokens_ok cfg id w da dr Ha Hr)|].
  cbn [access_token refresh_token]. split; intros w' Hfresh.
  - split.
    + now rewrite verifyAccessToken_cases, jwt_verify_stamped.
    + intros h Hx. rewrite canActivate_cases. cbn [authorization].
      rewrite (extracted_header_not_falsy h _ Hx), Hx, (extracted_not_falsy h _ Hx).
      now rewrite jwt_verify_stamped.
  - rewrite refreshTokens_cases, jwt_verify_stamped by assumption.
    now rewrite (generateTokens_ok cfg _ w' da dr Ha Hr).
Qed.

Lemma tokens_of_a_pair_are_interchangeable_witness :
  exists pair,
    JwtService.generateTokens (X := Toy.externals) Toy.defaults
      Fixtures.customer_id Toy.world0 = (Ok pair, Toy.world0)
    /\ fst (JwtAuthGuard.canActivate (X := Toy.externals) Toy.defaults
              (Fixtures.bearing (refresh_token pair)) Fixtures.world1)
       = Ok (true, attach (Fixtures.bearing (refresh_token pair))
                     (identity_of Fixtures.customer_id))
    /\ fst (AuthService.refreshTokens (X := Toy.externals) Toy.defaults
              (access_token pair) Fixtures.world1)
       = Ok pair.
Proof.
  destruct (@tokens_of_a_pair_are_interchangeable Toy.externals toy_laws
              Toy.defaults Fixtures.customer_id Toy.world0 900 604800
              eq_refl eq_refl) as (pair & Hissue & Hguard & Hrefresh).
  exists pair. split; [exact Hissue|].
  injection Hissue as <-.
  split.
  - apply (Hguard Fixtures.world1); reflexivity.
  - rewrite (Hrefresh Fixtures.world1); reflexivity.
Defined.

(** X2.  Refreshing rotates nothing away.  Until a refresh token expires,
    [JwtService.refreshTokens] on it leaves the world as it was and returns a
    pair for the same [sub], [email] and [role]: the new access token
    verifies for a full access lifetime from now, the new refresh token for a
    full refresh lifetime from now, and the old refresh token is accepted
    again at any later time before its own expiry. *)
Theorem refreshTokens_rotates_without_revoking
    {X : Externals} {L : JwsLaws X} (cfg : Config)
    (id : JwtPayload) (w0 w1 : World) (da dr : Z) :
  access_span cfg = Some da ->
  refresh_span cfg = Some dr ->
  clock w1 < clock w0 + dr ->
  let old := jws_encode (stamped id (clock w0) dr) (JwtService.secret cfg) in
  exists pair,
    JwtService.refreshTokens cfg old w1 = (Ok pair, w1)
    /\ (forall w2, clock w2 < clock w1 + da ->
          exists p,
            JwtService.verifyAccessToken cfg (access_token pair) w2 = (Ok p, w2)
            /\ sub p = sub id /\ email p = email id /\ role p = role id)
    /\ (forall w2, clock w2 < clock w1 + dr ->
          exists p,
            JwtService.verifyRefreshToken cfg (refresh_token pair) w2 = (Ok p, w2)
            /\ sub p = sub id /\ email p = email id /\ role p = role id)
    /\ (forall w2, clock w2 < clock w0 + dr ->
          exists pair2, JwtService.refreshTokens cfg old w2 = (Ok pair2, w2)).
Proof.
  intros Ha Hr Hfresh old.
  assert (Hrefresh : forall w, clock w < clock w0 + dr ->
            JwtService.refreshTokens cfg old w
            = (Ok {| access_token :=
                       jws_encode (stamped id (clock w) da) (JwtService.secret cfg);
                     refresh_token :=
                       jws_encode (stamped id (clock w) dr) (JwtService.secret cfg) |},
               w)).
  { intros w Hw. unfold JwtService.refreshTokens.
    unfold bind at 1. rewrite verifyRefreshToken_cases.
    unfold old. rewrite jwt_verify_stamped by assumption.
    unfold bind at 1.
    now rewrite (generateTokens_ok cfg _ w da dr Ha Hr). }
  eexists. split; [apply (Hrefresh w1 Hfresh)|].
  cbn [access_token refresh_token]. split; [|split].
  - intros w2 Hw2. exists (stamped id (clock w1) da).
    rewrite verifyAccessToken_cases, jwt_verify_stamped by assumption.
    now repeat split.
  - intros w2 Hw2. exists (stamped id (clock w1) dr).
    rewrite verifyRefreshToken_cases, jwt_verify_stamped by assumption.
    now repeat split.
  - intros w2 Hw2. eexists. apply (Hrefresh w2 Hw2).
Qed.

Lemma refreshTokens_rotates_without_revoking_witness :
  exists pair,
    JwtService.refreshTokens (X := Toy.externals) Toy.defaults
      (refresh_token Fixtures.customer_pair)
      (snd (AuthService.refreshTokens (X := Toy.externals) Toy.defaults
              (refresh_token Fixtures.customer_pair) Fixtures.world1))
    = (Ok pair, Fixtures.world1).
Proof.
  destruct (@refreshTokens_rotates_without_revoking Toy.externals toy_laws
              Toy.defaults Fixtures.customer_id Toy.world0 Fixtures.world1
              900 604800 eq_refl eq_refl eq_refl)
    as (pair & Hrefresh & _).
  exists pair. exact Hrefresh.
Defined.

(** X3.  An issued access token is good exactly until its expiry: at a
    clock before issue time plus the access lifetime [verifyAccessToken]
    returns its payload, and from that second on it answers the 401
    [Invalid or expired access token]. *)
Theorem access_token_expires_on_time
    {X : Externals} {L : JwsLaws X} (cfg : Config)
    (id : JwtPayload) (w w' : World) (pair : TokenPair) (da : Z) :
  JwtService.generateTokens cfg id w = (Ok pair, w) ->
  access_span cfg = Some da ->
  (clock w' < clock w + da ->
     JwtService.verifyAccessToken cfg (access_token pair) w'
     = (Ok (stamped id (clock w) da), w'))
  /\ (clock w + da <= clock w' ->
        JwtService.verifyAccessToken cfg (access_token pair) w'
        = (Throw (http Unauthorized "Invalid or expired access token"), w')).
Proof.
  intros Hissue Ha.
  destruct (generateTokens_inv cfg id w w pair Hissue) as (da' & dr & Ha' & Hr).
  rewrite (generateTokens_ok cfg id w da' dr Ha' Hr) in Hissue.
  injection Hissue as <-. cbn [access_token].
  assert (da' = da) by congruence. subst da'.
  rewrite verifyAccessToken_cases. split; intros Hclock.
  - now rewrite jwt_verify_stamped.
  - unfold jwt_verify. rewrite jws_decode_encode. cbn.
    destruct (Z.geb_spec (clock w') (clock w + da)); [reflexivity | lia].
Qed.

Lemma access_token_expires_on_time_witness :
  JwtService.verifyAccessToken (X := Toy.externals) Toy.defaults
    (access_token Fixtures.customer_pair)
    {| profiles := []; users := []; outcomes := []; clock := 1899;
       entropy := O; console := [] |}
  = (Ok (stamped Fixtures.customer_id 1000 900),
     {| profiles := []; users := []; outcomes := []; clock := 1899;
        entropy := O; console := [] |})
  /\ JwtService.verifyAccessToken (X := Toy.externals) Toy.defaults
       (access_token Fixtures.customer_pair)
       {| profiles := []; users := []; outcomes := []; clock := 1900;
          entropy := O; console := [] |}
     = (Throw (http Unauthorized "Invalid or expired access token"),
        {| profiles := []; users := []; outcomes := []; clock := 1900;
           entropy := O; console := [] |}).
Proof.
  split.
  - apply (@access_token_expires_on_time Toy.externals toy_laws Toy.defaults
             Fixtures.customer_id Toy.world0 _ Fixtures.customer_pair 900
             eq_refl eq_refl).
    reflexivity.
  - apply (@access_token_expires_on_time Toy.externals toy_laws Toy.defaults
             Fixtures.customer_id Toy.world0 _ Fixtures.customer_pair 900
             eq_refl eq_refl).
    cbn. lia.
Defined.

(** X4.  When the configuration gives no secret, or the empty string, the
    service signs and verifies under the literal "default-secret": every
    token anybody signs under that literal, not yet expired, is accepted by
    both verifiers with the claims it carries. *)
Theorem unset_secret_falls_back_to_default
    {X : Externals} {L : JwsLaws X} (cfg : Config) (c : JwtPayload) (w : World) :
  (jwt_secret cfg = None \/ jwt_secret cfg = Some "") ->
  (forall e, exp c = Some e -> clock w < e) ->
  JwtService.secret cfg = "default-secret"
  /\ JwtService.verifyAccessToken cfg (jws_encode c "default-secret") w = (Ok c, w)
  /\ JwtService.verifyRefreshToken cfg (jws_encode c "default-secret") w = (Ok c, w).
Proof.
  intros Hsecret Hfresh.
  assert (Hkey : JwtService.secret cfg = "default-secret").
  { unfold JwtService.secret. destruct Hsecret as [-> | ->]; reflexivity. }
  split; [exact Hkey|].
  rewrite verifyAccessToken_cases, verifyRefreshToken_cases, Hkey.
  unfold jwt_verify. rewrite jws_decode_encode.
  destruct (exp c) as [e|] eqn:He.
  - specialize (Hfresh e eq_refl).
    destruct (Z.geb_spec (clock w) e); [lia|]. now split.
  - now split.
Qed.

Lemma unset_secret_falls_back_to_default_witness :
  JwtService.secret {| jwt_secret := Some "";
                       jwt_accessTokenExpiration := None;
                       jwt_refreshTokenExpiration := None |} = "default-secret"
  /\ JwtService.verifyAccessToken (X := Toy.externals)
       {| jwt_secret := Some "";
          jwt_accessTokenExpiration := None;
          jwt_refreshTokenExpiration := None |}
       (Toy.encode Fixtures.admin_id "default-secret") Toy.world0
     = (Ok Fixtures.admin_id, Toy.world0)
  /\ JwtService.verifyRefreshToken (X := Toy.externals)
       {| jwt_secret := Some "";
          jwt_accessTokenExpiration := None;
          jwt_refreshTokenExpiration := None |}
       (Toy.encode Fixtures.admin_id "default-secret") Toy.world0
     = (Ok Fixtures.admin_id, Toy.world0).
Proof.
  apply (@unset_secret_falls_back_to_default Toy.externals toy_laws
           {| jwt_secret := Some "";
              jwt_accessTokenExpiration := None;
              jwt_refreshTokenExpiration := None |}
           Fixtures.admin_id Toy.world0).
  - right. reflexivity.
  - intros e He. discriminate He.
Defined.

(** ** Operations that only read the store *)

Section Frames.

Lemma preserves_ret {A} (a : A) : preserves (ret a).
Proof. intros w. apply same_store_refl. Qed.

Lemma preserves_throw {A} (e : Exn) : preserves (@throw A e).
Proof. intros w. apply same_store_refl. Qed.

Lemma preserves_lift {A} (r : Result A) : preserves (lift r).
Proof. intros w. apply same_store_refl. Qed.

Lemma preserves_gets {A} (f : World -> A) : preserves (gets f).
Proof. intros w. apply same_store_refl. Qed.

Lemma preserves_console_error (label : string) (e : Exn) :
  preserves (console_error label e).
Proof. intros w. now repeat split. Qed.

Lemma preserves_bind {A B} (m : M A) (k : A -> M B) :
  preserves m -> (forall a, preserves (k a)) -> preserves (bind m k).
Proof.
  intros Hm Hk w. unfold bind. specialize (Hm w).
  destruct (m w) as [[a|e] w1]; cbn in Hm |- *; [|exact Hm].
  apply (same_store_trans _ w1); [exact Hm | apply Hk].
Qed.

Lemma preserves_try {A} (m : M A) (h : Exn -> M A) :
  preserves m -> (forall e, preserves (h e)) -> preserves (try_catch m h).
Proof.
  intros Hm Hh w. unfold try_catch. specialize (Hm w).
  destruct (m w) as [[a|e] w1]; cbn in Hm |- *; [exact Hm|].
  apply (same_store_trans _ w1); [exact Hm | apply Hh].
Qed.

(** A query whose body only reads. *)
Lemma preserves_query {A} (run : M A) : preserves run -> preserves (Prisma.query run).
Proof.
  intros Hrun w. rewrite query_cases.
  destruct (next_failure w); cbn.
  - apply same_store_after_query.
  - apply (same_store_trans _ (after_query w));
      [apply same_store_after_query | apply Hrun].
Qed.

Lemma preserves_findByEmail (e : string) : preserves (UsersService.findByEmail e).
Proof.
  intros w. destruct (findByEmail_answers e w) as (o & w1 & -> & Hsame & _).
  exact Hsame.
Qed.

Lemma preserves_findById {X : Externals} (i : string) :
  preserves (UsersService.findById i).
Proof.
  intros w. destruct (findById_answers i w) as (o & w1 & -> & Hsame & _).
  exact Hsame.
Qed.

End Frames.

Section ReadOnly.
Context {X : Externals} (cfg : Config).

Lemma preserves_generateTokens (id : JwtPayload) :
  preserves (JwtService.generateTokens cfg id).
Proof.
  intros w. destruct (generateTokens_clock_only cfg id w w eq_refl) as [_ ->].
  apply same_store_refl.
Qed.

Lemma preserves_verifyRefreshToken (token : string) :
  preserves (JwtService.verifyRefreshToken cfg token).
Proof.
  intros w. rewrite verifyRefreshToken_cases.
  destruct (jwt_verify _ _ _); apply same_store_refl.
Qed.

Lemma preserves_validateUser (e password : string) :
  preserves (AuthService.validateUser e password).
Proof.
  unfold AuthService.validateUser. apply preserves_try.
  - apply preserves_bind.
    + unfold Prisma.users_findFirst. apply preserves_query.
      intros w. apply same_store_refl.
    + intros [authUser|]; [|apply preserves_ret].
      destruct (Js.falsy_opt (u_encrypted_password authUser)); [apply preserves_ret|].
      apply preserves_bind.
      * unfold PasswordService.comparePasswords, PasswordService.bcrypt_compare_call.
        apply preserves_try.
        -- destruct (bcrypt_compare _ _); [apply preserves_ret | apply preserves_throw].
        -- intros err. apply preserves_throw.
      * intros ok. destruct (negb ok); [apply preserves_ret|].
        apply preserves_bind; [apply preserves_findByEmail|].
        intros o. apply preserves_ret.
  - intros err. apply preserves_bind; [apply preserves_console_error|].
    intros _. apply preserves_ret.
Qed.

Lemma preserves_login (dto : LoginDto) : preserves (AuthService.login cfg dto).
Proof.
  unfold AuthService.login. apply preserves_try.
  - apply preserves_bind; [apply preserves_findByEmail|].
    intros [p|]; [|apply preserves_throw].
    apply preserves_bind; [apply preserves_validateUser|].
    intros [v|]; [|apply preserves_throw].
    apply preserves_bind; [apply preserves_generateTokens|].
    intros tokens. apply preserves_ret.
  - intros err. destruct (instanceof Unauthorized err); [apply preserves_throw|].
    apply preserves_bind; [apply preserves_console_error|].
    intros _. apply preserves_throw.
Qed.

Lemma preserves_refreshTokens (token : string) :
  preserves (AuthService.refreshTokens cfg token).
Proof.
  unfold AuthService.refreshTokens, JwtService.refreshTokens. apply preserves_try.
  - apply preserves_bind; [apply preserves_verifyRefreshToken|].
    intros p. apply preserves_bind; [apply preserves_generateTokens|].
    intros tokens. apply preserves_ret.
  - intros err. destruct (instanceof Unauthorized err); [apply preserves_throw|].
    apply preserves_bind; [apply preserves_console_error|].
    intros _. apply preserves_throw.
Qed.

Lemma preserves_validate (payload : JwtPayload) :
  preserves (JwtStrategy.validate payload).
Proof.
  unfold JwtStrategy.validate. apply preserves_try.
  - destruct (Js.falsy (sub payload)); [apply preserves_throw|].
    apply preserves_bind; [apply preserves_findById|].
    intros [p|]; [apply preserves_ret | apply preserves_throw].
  - intros err. destruct (instanceof Unauthorized err); [apply preserves_throw|].
    apply preserves_bind; [apply preserves_console_error|].
    intros _. apply preserves_throw.
Qed.

End ReadOnly.

(** X5.  Logging in, validating credentials, refreshing tokens and the
    Passport strategy never write: whatever they answer and whatever the
    database does with their queries, the two tables, the clock and the
    entropy are afterwards as they were before (only the console and the
    schedule of the database move on). *)
Theorem authentication_never_writes
    {X : Externals} (cfg : Config) (w : World)
    (loginDto : LoginDto) (token : string) (payload : JwtPayload) :
  same_store w (snd (AuthService.login cfg loginDto w))
  /\ same_store w (snd (AuthService.validateUser
                          (l_email loginDto) (l_password loginDto) w))
  /\ same_store w (snd (AuthService.refreshTokens cfg token w))
  /\ same_store w (snd (JwtStrategy.validate payload w)).
Proof.
  split; [apply preserves_login|].
  split; [apply preserves_validateUser|].
  split; [apply preserves_refreshTokens | apply preserves_validate].
Qed.

(** ** The errors of the orchestrator *)

Section ThrowsOnly.

Lemma throws_only_ret {A} (P : Exn -> Prop) (a : A) : throws_only P (ret a).
Proof. intros w e w'. discriminate. Qed.

Lemma throws_only_gets {A} (P : Exn -> Prop) (f : World -> A) :
  throws_only P (gets f).
Proof. intros w e w'. discriminate. Qed.

Lemma throws_only_throw {A} (P : Exn -> Prop) (e : Exn) :
  P e -> throws_only P (@throw A e).
Proof. intros He w e' w' [= <- _]. exact He. Qed.

Lemma throws_only_weaken {A} (P Q : Exn -> Prop) (m : M A) :
  (forall e, P e -> Q e) -> throws_only P m -> throws_only Q m.
Proof. intros HPQ Hm w e w' Hthrow. exact (HPQ e (Hm w e w' Hthrow)). Qed.

Lemma throws_only_bind {A B} (P : Exn -> Prop) (m : M A) (k : A -> M B) :
  throws_only P m -> (forall a, throws_only P (k a)) -> throws_only P (bind m k).
Proof.
  intros Hm Hk w e w'. unfold bind.
  destruct (m w) as [[a|e0] w1] eqn:Hmw.
  - apply Hk.
  - intros [= <- _]. exact (Hm w e0 w1 Hmw).
Qed.

Lemma throws_only_try {A} (P Q : Exn -> Prop) (m : M A) (h : Exn -> M A) :
  throws_only Q m -> (forall e, Q e -> throws_only P (h e)) ->
  throws_only P (try_catch m h).
Proof.
  intros Hm Hh w e w'. unfold try_catch.
  destruct (m w) as [[a|e0] w1] eqn:Hmw; [discriminate|].
  apply Hh. exact (Hm w e0 w1 Hmw).
Qed.

Lemma throws_only_query {A} (P : Exn -> Prop) (run : M A) :
  (forall e, P (DbException e)) -> throws_only P run ->
  throws_only P (Prisma.query run).
Proof.
  intros Hdb Hrun w e w'. rewrite query_cases.
  destruct (next_failure w) as [err|].
  - intros [= <- _]. apply Hdb.
  - apply Hrun.
Qed.

Lemma throws_only_console_error (P : Exn -> Prop) (label : string) (e : Exn) :
  throws_only P (console_error label e).
Proof. intros w e' w'. discriminate. Qed.

Lemma not_http_instanceof (status : HttpStatus) (e : Exn) :
  not_http e -> instanceof status e = false.
Proof. destruct e; [contradiction | reflexivity | reflexivity]. Qed.

Lemma throws_nothing_findByEmail (P : Exn -> Prop) (e : string) :
  throws_only P (UsersService.findByEmail e).
Proof.
  intros w err w' Hthrow.
  destruct (findByEmail_answers e w) as (o & w1 & Hok & _). congruence.
Qed.

End ThrowsOnly.

Section OrchestratorErrors.
Context {X : Externals} (cfg : Config).

Lemma throws_only_generateTokens (id : JwtPayload) :
  throws_only (fun e => not_http e
                        /\ (access_span cfg = None \/ refresh_span cfg = None))
    (JwtService.generateTokens cfg id).
Proof.
  intros w e w'. run_jwt.
  destruct (timespan (Js.or_else (jwt_accessTokenExpiration cfg) "15m"));
    [|intros [= <- _]; split; [exact I | now left]].
  destruct (timespan (Js.or_else (jwt_refreshTokenExpiration cfg) "7d"));
    [discriminate|].
  intros [= <- _]. split; [exact I | now right].
Qed.

Lemma throws_only_hashPassword (password : string) :
  throws_only not_http (PasswordService.hashPassword password).
Proof.
  unfold PasswordService.hashPassword.
  apply (throws_only_try _ (fun _ => True)).
  - intros w e w' _. exact I.
  - intros e _. now apply throws_only_throw.
Qed.

Lemma throws_only_create (userData : CreateUserDto) :
  throws_only (fun e => e = duplicate_email_error \/ not_http e)
    (UsersService.create userData).
Proof.
  unfold UsersService.create.
  apply (throws_only_try _ (fun e => e = duplicate_email_error \/ not_http e)).
  - apply throws_only_bind; [apply throws_nothing_findByEmail|].
    intros [p|]; [apply throws_only_throw; now left|].
    apply throws_only_bind; [apply throws_only_gets|].
    intros now. apply throws_only_bind; [|intros row; apply throws_only_ret].
    unfold Prisma.profiles_create. apply throws_only_query.
    + intros e. now right.
    + intros w e w'. destruct (existsb _ _); [|discriminate].
      intros [= <- _]. now right.
  - intros e [-> | Hplain].
    + apply throws_only_throw. now left.
    + rewrite (not_http_instanceof _ _ Hplain).
      destruct (has_code "P2002" e); apply throws_only_throw; [now left | now right].
Qed.

Lemma throws_only_register_body (dto : RegisterDto) :
  throws_only (fun e => e = weak_password_error (r_password dto)
                        \/ e = duplicate_email_error \/ not_http e)
    (if negb (isValid (PasswordService.validatePasswordStrength (r_password dto)))
     then throw (HttpException BadRequest AuthService.msg_weak
                   (errors (PasswordService.validatePasswordStrength (r_password dto))))
     else
       existingUser <- UsersService.findByEmail (r_email dto) ;;
       match existingUser with
       | Some _ => throw (http Conflict UsersService.msg_conflict)
       | None =>
           hashedPassword <- PasswordService.hashPassword (r_password dto) ;;
           userId <- AuthService.randomUUID ;;
           now <- gets clock ;;
           Prisma.users_create
             {| u_id := userId;
                u_email := r_email dto;
                u_encrypted_password := Some hashedPassword;
                u_email_confirmed_at := now;
                u_created_at := now;
                u_updated_at := now |} ;;;
           user <- UsersService.create
                     {| cu_id := userId;
                        cu_email := r_email dto;
                        cu_full_name := r_full_name dto;
                        cu_role := Some customer |} ;;
           tokens <- JwtService.generateTokens cfg
                       {| sub := p_id user;
                          email := p_email user;
                          role := AuthService.role_or_customer (p_role user);
                          iat := None; exp := None |} ;;
           ret (AuthService.respond tokens user)
       end).
Proof.
  destruct (negb _); [apply throws_only_throw; now left|].
  apply throws_only_bind; [apply throws_nothing_findByEmail|].
  intros [p|]; [apply throws_only_throw; right; now left|].
  apply throws_only_bind.
  { eapply throws_only_weaken; [|apply throws_only_hashPassword]. cbn. auto. }
  intros h. apply throws_only_bind.
  { intros w e w'. discriminate. }
  intros userId. apply throws_only_bind; [apply throws_only_gets|].
  intros now. apply throws_only_bind.
  { unfold Prisma.users_create. apply throws_only_query.
    - intros e. right. now right.
    - intros w e w'. destruct (existsb _ _); [|discriminate].
      intros [= <- _]. right. now right. }
  intros _. apply throws_only_bind.
  { eapply throws_only_weaken; [|apply throws_only_create]. cbn. tauto. }
  intros row. apply throws_only_bind; [|intros tokens; apply throws_only_ret].
  eapply throws_only_weaken; [|apply throws_only_generateTokens]. cbn. tauto.
Qed.

Lemma throws_nothing_validateUser (P : Exn -> Prop) (e password : string) :
  throws_only P (AuthService.validateUser e password).
Proof.
  unfold AuthService.validateUser.
  apply (throws_only_try _ (fun _ => True)).
  - intros w err w' _. exact I.
  - intros err _. apply throws_only_bind; [apply throws_only_console_error|].
    intros _. apply throws_only_ret.
Qed.

End OrchestratorErrors.

(** X6.  [register] lets three errors out and no other: the 400 with the
    violated password rules, the 409 [User with this email already exists],
    and the 500 [Registration failed. Please try again.].  Whatever the
    database, bcrypt or the token package fail with stays inside. *)
Theorem register_throws_only_400_409_500
    {X : Externals} (cfg : Config) (dto : RegisterDto) (w : World) (e : Exn) :
  fst (AuthService.register cfg dto w) = Throw e ->
  e = weak_password_error (r_password dto)
  \/ e = duplicate_email_error
  \/ e = registration_failed.
Proof.
  destruct (AuthService.register cfg dto w) as [r w'] eqn:Hrun. cbn.
  intros ->. revert w e w' Hrun.
  change (throws_only
            (fun e => e = weak_password_error (r_password dto)
                      \/ e = duplicate_email_error \/ e = registration_failed)
            (AuthService.register cfg dto)).
  unfold AuthService.register.
  eapply throws_only_try; [apply throws_only_register_body|].
  intros e [-> | [-> | Hplain]].
  - apply throws_only_throw. now left.
  - apply throws_only_throw. right. now left.
  - rewrite !(not_http_instanceof _ _ Hplain). cbn [orb].
    destruct (has_code "P2002" e).
    + apply throws_only_throw. right. now left.
    + apply throws_only_bind; [apply throws_only_console_error|].
      intros _. apply throws_only_throw. right. now right.
Qed.

Lemma register_throws_only_400_409_500_witness :
  http Conflict "User with this email already exists"
  = weak_password_error (r_password Fixtures.register_a)
  \/ http Conflict "User with this email already exists" = duplicate_email_error
  \/ http Conflict "User with this email already exists" = registration_failed.
Proof.
  apply (@register_throws_only_400_409_500 Toy.externals Toy.defaults
           Fixtures.register_a Fixtures.world1).
  reflexivity.
Defined.

(** X7.  [login] lets two errors out and no other: the 401
    [Invalid credentials], and the 500
    [Authentication failed. Please try again.], the latter only when a
    configured token lifetime is not a time span (the credentials were right
    and the tokens could not be signed).  A failure of the database or of
    bcrypt is answered with the 401. *)
Theorem login_throws_only_401_500
    {X : Externals} (cfg : Config) (dto : LoginDto) (w : World) (e : Exn) :
  fst (AuthService.login cfg dto w) = Throw e ->
  e = http Unauthorized "Invalid credentials"
  \/ (e = authentication_failed
      /\ (access_span cfg = None \/ refresh_span cfg = None)).
Proof.
  destruct (AuthService.login cfg dto w) as [r w'] eqn:Hrun. cbn.
  intros ->. revert w e w' Hrun.
  change (throws_only
            (fun e => e = http Unauthorized "Invalid credentials"
                      \/ (e = authentication_failed
                          /\ (access_span cfg = None \/ refresh_span cfg = None)))
            (AuthService.login cfg dto)).
  unfold AuthService.login.
  apply (throws_only_try _
           (fun e => e = AuthService.invalidCredentialsError
                     \/ (not_http e
                         /\ (access_span cfg = None \/ refresh_span cfg = None)))).
  - apply throws_only_bind; [apply throws_nothing_findByEmail|].
    intros [p|]; [|apply throws_only_throw; now left].
    apply throws_only_bind; [apply throws_nothing_validateUser|].
    intros [v|]; [|apply throws_only_throw; now left].
    apply throws_only_bind; [|intros tokens; apply throws_only_ret].
    eapply throws_only_weaken; [|apply throws_only_generateTokens]. cbn. tauto.
  - intros e [-> | [Hplain Hspan]].
    + apply throws_only_throw. now left.
    + rewrite (not_http_instanceof _ _ Hplain).
      apply throws_only_bind; [apply throws_only_console_error|].
      intros _. apply throws_only_throw. right. now split.
Qed.

Lemma login_throws_only_401_500_witness :
  http Unauthorized "Invalid credentials" = http Unauthorized "Invalid credentials"
  \/ (http Unauthorized "Invalid credentials" = authentication_failed
      /\ (access_span (X := Toy.externals) Toy.defaults = None
          \/ refresh_span (X := Toy.externals) Toy.defaults = None)).
Proof.
  apply (@login_throws_only_401_500 Toy.externals Toy.defaults
           {| l_email := "nobody@x.com"; l_password := "Str0ng!Pw" |}
           Fixtures.world1).
  reflexivity.
Defined.

(** ** Logging in *)

Section LoginSteps.
Context {X : Externals} (cfg : Config).

Lemma login_handler_throws (error : Exn) (w : World) :
  exists e' w2,
    (if instanceof Unauthorized error then throw error
     else (console_error "Login error:" error ;;;
           throw (http InternalServerError AuthService.msg_login_failed)))
      w = (@Throw AuthResponse e', w2).
Proof.
  destruct (instanceof Unauthorized error); run; eauto.
Qed.

Lemma wrong_password_without_match (w : World) (e password : string) :
  (forall h, stored_hash w e = Some h -> bcrypt_compare password h <> Some true) ->
  wrong_password w e password.
Proof.
  unfold wrong_password, stored_hash. intros Hno u h Hu Hh.
  apply Hno. now rewrite Hu.
Qed.

(** [validateUser] answers a profile only when [bcrypt.compare] answered
    [true] on the stored hash. *)
Lemma validateUser_some_inv (e password : string) (w w1 : World) (p : Profile) :
  AuthService.validateUser e password w = (Ok (Some p), w1) ->
  exists h, stored_hash w e = Some h /\ bcrypt_compare password h = Some true.
Proof.
  intros Hrun.
  destruct (stored_hash w e) as [h|] eqn:Hstored.
  - destruct (bcrypt_compare password h) as [[|]|] eqn:Hcmp.
    + now exists h.
    + assert (Hwrong : wrong_password w e password).
      { apply wrong_password_without_match. rewrite Hstored.
        intros h' [= <-]. congruence. }
      apply validateUser_wrong_password in Hwrong.
      rewrite Hrun in Hwrong. discriminate.
    + assert (Hwrong : wrong_password w e password).
      { apply wrong_password_without_match. rewrite Hstored.
        intros h' [= <-]. congruence. }
      apply validateUser_wrong_password in Hwrong.
      rewrite Hrun in Hwrong. discriminate.
  - assert (Hwrong : wrong_password w e password).
    { apply wrong_password_without_match. rewrite Hstored. discriminate. }
    apply validateUser_wrong_password in Hwrong.
    rewrite Hrun in Hwrong. discriminate.
Qed.

Lemma stored_hash_same_store (w w1 : World) (e : string) :
  same_store w w1 -> stored_hash w1 e = stored_hash w e.
Proof. intros (_ & Hu & _). unfold stored_hash. now rewrite Hu. Qed.

Lemma login_ok_inv (dto : LoginDto) (w w' : World) (resp : AuthResponse) :
  AuthService.login cfg dto w = (Ok resp, w') ->
  exists p h,
    find (Prisma.by_email (l_email dto)) (profiles w) = Some p
    /\ stored_hash w (l_email dto) = Some h
    /\ bcrypt_compare (l_password dto) h = Some true
    /\ JwtService.generateTokens cfg
         {| sub := p_id p; email := p_email p;
            role := AuthService.role_or_customer (p_role p);
            iat := None; exp := None |} w'
       = (Ok {| access_token := ar_access_token resp;
                refresh_token := ar_refresh_token resp |}, w')
    /\ ar_user resp = {| pu_id := p_id p; pu_email := p_email p;
                         pu_role := p_role p;
                         pu_full_name := Js.or_else (p_full_name p) "" |}.
Proof.
  unfold AuthService.login. intros H.
  apply try_ok_inv in H; [|apply login_handler_throws].
  apply bind_ok_inv in H as (o & w1 & Hfind & H).
  destruct (findByEmail_answers (l_email dto) w)
    as (o' & w1' & Hfind' & Hsame1 & Ho).
  rewrite Hfind in Hfind'. injection Hfind' as <- <-.
  destruct o as [p|]; [|discriminate].
  assert (Hp : find (Prisma.by_email (l_email dto)) (profiles w) = Some p).
  { destruct (next_failure w); [discriminate | now symmetry]. }
  apply bind_ok_inv in H as (v & w2 & Hvalid & H).
  destruct v as [v|]; [|discriminate].
  apply validateUser_some_inv in Hvalid as (h & Hstored & Hcmp).
  rewrite (stored_hash_same_store w w1 _ Hsame1) in Hstored.
  apply bind_ok_inv in H as (tokens & w3 & Htok & H).
  injection H as <- <-.
  destruct (generateTokens_inv cfg _ _ _ _ Htok) as (da & dr & Ha & Hr).
  rewrite (generateTokens_ok cfg _ _ da dr Ha Hr) in Htok.
  injection Htok as <- <-.
  exists p, h. repeat split; try assumption.
  now rewrite (generateTokens_ok cfg _ _ da dr Ha Hr).
Qed.

Lemma login_ok (dto : LoginDto) (w : World) (p : Profile) (h : string) (da dr : Z) :
  outcomes w = [] ->
  find (Prisma.by_email (l_email dto)) (profiles w) = Some p ->
  stored_hash w (l_email dto) = Some h ->
  h <> "" ->
  bcrypt_compare (l_password dto) h = Some true ->
  access_span cfg = Some da ->
  refresh_span cfg = Some dr ->
  exists resp, AuthService.login cfg dto w = (Ok resp, w).
Proof.
  intros Hquiet Hp Hstored Hne Hcmp Ha Hr.
  assert (Hnf : next_failure w = None) by (unfold next_failure; now rewrite Hquiet).
  assert (Haq : after_query w = w) by (unfold after_query; now rewrite Hquiet).
  unfold AuthService.login.
  unfold try_catch, bind at 1. rewrite findByEmail_cases, Hnf, Haq, Hp.
  unfold bind at 1.
  assert (Hvalid : AuthService.validateUser (l_email dto) (l_password dto) w
                   = (Ok (Some p), w)).
  { unfold AuthService.validateUser, Prisma.users_findFirst,
      PasswordService.comparePasswords, PasswordService.bcrypt_compare_call.
    unfold try_catch, bind at 1. rewrite query_cases, Hnf, Haq.
    unfold stored_hash in Hstored.
    destruct (find _ (users w)) as [u|]; [|discriminate].
    rewrite Hstored. cbn [Js.falsy_opt].
    assert (Hfalsy : Js.falsy h = false).
    { unfold Js.falsy. now destruct (String.eqb_spec h ""). }
    rewrite Hfalsy.
    replace (Js.or_else (Some h) "") with h by (cbn; now rewrite Hfalsy).
    unfold try_catch, bind at 1. rewrite Hcmp. cbn [ret negb].
    unfold bind at 1. rewrite findByEmail_cases, Hnf, Haq, Hp. reflexivity. }
  rewrite Hvalid.
  unfold bind at 1. rewrite (generateTokens_ok cfg _ w da dr Ha Hr).
  eexists. reflexivity.
Qed.

End LoginSteps.

(** X8.  [login] answers only for a password that matches: whenever it
    returns, the email has a profile, the first credential row of the email
    stores a hash, [bcrypt.compare] answered [true] for the password on that
    hash, the tokens are the ones issued for the id, email and role of the
    profile (role [customer] when the profile has none), and the user of the
    answer is read off the profile.  Conversely, when the database answers
    its queries, such a login does return, provided the hash is not the
    empty string and the token lifetimes are time spans. *)
Theorem login_succeeds_exactly_on_matching_hash
    {X : Externals} (cfg : Config) (dto : LoginDto) (w : World) :
  (forall resp w',
     AuthService.login cfg dto w = (Ok resp, w') ->
     exists p h,
       find (Prisma.by_email (l_email dto)) (profiles w) = Some p
       /\ stored_hash w (l_email dto) = Some h
       /\ bcrypt_compare (l_password dto) h = Some true
       /\ JwtService.generateTokens cfg
            {| sub := p_id p; email := p_email p;
               role := match p_role p with
                       | Some r => role_name r
                       | None => "customer"
                       end;
               iat := None; exp := None |} w'
          = (Ok {| access_token := ar_access_token resp;
                   refresh_token := ar_refresh_token resp |}, w')
       /\ ar_user resp = {| pu_id := p_id p; pu_email := p_email p;
                            pu_role := p_role p;
                            pu_full_name := Js.or_else (p_full_name p) "" |})
  /\ (forall p h da dr,
        outcomes w = [] ->
        find (Prisma.by_email (l_email dto)) (profiles w) = Some p ->
        stored_hash w (l_email dto) = Some h ->
        h <> "" ->
        bcrypt_compare (l_password dto) h = Some true ->
        access_span cfg = Some da ->
        refresh_span cfg = Some dr ->
        exists resp, AuthService.login cfg dto w = (Ok resp, w)).
Proof.
  split.
  - intros resp w'. apply login_ok_inv.
  - intros p h da dr. apply login_ok.
Qed.

Lemma login_succeeds_exactly_on_matching_hash_witness :
  exists resp,
    AuthService.login (X := Toy.externals) Toy.defaults
      {| l_email := "a@x.com"; l_password := "Str0ng!Pw" |} Fixtures.world1
    = (Ok resp, Fixtures.world1).
Proof.
  apply (proj2 (@login_succeeds_exactly_on_matching_hash Toy.externals Toy.defaults
                  {| l_email := "a@x.com"; l_password := "Str0ng!Pw" |}
                  Fixtures.world1))
    with (p := profile_row "user-1" Fixtures.register_a 1000)
         (h := "$2b$12$0$Str0ng!Pw") (da := 900) (dr := 604800);
    try reflexivity.
  discriminate.
Defined.

(** ** Registering, and then logging in *)

Section RegisterMore.
Context {X : Externals} (cfg : Config).

Lemma find_app_last {A} (f : A -> bool) (l : list A) (x : A) :
  find f l = None -> f x = true -> find f (l ++ [x]) = Some x.
Proof.
  induction l as [|y l IH]; cbn; intros Hnone Hx.
  - now rewrite Hx.
  - destruct (f y); [discriminate | auto].
Qed.

Lemma existsb_false_find {A} (f : A -> bool) (l : list A) :
  existsb f l = false -> find f l = None.
Proof.
  induction l as [|y l IH]; cbn; [reflexivity|].
  destruct (f y); [discriminate | exact IH].
Qed.

Lemma profiles_create_ok_fresh (data p : Profile) (w w1 : World) :
  Prisma.profiles_create data w = (Ok p, w1) ->
  existsb (Prisma.by_email (p_email data)) (profiles w) = false.
Proof.
  unfold Prisma.profiles_create. rewrite query_cases.
  destruct (after_query_tables w) as (Hp & _).
  destruct (next_failure w); [discriminate|].
  rewrite Hp, existsb_orb.
  destruct (existsb (Prisma.by_id (p_id data)) (profiles w)); [discriminate|].
  destruct (existsb (Prisma.by_email (p_email data)) (profiles w));
    [discriminate | reflexivity].
Qed.

Lemma create_ok_fresh (userData : CreateUserDto) (p : Profile) (w w1 : World) :
  UsersService.create userData w = (Ok p, w1) ->
  existsb (Prisma.by_email (cu_email userData)) (profiles w) = false.
Proof.
  unfold UsersService.create. intros H.
  apply try_ok_inv in H; [|apply create_handler_throws].
  apply bind_ok_inv in H as (existing & w2 & Hfind & H).
  destruct (findByEmail_answers (cu_email userData) w)
    as (o & w2' & Hfind' & (Hp & _) & _).
  rewrite Hfind in Hfind'. injection Hfind' as <- <-.
  destruct existing; [discriminate|].
  apply bind_ok_inv in H as (now & w3 & Hnow & H).
  injection Hnow as <- <-.
  apply bind_ok_inv in H as (row & w4 & Hcreate & H).
  apply profiles_create_ok_fresh in Hcreate. cbn in Hcreate.
  now rewrite Hp in Hcreate.
Qed.

(** [register] answers only for an email no profile had. *)
Lemma register_ok_fresh (dto : RegisterDto) (w w' : World) (resp : AuthResponse) :
  AuthService.register cfg dto w = (Ok resp, w') ->
  find (Prisma.by_email (r_email dto)) (profiles w) = None.
Proof.
  intros H. unfold AuthService.register in H.
  apply try_ok_inv in H; [|apply register_handler_throws].
  destruct (isValid (PasswordService.validatePasswordStrength (r_password dto)));
    [cbn [negb] in H | discriminate].
  apply bind_ok_inv in H as (existing & w1 & Hfind & H).
  destruct (findByEmail_answers (r_email dto) w)
    as (o & w1' & Hfind' & (Hp1 & _) & _).
  rewrite Hfind in Hfind'. injection Hfind' as <- <-.
  destruct existing; [discriminate|].
  apply bind_ok_inv in H as (h & w2 & Hhash & H).
  apply hashPassword_ok_inv in Hhash as (_ & ->).
  apply bind_ok_inv in H as (userId & w3 & Hid & H).
  injection Hid as <- <-.
  apply bind_ok_inv in H as (now & w4 & Hnow & H).
  injection Hnow as <- <-.
  apply bind_ok_inv in H as (cred & w5 & Hcred & H).
  apply users_create_ok_inv in Hcred as (_ & _ & Hp5 & _).
  apply bind_ok_inv in H as (row & w6 & Hrow & H).
  apply create_ok_fresh in Hrow. cbn in Hrow, Hp5.
  apply existsb_false_find. now rewrite <- Hp1, <- Hp5.
Qed.

End RegisterMore.

(** X9.  After a registration that returned, the login with the same email
    and password returns the same user, in any later world that holds the
    tables as the registration left them and whose database answers:
    provided the email had no credential row before (the login reads the
    first one), and bcrypt confirms the password on the non-empty hash it
    produced. *)
Theorem login_after_register_succeeds
    {X : Externals} (cfg : Config) (dto : RegisterDto)
    (w w' w2 : World) (resp : AuthResponse) (h : string) :
  AuthService.register cfg dto w = (Ok resp, w') ->
  find (fun u => (u_email u =? r_email dto)%string) (users w) = None ->
  bcrypt_hash (r_password dto) 12 (entropy w) = Some h ->
  h <> "" ->
  bcrypt_compare (r_password dto) h = Some true ->
  profiles w2 = profiles w' -> users w2 = users w' -> outcomes w2 = [] ->
  exists resp2,
    AuthService.login cfg
      {| l_email := r_email dto; l_password := r_password dto |} w2
    = (Ok resp2, w2)
    /\ ar_user resp2 = ar_user resp.
Proof.
  intros Hreg Hnocred Hhash Hne Hcmp Hp2 Hu2 Hquiet.
  pose proof (register_ok_fresh cfg dto w w' resp Hreg) as Hfresh.
  destruct (register_ok_inv cfg dto w w' resp Hreg)
    as (_ & _ & (h' & Hhash' & Hu') & Hp' & Huser & Htok).
  assert (h' = h) by congruence. subst h'.
  destruct (generateTokens_inv cfg _ _ _ _ Htok) as (da & dr & Ha & Hr).
  set (row := profile_row (uuid (S (entropy w))) dto (clock w)) in *.
  set (cred := credential_row (uuid (S (entropy w))) dto h (clock w)) in *.
  assert (Hfind2 : find (Prisma.by_email (r_email dto)) (profiles w2) = Some row).
  { rewrite Hp2, Hp'. apply find_app_last; [exact Hfresh|].
    cbn. apply String.eqb_refl. }
  assert (Hstored2 : stored_hash w2 (r_email dto) = Some h).
  { unfold stored_hash. rewrite Hu2, Hu'.
    rewrite (find_app_last _ (users w) cred Hnocred); [reflexivity|].
    cbn. apply String.eqb_refl. }
  destruct (login_ok cfg {| l_email := r_email dto; l_password := r_password dto |}
              w2 row h da dr Hquiet Hfind2 Hstored2 Hne Hcmp Ha Hr)
    as (resp2 & Hlogin).
  exists resp2. split; [exact Hlogin|].
  destruct (login_ok_inv cfg _ w2 w2 resp2 Hlogin)
    as (p & h2 & Hp & _ & _ & _ & Huser2).
  cbn [l_email] in Hp. rewrite Hfind2 in Hp. injection Hp as <-.
  rewrite Huser2, Huser. unfold row, profile_row.
  cbn [p_id p_email p_role p_full_name]. now rewrite or_else_empty.
Qed.

Lemma login_after_register_succeeds_witness :
  exists resp2,
    AuthService.login (X := Toy.externals) Toy.defaults
      {| l_email := "a@x.com"; l_password := "Str0ng!Pw" |} Fixtures.world1
    = (Ok resp2, Fixtures.world1)
    /\ ar_user resp2
       = {| pu_id := "user-1"; pu_email := "a@x.com";
            pu_role := Some customer; pu_full_name := "A" |}.
Proof.
  destruct (AuthService.register (X := Toy.externals) Toy.defaults
              Fixtures.register_a Toy.world0) as [r w'] eqn:Hreg.
  assert (Hrun : (r, w') = AuthService.register (X := Toy.externals) Toy.defaults
                             Fixtures.register_a Toy.world0) by now symmetry.
  vm_compute in Hrun. injection Hrun as -> ->.
  exact (@login_after_register_succeeds Toy.externals Toy.defaults
           Fixtures.register_a Toy.world0 _ Fixtures.world1 _
           "$2b$12$0$Str0ng!Pw" Hreg eq_refl eq_refl
           ltac:(discriminate) eq_refl eq_refl eq_refl eq_refl).
Defined.

Ltac step_register :=
  cbn -[PasswordService.validatePasswordStrength JwtService.generateTokens
        Prisma.same_account].

Ltac unfold_register :=
  unfold AuthService.register, UsersService.create, UsersService.findByEmail,
    Prisma.profiles_findUnique, Prisma.users_create, Prisma.profiles_create,
    PasswordService.hashPassword, PasswordService.bcrypt_hash_call,
    AuthService.randomUUID, Prisma.query, credential_row, profile_row, logged,
    registration_failed;
  unfold bind, ret, throw, lift, gets, try_catch, console_error;
  change PasswordService.saltRounds with 12%nat.

(** X10.  When bcrypt cannot hash the password, [register] answers the 500
    [Registration failed. Please try again.] and has written nothing: the
    tables are as they were, and the cause is on the console only. *)
Theorem register_hashing_failure_writes_nothing
    {X : Externals} (cfg : Config) (dto : RegisterDto) (w : World) :
  isValid (PasswordService.validatePasswordStrength (r_password dto)) = true ->
  (next_failure w = None ->
     find (Prisma.by_email (r_email dto)) (profiles w) = None) ->
  bcrypt_hash (r_password dto) 12 (entropy w) = None ->
  fst (AuthService.register cfg dto w) = Throw registration_failed
  /\ same_store w (snd (AuthService.register cfg dto w))
  /\ exists earlier,
       console (snd (AuthService.register cfg dto w))
       = (earlier ++ [("Registration error:", Error "Password hashing failed")])%list.
Proof.
  intros Hstrong Hfree Hhash. unfold_register.
  destruct w as [ps us os clk ent con]. cbn in Hfree, Hhash.
  rewrite Hstrong. step_register.
  destruct os as [|[err|] os]; step_register.
  - rewrite (Hfree eq_refl). step_register. rewrite Hhash. step_register.
    repeat split. now exists con.
  - rewrite Hhash. step_register. repeat split. eexists. reflexivity.
  - rewrite (Hfree eq_refl). step_register. rewrite Hhash. step_register.
    repeat split. now exists con.
Qed.

Lemma register_hashing_failure_writes_nothing_witness :
  fst (AuthService.register
         (X := {| jws_encode := Toy.encode; jws_decode := Toy.decode;
                  timespan := Toy.seconds;
                  bcrypt_hash := fun _ _ _ => None;
                  bcrypt_compare := Toy.compare;
                  uuid := Toy.random_uuid |})
         Toy.defaults Fixtures.register_a Toy.world0)
  = Throw registration_failed.
Proof.
  apply (@register_hashing_failure_writes_nothing
           {| jws_encode := Toy.encode; jws_decode := Toy.decode;
              timespan := Toy.seconds;
              bcrypt_hash := fun _ _ _ => None;
              bcrypt_compare := Toy.compare;
              uuid := Toy.random_uuid |}
           Toy.defaults Fixtures.register_a Toy.world0);
    reflexivity.
Defined.

(** X11.  [register] is not one transaction.  When the credential row is
    written (the id and the email had no credential row) and the insert of
    the profile then fails, the credential row stays, without a profile:
    [register] answers 409 for a unique-constraint failure (P2002) and 500
    for any other, and rolls nothing back. *)
Theorem register_leaves_credential_without_profile
    {X : Externals} (cfg : Config) (dto : RegisterDto) (w : World)
    (err : DbError) (h : string) :
  isValid (PasswordService.validatePasswordStrength (r_password dto)) = true ->
  outcomes w = [None; None; None; Some err] ->
  find (Prisma.by_email (r_email dto)) (profiles w) = None ->
  bcrypt_hash (r_password dto) 12 (entropy w) = Some h ->
  existsb (fun u => (u_id u =? uuid (S (entropy w)))%string) (users w) = false ->
  find (fun u => (u_email u =? r_email dto)%string) (users w) = None ->
  users (snd (AuthService.register cfg dto w))
  = (users w ++ [credential_row (uuid (S (entropy w))) dto h (clock w)])%list
  /\ profiles (snd (AuthService.register cfg dto w)) = profiles w
  /\ fst (AuthService.register cfg dto w)
     = Throw (if has_code "P2002" (DbException err)
              then duplicate_email_error
              else registration_failed).
Proof.
  intros Hstrong Hfails Hfree Hhash Hid_u Hmail_u.
  pose proof (same_account_fresh
                (credential_row (uuid (S (entropy w))) dto h (clock w))
                (users w) Hid_u Hmail_u) as Hacc.
  unfold_register.
  destruct w as [ps us os clk ent con]. cbn in Hfails, Hfree, Hhash, Hacc.
  subst os. rewrite Hstrong. step_register.
  rewrite Hfree. step_register. rewrite Hhash. step_register.
  unfold credential_row in Hacc. rewrite Hacc. step_register.
  rewrite Hfree. step_register.
  destruct err as [code|message]; unfold has_code; step_register.
  - destruct (code =? "P2002")%string eqn:Hcode; step_register;
      rewrite ?Hcode; step_register; repeat split.
  - repeat split.
Qed.

Lemma register_leaves_credential_without_profile_witness :
  users (snd (AuthService.register (X := Toy.externals) Toy.defaults
                {| r_email := "b@x.com"; r_password := "Str0ng!Pw";
                   r_full_name := "B" |}
                (set_outcomes
                   [None; None; None; Some (UnknownRequestError "timeout")]
                   Fixtures.world1)))
  = (users Fixtures.world1
       ++ [credential_row "user-3"
             {| r_email := "b@x.com"; r_password := "Str0ng!Pw";
                r_full_name := "B" |} "$2b$12$2$Str0ng!Pw" 1000])%list
  /\ profiles (snd (AuthService.register (X := Toy.externals) Toy.defaults
                      {| r_email := "b@x.com"; r_password := "Str0ng!Pw";
                         r_full_name := "B" |}
                      (set_outcomes
                         [None; None; None; Some (UnknownRequestError "timeout")]
                         Fixtures.world1)))
     = profiles Fixtures.world1
  /\ fst (AuthService.register (X := Toy.externals) Toy.defaults
            {| r_email := "b@x.com"; r_password := "Str0ng!Pw";
               r_full_name := "B" |}
            (set_outcomes
               [None; None; None; Some (UnknownRequestError "timeout")]
               Fixtures.world1))
     = Throw registration_failed.
Proof.
  apply (@register_leaves_credential_without_profile Toy.externals Toy.defaults
           {| r_email := "b@x.com"; r_password := "Str0ng!Pw"; r_full_name := "B" |}
           (set_outcomes
              [None; None; None; Some (UnknownRequestError "timeout")]
              Fixtures.world1)
           (UnknownRequestError "timeout") "$2b$12$2$Str0ng!Pw");
    reflexivity.
Defined.

(** ** UsersService: creating and updating *)

Section UsersSteps.

Lemma quiet_next_failure (w : World) : outcomes w = [] -> next_failure w = None.
Proof. unfold next_failure. now intros ->. Qed.

Lemma quiet_after_query (w : World) : outcomes w = [] -> after_query w = w.
Proof. unfold after_query. now intros ->. Qed.

Lemma profiles_create_ok_fresh_id (data p : Profile) (w w1 : World) :
  Prisma.profiles_create data w = (Ok p, w1) ->
  existsb (Prisma.by_id (p_id data)) (profiles w) = false.
Proof.
  unfold Prisma.profiles_create. rewrite query_cases.
  destruct (after_query_tables w) as (Hp & _).
  destruct (next_failure w); [discriminate|].
  rewrite Hp, existsb_orb.
  destruct (existsb (Prisma.by_id (p_id data)) (profiles w));
    [discriminate | reflexivity].
Qed.

Lemma create_ok_fresh_id (userData : CreateUserDto) (p : Profile) (w w1 : World) :
  UsersService.create userData w = (Ok p, w1) ->
  existsb (Prisma.by_id (cu_id userData)) (profiles w) = false.
Proof.
  unfold UsersService.create. intros H.
  apply try_ok_inv in H; [|apply create_handler_throws].
  apply bind_ok_inv in H as (existing & w2 & Hfind & H).
  destruct (findByEmail_answers (cu_email userData) w)
    as (o & w2' & Hfind' & (Hp & _) & _).
  rewrite Hfind in Hfind'. injection Hfind' as <- <-.
  destruct existing; [discriminate|].
  apply bind_ok_inv in H as (now & w3 & Hnow & H).
  injection Hnow as <- <-.
  apply bind_ok_inv in H as (row & w4 & Hcreate & H).
  apply profiles_create_ok_fresh_id in Hcreate. cbn in Hcreate.
  now rewrite Hp in Hcreate.
Qed.

Lemma replace_first_map {B} (f : Profile -> B) (selects : Profile -> bool)
    (row p : Profile) (rows : list Profile) :
  find selects rows = Some p -> f row = f p ->
  map f (Prisma.replace_first selects row rows) = map f rows.
Proof.
  intros Hfind Hsame. induction rows as [|q rows IH]; cbn in *; [reflexivity|].
  destruct (selects q); cbn.
  - injection Hfind as ->. now rewrite Hsame.
  - now rewrite IH.
Qed.

Lemma replace_first_find (selects : Profile -> bool) (row p : Profile)
    (rows : list Profile) :
  find selects rows = Some p -> selects row = true ->
  find selects (Prisma.replace_first selects row rows) = Some row.
Proof.
  intros Hfind Hrow. induction rows as [|q rows IH]; cbn in *; [discriminate|].
  destruct (selects q) eqn:Hq; cbn.
  - now rewrite Hrow.
  - rewrite Hq. auto.
Qed.

Lemma replace_first_keeps (selects : Profile -> bool) (row q : Profile)
    (rows : list Profile) :
  In q rows -> selects q = false ->
  In q (Prisma.replace_first selects row rows).
Proof.
  intros Hin Hq. induction rows as [|p rows IH]; cbn in *; [contradiction|].
  destruct Hin as [-> | Hin].
  - rewrite Hq. now left.
  - destruct (selects p); right; auto.
Qed.

Lemma update_handler_throws (error : Exn) (w : World) :
  exists e' w2,
    (if instanceof NotFound error then throw error
     else if has_code "P2025" error
          then throw (http NotFound UsersService.msg_not_found)
          else throw error) w = (@Throw Profile e', w2).
Proof.
  destruct (instanceof NotFound error), (has_code "P2025" error);
    unfold throw; eauto.
Qed.

End UsersSteps.

(** X12.  [create] turns a duplicate into the 409 in both of its forms and
    lets every other database failure through as it is.  When its lookup
    runs and finds the email, it answers 409 without asking for the insert,
    and the table is as it was.  When the insert is rejected, the table is as
    it was, and the answer is the 409 for a unique-constraint failure (P2002)
    and the database's own error for any other. *)
Theorem create_answers_conflict_or_rethrows (userData : CreateUserDto) (w : World) :
  (forall p,
     next_failure w = None ->
     find (Prisma.by_email (cu_email userData)) (profiles w) = Some p ->
     UsersService.create userData w = (Throw duplicate_email_error, after_query w))
  /\ (forall err rest,
        outcomes w = None :: Some err :: rest ->
        find (Prisma.by_email (cu_email userData)) (profiles w) = None ->
        profiles (snd (UsersService.create userData w)) = profiles w
        /\ fst (UsersService.create userData w)
           = Throw (if has_code "P2002" (DbException err)
                    then duplicate_email_error
                    else DbException err)).
Proof.
  split.
  - intros p Hruns Hfound. unfold UsersService.create.
    unfold try_catch, bind at 1. now rewrite findByEmail_cases, Hruns, Hfound.
  - intros err rest Hout Hfree.
    unfold UsersService.create, UsersService.findByEmail,
      Prisma.profiles_findUnique, Prisma.profiles_create, Prisma.query.
    unfold bind, ret, throw, gets, try_catch, console_error.
    destruct w as [ps us os clk ent con]. cbn in Hout, Hfree. subst os.
    cbn. rewrite Hfree. cbn.
    destruct err as [code|message]; cbn; [|now split].
    destruct (code =? "P2002")%string; now split.
Qed.

Lemma create_answers_conflict_or_rethrows_witness :
  UsersService.create
    {| cu_id := "user-9"; cu_email := "a@x.com"; cu_full_name := "Again";
       cu_role := None |} Fixtures.world1
  = (Throw duplicate_email_error, Fixtures.world1)
  /\ fst (UsersService.create
            {| cu_id := "user-9"; cu_email := "new@x.com"; cu_full_name := "New";
               cu_role := None |}
            (set_outcomes [None; Some (UnknownRequestError "Database connection failed")]
               Fixtures.world1))
     = Throw (DbException (UnknownRequestError "Database connection failed")).
Proof.
  split.
  - apply (proj1 (create_answers_conflict_or_rethrows
                    {| cu_id := "user-9"; cu_email := "a@x.com";
                       cu_full_name := "Again"; cu_role := None |}
                    Fixtures.world1)
             (profile_row "user-1" Fixtures.register_a 1000));
      reflexivity.
  - apply (proj2 (create_answers_conflict_or_rethrows
                    {| cu_id := "user-9"; cu_email := "new@x.com";
                       cu_full_name := "New"; cu_role := None |}
                    (set_outcomes
                       [None; Some (UnknownRequestError "Database connection failed")]
                       Fixtures.world1))
             (UnknownRequestError "Database connection failed") []);
      reflexivity.
Defined.

(** X13.  A profile [create] returned is there to be found: it carries the
    id, email and name it was given and the role it was given, [customer]
    when none was; the table is the old one with that row appended; and in
    any world with that table whose lookup runs, [findByEmail] on the email
    and [findById] on the id return that row. *)
Theorem created_profile_is_found
    (userData : CreateUserDto) (w w1 w2 : World) (p : Profile) :
  UsersService.create userData w = (Ok p, w1) ->
  profiles w2 = profiles w1 ->
  next_failure w2 = None ->
  p_id p = cu_id userData /\ p_email p = cu_email userData
  /\ p_full_name p = Some (cu_full_name userData)
  /\ p_role p = Some (created_role userData)
  /\ profiles w1 = (profiles w ++ [p])%list
  /\ fst (UsersService.findByEmail (cu_email userData) w2) = Ok (Some p)
  /\ fst (UsersService.findById (cu_id userData) w2) = Ok (Some p).
Proof.
  intros Hcreate Hp2 Hruns.
  pose proof (create_ok_fresh userData p w w1 Hcreate) as Hemail.
  pose proof (create_ok_fresh_id userData p w w1 Hcreate) as Hid.
  apply create_ok_inv in Hcreate as (Hp & Hp1 & _ & _).
  rewrite findByEmail_cases, findById_cases, Hruns, Hp2, Hp1.
  rewrite (find_app_last _ _ p (existsb_false_find _ _ Hemail))
    by (subst p; cbn; apply String.eqb_refl).
  rewrite (find_app_last _ _ p (existsb_false_find _ _ Hid))
    by (subst p; cbn; apply String.eqb_refl).
  subst p. now repeat split.
Qed.

Lemma created_profile_is_found_witness :
  fst (UsersService.findByEmail "c@x.com"
         (snd (UsersService.create
                 {| cu_id := "user-7"; cu_email := "c@x.com"; cu_full_name := "C";
                    cu_role := None |} Fixtures.world1)))
  = Ok (Some {| p_id := "user-7"; p_email := "c@x.com"; p_full_name := Some "C";
                p_avatar_url := None; p_role := Some customer;
                p_updated_at := 1000 |}).
Proof.
  apply (created_profile_is_found
           {| cu_id := "user-7"; cu_email := "c@x.com"; cu_full_name := "C";
              cu_role := None |}
           Fixtures.world1 _ _ _ eq_refl eq_refl eq_refl).
Defined.

(** X14.  [updateProfile] answers the 404 [User not found] in three cases,
    each leaving the table as it was: when no row has the id, when the
    lookup before the update fails (even for an id that has a row), and when
    the update itself is rejected with P2025.  Any other rejection of the
    update comes out as the database's own error. *)
Theorem updateProfile_not_found_cases
    (i : string) (updateData : UpdateUserDto) (w : World) :
  (next_failure w = None ->
   find (Prisma.by_id i) (profiles w) = None ->
   UsersService.updateProfile i updateData w = (Throw user_not_found, after_query w))
  /\ (forall err,
        next_failure w = Some err ->
        fst (UsersService.updateProfile i updateData w) = Throw user_not_found
        /\ profiles (snd (UsersService.updateProfile i updateData w)) = profiles w)
  /\ (forall err rest p,
        outcomes w = None :: Some err :: rest ->
        find (Prisma.by_id i) (profiles w) = Some p ->
        profiles (snd (UsersService.updateProfile i updateData w)) = profiles w
        /\ fst (UsersService.updateProfile i updateData w)
           = Throw (if has_code "P2025" (DbException err)
                    then user_not_found
                    else DbException err)).
Proof.
  split; [|split].
  - intros Hruns Hnone. unfold UsersService.updateProfile.
    unfold try_catch, bind at 1. now rewrite findById_cases, Hruns, Hnone.
  - intros err Hfails.
    assert (Hrun : UsersService.updateProfile i updateData w
                   = (Throw user_not_found,
                      logged "Error finding user by id:" (DbException err)
                        (after_query w))).
    { unfold UsersService.updateProfile.
      unfold try_catch, bind at 1. now rewrite findById_cases, Hfails. }
    rewrite Hrun. cbn.
    destruct (after_query_tables w) as (Hp & _). split; [reflexivity | exact Hp].
  - intros err rest p Hout Hfound.
    unfold UsersService.updateProfile, UsersService.findById,
      Prisma.profiles_findUnique, Prisma.profiles_update, Prisma.query.
    unfold bind, ret, throw, gets, try_catch, console_error.
    destruct w as [ps us os clk ent con]. cbn in Hout, Hfound. subst os.
    cbn. rewrite Hfound. cbn.
    destruct err as [code|message]; cbn; [|now split].
    destruct (code =? "P2025")%string; now split.
Qed.

Lemma updateProfile_not_found_cases_witness :
  UsersService.updateProfile "nobody"
    {| up_full_name := Some "N"; up_avatar_url := None; up_role := None |}
    Fixtures.world1
  = (Throw user_not_found, Fixtures.world1)
  /\ fst (UsersService.updateProfile "user-1"
            {| up_full_name := Some "N"; up_avatar_url := None; up_role := None |}
            Fixtures.world1_failing)
     = Throw user_not_found.
Proof.
  split.
  - apply (proj1 (updateProfile_not_found_cases "nobody"
                    {| up_full_name := Some "N"; up_avatar_url := None;
                       up_role := None |} Fixtures.world1));
      reflexivity.
  - apply (proj1 (proj2 (updateProfile_not_found_cases "user-1"
                           {| up_full_name := Some "N"; up_avatar_url := None;
                              up_role := None |} Fixtures.world1_failing))
             (UnknownRequestError "Database connection failed")).
    reflexivity.
Defined.

(** X15.  An update that returns changed one row and nothing else.  The row
    with the id existed; the row returned has its id and email, for the name,
    the avatar and the role the value the request gave, or the old value
    where the request gave none, and the present time; the ids and the emails
    of the table, in order, are as before, every other row is still there,
    the credential table is untouched; and a lookup of the id that runs on
    the new table returns the new row. *)
Theorem updateProfile_changes_one_row
    (i : string) (updateData : UpdateUserDto) (w w' : World) (row : Profile) :
  UsersService.updateProfile i updateData w = (Ok row, w') ->
  exists p,
    find (Prisma.by_id i) (profiles w) = Some p
    /\ p_id row = i /\ p_email row = p_email p
    /\ given_or_kept (up_full_name updateData) (p_full_name p) (p_full_name row)
    /\ given_or_kept (up_avatar_url updateData) (p_avatar_url p) (p_avatar_url row)
    /\ given_or_kept (up_role updateData) (p_role p) (p_role row)
    /\ p_updated_at row = clock w
    /\ map p_id (profiles w') = map p_id (profiles w)
    /\ map p_email (profiles w') = map p_email (profiles w)
    /\ (forall q, In q (profiles w) -> p_id q <> i -> In q (profiles w'))
    /\ users w' = users w
    /\ find (Prisma.by_id i) (profiles w') = Some row.
Proof.
  unfold UsersService.updateProfile. intros H.
  apply try_ok_inv in H; [|apply update_handler_throws].
  apply bind_ok_inv in H as (existing & w1 & Hfind & H).
  rewrite findById_cases in Hfind.
  destruct (after_query_tables w) as (Hp0 & Hu0 & Hc0 & _).
  assert (Hsame : profiles w1 = profiles w /\ users w1 = users w
                  /\ clock w1 = clock w).
  { destruct (next_failure w); injection Hfind as _ <-; cbn; auto. }
  destruct Hsame as (Hp1 & Hu1 & Hc1).
  destruct existing as [p0|]; [|discriminate].
  apply bind_ok_inv in H as (now & w2 & Hnow & H).
  injection Hnow as <- <-.
  apply bind_ok_inv in H as (updated & w3 & Hupd & H).
  injection H as <- <-.
  unfold Prisma.profiles_update in Hupd. rewrite query_cases in Hupd.
  destruct (after_query_tables w1) as (Hp2 & Hu2 & _).
  destruct (next_failure w1); [discriminate|].
  rewrite Hp2, Hp1 in Hupd.
  destruct (find (Prisma.by_id i) (profiles w)) as [p|] eqn:Hp; [|discriminate].
  injection Hupd as <- <-. rewrite Hc1.
  assert (Hid : p_id p = i).
  { apply find_some in Hp as [_ Hp]. now apply String.eqb_eq in Hp. }
  exists p.
  cbn [profiles users set_profiles p_id p_email p_full_name p_avatar_url p_role
       p_updated_at Prisma.apply_update].
  split; [reflexivity|]. split; [exact Hid|]. split; [reflexivity|].
  split; [unfold given_or_kept; now destruct (up_full_name updateData)|].
  split; [unfold given_or_kept; now destruct (up_avatar_url updateData)|].
  split; [unfold given_or_kept; now destruct (up_role updateData)|].
  split; [reflexivity|].
  split; [now apply (replace_first_map _ _ _ p)|].
  split; [now apply (replace_first_map _ _ _ p)|].
  split.
  { intros q Hin Hq. apply replace_first_keeps; [exact Hin|].
    unfold Prisma.by_id. now apply String.eqb_neq. }
  split; [now rewrite Hu2, Hu1|].
  apply (replace_first_find _ _ p); [exact Hp|].
  unfold Prisma.by_id. cbn. rewrite Hid. apply String.eqb_refl.
Qed.

Lemma updateProfile_changes_one_row_witness :
  find (Prisma.by_id "user-1") (profiles Fixtures.world1_later)
  = Some {| p_id := "user-1"; p_email := "a@x.com";
            p_full_name := Some "A"; p_avatar_url := None;
            p_role := Some customer; p_updated_at := 1000 |}
  /\ find (Prisma.by_id "user-1")
         (profiles (snd (UsersService.updateProfile "user-1"
                           {| up_full_name := Some "Alice"; up_avatar_url := None;
                              up_role := Some admin |} Fixtures.world1_later)))
     = Some {| p_id := "user-1"; p_email := "a@x.com";
               p_full_name := Some "Alice"; p_avatar_url := None;
               p_role := Some admin; p_updated_at := 2000 |}.
Proof.
  destruct (UsersService.updateProfile "user-1"
              {| up_full_name := Some "Alice"; up_avatar_url := None;
                 up_role := Some admin |} Fixtures.world1_later)
    as [r w'] eqn:Hrun.
  assert (Hok : exists row, r = Ok row).
  { assert (Hfst : r = fst (UsersService.updateProfile "user-1"
                              {| up_full_name := Some "Alice"; up_avatar_url := None;
                                 up_role := Some admin |} Fixtures.world1_later))
      by now rewrite Hrun.
    vm_compute in Hfst. subst r. eexists. reflexivity. }
  destruct Hok as (row & ->).
  destruct (updateProfile_changes_one_row "user-1" _ _ _ _ Hrun)
    as (p & Hp & Hid & Hmail & Hname & Havatar & Hrole & Htime
        & _ & _ & _ & _ & Hfound).
  split; [reflexivity|].
  assert (Hbefore : Some p
                    = Some {| p_id := "user-1"; p_email := "a@x.com";
                              p_full_name := Some "A"; p_avatar_url := None;
                              p_role := Some customer; p_updated_at := 1000 |})
    by (rewrite <- Hp; reflexivity).
  injection Hbefore as ->.
  cbn in Hmail, Hname, Havatar, Hrole, Htime, Hfound |- *.
  rewrite Hfound. destruct row as [rid rmail rname ravatar rrole rtime].
  cbn in Hid, Hmail, Hname, Havatar, Hrole, Htime. now subst.
Defined.

(** ** JwtStrategy.validate *)

Lemma validate_cases (payload : JwtPayload) (w : World) :
  JwtStrategy.validate payload w =
    if Js.falsy (sub payload) then (Throw missing_user_id, w)
    else
      match next_failure w with
      | Some err =>
          (Throw user_deactivated,
           logged "Error finding user by id:" (DbException err) (after_query w))
      | None =>
          match find (Prisma.by_id (sub payload)) (profiles w) with
          | Some p => (Ok (strategy_user p), after_query w)
          | None => (Throw user_deactivated, after_query w)
          end
      end.
Proof.
  unfold JwtStrategy.validate. unfold try_catch.
  destruct (Js.falsy (sub payload)); [reflexivity|].
  unfold bind at 1. rewrite findById_cases.
  destruct (next_failure w); [reflexivity|].
  destruct (find _ (profiles w)); reflexivity.
Qed.

(** X16.  [validate] refuses with a 401 and nothing else.  A payload with
    an empty [sub] is refused as [Invalid token payload: missing user ID]
    before any query; a [sub] that has no profile, or whose lookup fails, is
    refused as [User not found or has been deactivated]; and no other error,
    the [Token validation failed] of its catch included, ever comes out. *)
Theorem validate_refuses_with_401 (payload : JwtPayload) (w : World) :
  (sub payload = "" ->
     JwtStrategy.validate payload w = (Throw missing_user_id, w))
  /\ (sub payload <> "" ->
      (next_failure w = None ->
         find (Prisma.by_id (sub payload)) (profiles w) = None) ->
      fst (JwtStrategy.validate payload w) = Throw user_deactivated)
  /\ (forall e,
        fst (JwtStrategy.validate payload w) = Throw e ->
        e = missing_user_id \/ e = user_deactivated).
Proof.
  rewrite validate_cases. unfold Js.falsy.
  destruct (String.eqb_spec (sub payload) "") as [Hsub | Hsub].
  - split; [reflexivity|]. split; [contradiction|].
    intros e [= <-]. now left.
  - split; [contradiction|]. split.
    + intros _ Habsent. destruct (next_failure w); [reflexivity|].
      now rewrite (Habsent eq_refl).
    + intros e. destruct (next_failure w); [intros [= <-]; now right|].
      destruct (find _ (profiles w)); [discriminate|].
      intros [= <-]. now right.
Qed.

Lemma validate_refuses_with_401_witness :
  JwtStrategy.validate
    {| sub := ""; email := "a@x.com"; role := "admin"; iat := None; exp := None |}
    Fixtures.world1
  = (Throw missing_user_id, Fixtures.world1)
  /\ fst (JwtStrategy.validate Fixtures.customer_id Fixtures.world1)
     = Throw user_deactivated.
Proof.
  split.
  - apply (validate_refuses_with_401
             {| sub := ""; email := "a@x.com"; role := "admin";
                iat := None; exp := None |} Fixtures.world1).
    reflexivity.
  - apply (validate_refuses_with_401 Fixtures.customer_id Fixtures.world1).
    + discriminate.
    + reflexivity.
Defined.

(** X17.  [validate] answers from the store.  What it returns is the id,
    email, role, name and avatar of the profile the [sub] of the payload
    has in the table now; the email and the role the token carries are not
    read, so two payloads with the same [sub] get the same answer. *)
Theorem validate_answers_from_the_store (payload : JwtPayload) (w : World) :
  (forall u w',
     JwtStrategy.validate payload w = (Ok u, w') ->
     exists p,
       find (Prisma.by_id (sub payload)) (profiles w) = Some p
       /\ u = strategy_user p
       /\ su_id u = sub payload)
  /\ (forall payload',
        sub payload' = sub payload ->
        JwtStrategy.validate payload' w = JwtStrategy.validate payload w).
Proof.
  split.
  - intros u w'. rewrite validate_cases.
    destruct (Js.falsy (sub payload)); [discriminate|].
    destruct (next_failure w); [discriminate|].
    destruct (find _ (profiles w)) as [p|] eqn:Hp; [|discriminate].
    intros [= <- _]. exists p. repeat split.
    apply find_some in Hp as [_ Hp]. now apply String.eqb_eq in Hp.
  - intros payload' Hsub. now rewrite !validate_cases, Hsub.
Qed.

Lemma validate_answers_from_the_store_witness :
  fst (JwtStrategy.validate
         {| sub := "user-1"; email := "other@x.com"; role := "admin";
            iat := None; exp := None |} Fixtures.world1)
  = Ok {| su_id := "user-1"; su_email := "a@x.com"; su_role := Some customer;
          su_full_name := Some "A"; su_avatar_url := None |}.
Proof.
  destruct (proj1 (validate_answers_from_the_store
                     {| sub := "user-1"; email := "other@x.com"; role := "admin";
                        iat := None; exp := None |} Fixtures.world1)
              _ _ eq_refl) as (p & Hp & Hu & _).
  vm_compute in Hp. injection Hp as <-. reflexivity.
Defined.

(** ** The guarded routes, composed *)

Section Routes.
Context {X : Externals} (cfg : Config).

Lemma canActivate_world (request : Request) (w : World) :
  JwtAuthGuard.canActivate cfg request w
  = (fst (JwtAuthGuard.canActivate cfg request w), w).
Proof.
  rewrite canActivate_cases.
  destruct (authorization request) as [h|]; [|reflexivity].
  destruct (Js.falsy h); [reflexivity|].
  destruct (JwtService.extractTokenFromHeader h) as [token|]; [|reflexivity].
  destruct (Js.falsy token); [reflexivity|].
  destruct (jwt_verify token (JwtService.secret cfg) (clock w)); reflexivity.
Qed.

Lemma roles_admin_only (request : Request) (u : RequestUser) :
  RolesGuard.canActivate (Some [admin]) (attach request u) =
    if Js.falsy (ru_role u) then Throw (http Forbidden "User role not found")
    else if (ru_role u =? "admin")%string then Ok true
         else Throw (http Forbidden "Insufficient permissions").
Proof.
  unfold RolesGuard.canActivate, attach, Js.includes. cbn.
  destruct (Js.falsy (ru_role u)); [reflexivity|].
  now destruct (ru_role u =? "admin")%string.
Qed.

End Routes.

(** X18.  The guarded routes are their guards, in order.  When the
    authentication guard refuses, both routes answer its 401 and the role
    guard is not asked.  When it lets the request through with an identity,
    [GET /auth/profile] answers with that identity, and [GET /auth/admin]
    answers with it when its role is "admin" and with a 403 for any other
    role.  Neither route changes the world. *)
Theorem guarded_routes_compose
    {X : Externals} (cfg : Config) (request : Request) (w : World) :
  (forall e,
     fst (JwtAuthGuard.canActivate cfg request w) = Throw e ->
     fst (AuthController.getProfile cfg request w) = Throw e
     /\ fst (AuthController.getAdminData cfg request w) = Throw e)
  /\ (forall u,
        fst (JwtAuthGuard.canActivate cfg request w) = Ok (true, attach request u) ->
        fst (AuthController.getProfile cfg request w)
        = Ok (view_of u "Profile retrieved successfully")
        /\ (ru_role u = "admin" ->
              fst (AuthController.getAdminData cfg request w)
              = Ok (view_of u "Admin access granted"))
        /\ (ru_role u <> "admin" ->
              exists message,
                fst (AuthController.getAdminData cfg request w)
                = Throw (http Forbidden message)))
  /\ snd (AuthController.getProfile cfg request w) = w
  /\ snd (AuthController.getAdminData cfg request w) = w.
Proof.
  unfold AuthController.getProfile, AuthController.getAdminData,
    AuthController.guard, AuthController.roles_guard, AuthController.view.
  unfold bind, lift, ret, throw.
  rewrite (canActivate_world cfg request w).
  destruct (fst (JwtAuthGuard.canActivate cfg request w)) as [[b req]|e0] eqn:Hguard.
  - split; [discriminate|]. split.
    + intros u [= -> ->]. cbn [fst snd].
      rewrite roles_admin_only. cbn [attach user].
      split; [reflexivity|]. split.
      * intros ->. reflexivity.
      * intros Hrole. destruct (Js.falsy (ru_role u)); [eexists; reflexivity|].
        destruct (String.eqb_spec (ru_role u) "admin");
          [contradiction | eexists; reflexivity].
    + rewrite canActivate_cases in Hguard.
      assert (Hreq : b = true /\ exists u, req = attach request u).
      { destruct (authorization request) as [h|]; [|discriminate].
        destruct (Js.falsy h); [discriminate|].
        destruct (JwtService.extractTokenFromHeader h) as [token|]; [|discriminate].
        destruct (Js.falsy token); [discriminate|].
        destruct (jwt_verify token (JwtService.secret cfg) (clock w));
          [discriminate|].
        injection Hguard as <- <-. split; [reflexivity | eauto]. }
      destruct Hreq as (-> & u & ->). cbn [fst snd].
      rewrite roles_admin_only. cbn [attach user].
      split; [reflexivity|].
      destruct (Js.falsy (ru_role u)); [reflexivity|].
      destruct (ru_role u =? "admin")%string; reflexivity.
  - split; [intros e [= <-]; now split|].
    split; [discriminate | now split].
Qed.

Lemma guarded_routes_compose_witness :
  fst (AuthController.getProfile (X := Toy.externals) Toy.defaults
         (Fixtures.bearing (access_token Fixtures.customer_pair)) Fixtures.world1)
  = Ok (view_of (identity_of Fixtures.customer_id) "Profile retrieved successfully")
  /\ (exists message,
        fst (AuthController.getAdminData (X := Toy.externals) Toy.defaults
               (Fixtures.bearing (access_token Fixtures.customer_pair))
               Fixtures.world1)
        = Throw (http Forbidden message))
  /\ fst (AuthController.getAdminData (X := Toy.externals) Toy.defaults
            (Fixtures.bearing (access_token Fixtures.admin_pair)) Fixtures.world1)
     = Ok (view_of (identity_of Fixtures.admin_id) "Admin access granted").
Proof.
  pose proof (proj1 (proj2 (@guarded_routes_compose Toy.externals Toy.defaults
                              (Fixtures.bearing (access_token Fixtures.customer_pair))
                              Fixtures.world1))
                (identity_of Fixtures.customer_id) eq_refl)
    as (Hprofile & _ & Hforbidden).
  pose proof (proj1 (proj2 (@guarded_routes_compose Toy.externals Toy.defaults
                              (Fixtures.bearing (access_token Fixtures.admin_pair))
                              Fixtures.world1))
                (identity_of Fixtures.admin_id) eq_refl)
    as (_ & Hadmin & _).
  split; [exact Hprofile|]. split.
  - apply Hforbidden. discriminate.
  - apply Hadmin. reflexivity.
Defined.

(** ** Passwords: longer is never weaker, and the decorators of the DTO *)

Section PasswordMore.

Lemma test_append (cls : ascii -> bool) (p q : string) :
  Js.test cls (p ++ q) = Js.test cls p || Js.test cls q.
Proof.
  induction p as [|c p IH]; cbn; [reflexivity|].
  now rewrite IH, orb_assoc.
Qed.

Lemma length_append (p q : string) :
  String.length (p ++ q) = (String.length p + String.length q)%nat.
Proof.
  induction p as [|c p IH]; cbn; [reflexivity | now rewrite IH].
Qed.

(** The errors, read off the five tests. *)
Lemma errors_In (password m : string) :
  In m (errors (PasswordService.validatePasswordStrength password))
  <-> ((String.length password <? 8)%nat = true /\ m = PasswordService.msg_length)
      \/ (Js.test Js.lower password = false /\ m = PasswordService.msg_lower)
      \/ (Js.test Js.upper password = false /\ m = PasswordService.msg_upper)
      \/ (Js.test Js.digit password = false /\ m = PasswordService.msg_digit)
      \/ (Js.test Js.special password = false /\ m = PasswordService.msg_special).
Proof.
  unfold PasswordService.validatePasswordStrength.
  destruct (String.length password <? 8)%nat;
    destruct (Js.test Js.lower password);
    destruct (Js.test Js.upper password);
    destruct (Js.test Js.digit password);
    destruct (Js.test Js.special password);
    cbn; intuition (try discriminate; auto).
Qed.

Lemma isValid_tests (password : string) :
  isValid (PasswordService.validatePasswordStrength password)
  = negb (String.length password <? 8)%nat
    && Js.test Js.lower password && Js.test Js.upper password
    && Js.test Js.digit password && Js.test Js.special password.
Proof.
  unfold PasswordService.validatePasswordStrength.
  destruct (String.length password <? 8)%nat;
    destruct (Js.test Js.lower password);
    destruct (Js.test Js.upper password);
    destruct (Js.test Js.digit password);
    destruct (Js.test Js.special password); reflexivity.
Qed.



End PasswordMore.

(** X19.  A longer password is never weaker.  Every error
    [validatePasswordStrength] reports for a concatenation it reports for
    each of the two parts, so a password that passes still passes with
    anything put after it or before it. *)
Theorem validatePasswordStrength_longer_is_not_weaker (p q : string) :
  (forall m,
     In m (errors (PasswordService.validatePasswordStrength (p ++ q))) ->
     In m (errors (PasswordService.validatePasswordStrength p))
     /\ In m (errors (PasswordService.validatePasswordStrength q)))
  /\ (isValid (PasswordService.validatePasswordStrength p) = true ->
      isValid (PasswordService.validatePasswordStrength (p ++ q)) = true
      /\ isValid (PasswordService.validatePasswordStrength (q ++ p)) = true).
Proof.
  split.
  - intros m. rewrite !errors_In, !test_append, length_append.
    intros [[Hlen ->] | [[Hc ->] | [[Hc ->] | [[Hc ->] | [Hc ->]]]]].
    + apply Nat.ltb_lt in Hlen.
      split; left; (split; [apply Nat.ltb_lt; lia | reflexivity]).
    + apply orb_false_iff in Hc as [Hp Hq]. split; right; left; now split.
    + apply orb_false_iff in Hc as [Hp Hq].
      split; right; right; left; now split.
    + apply orb_false_iff in Hc as [Hp Hq].
      split; right; right; right; left; now split.
    + apply orb_false_iff in Hc as [Hp Hq].
      split; right; right; right; right; now split.
  - rewrite !isValid_tests, !test_append, !length_append.
    intros Hvalid.
    repeat (apply andb_true_iff in Hvalid as [Hvalid ?]).
    apply negb_true_iff, Nat.ltb_ge in Hvalid.
    split; repeat (apply andb_true_iff; split);
      try (apply negb_true_iff, Nat.ltb_ge; lia);
      apply orb_true_iff; auto.
Qed.

Lemma validatePasswordStrength_longer_is_not_weaker_witness :
  isValid (PasswordService.validatePasswordStrength ("Str0ng!Pw" ++ " and more")) = true
  /\ isValid (PasswordService.validatePasswordStrength (" and more" ++ "Str0ng!Pw")) = true.
Proof.
  apply (validatePasswordStrength_longer_is_not_weaker "Str0ng!Pw" " and more").
  reflexivity.
Defined.



(** A password of two lines, and one that starts with another sign, pass
    the service and fail the pattern of the DTO. *)
Example dto_refuses_what_the_service_accepts :
  isValid (PasswordService.validatePasswordStrength "#Str0ng!Pw") = true
  /\ RegisterDtoPassword.constraints "#Str0ng!Pw" = [RegisterDtoPassword.msg_matches]
  /\ isValid (PasswordService.validatePasswordStrength
                (String "S" (String "t" (String "r" (String "010" "0ng!Pw1x")))))
     = true
  /\ RegisterDtoPassword.constraints
       (String "S" (String "t" (String "r" (String "010" "0ng!Pw1x"))))
     = [RegisterDtoPassword.msg_matches].
Proof. repeat split. Qed.

(** ** The guard's refusals, a refresh's errors, and a new account's reach *)

Section GuardMore.
Context {X : Externals} (cfg : Config).

Lemma canActivate_bearing (h token : string) (p : JwtPayload) (w : World) :
  JwtService.extractTokenFromHeader h = Some token ->
  jwt_verify token (JwtService.secret cfg) (clock w) = inr p ->
  JwtAuthGuard.canActivate cfg {| authorization := Some h; user := None |} w
  = (Ok (true, {| authorization := Some h; user := Some (identity_of p) |}), w).
Proof.
  intros Hx Hverify. rewrite canActivate_cases. cbn [authorization].
  rewrite (extracted_header_not_falsy h _ Hx), Hx, (extracted_not_falsy h _ Hx).
  now rewrite Hverify.
Qed.

End GuardMore.



(** X22.  The orchestrator's [refreshTokens] lets two errors out and no
    other: the 401 [Invalid or expired refresh token], and the 500
    [Token refresh failed. Please login again.], the latter only when the
    token verified and a configured lifetime is not a time span. *)
Theorem refreshTokens_throws_only_401_500
    {X : Externals} (cfg : Config) (token : string) (w : World) (e : Exn) :
  fst (AuthService.refreshTokens cfg token w) = Throw e ->
  e = refresh_token_refused
  \/ (e = refresh_failed
      /\ (access_span cfg = None \/ refresh_span cfg = None)
      /\ exists p, JwtService.verifyRefreshToken cfg token w = (Ok p, w)).
Proof.
  rewrite refreshTokens_cases, verifyRefreshToken_cases.
  destruct (jwt_verify token (JwtService.secret cfg) (clock w)) as [err|c];
    [intros [= <-]; now left|].
  destruct (JwtService.generateTokens cfg _ w) as [[tokens|e0] w1] eqn:Htok;
    [discriminate|].
  destruct (throws_only_generateTokens cfg _ w e0 w1 Htok) as [Hplain Hspan].
  rewrite (not_http_instanceof _ _ Hplain). intros [= <-].
  right. split; [reflexivity|]. split; [exact Hspan | now exists c].
Qed.

Lemma refreshTokens_throws_only_401_500_witness :
  http InternalServerError "Token refresh failed. Please login again."
  = refresh_token_refused
  \/ (http InternalServerError "Token refresh failed. Please login again."
      = refresh_failed
      /\ (access_span (X := Toy.externals)
            {| jwt_secret := None; jwt_accessTokenExpiration := Some "soon";
               jwt_refreshTokenExpiration := None |} = None
          \/ refresh_span (X := Toy.externals)
               {| jwt_secret := None; jwt_accessTokenExpiration := Some "soon";
                  jwt_refreshTokenExpiration := None |} = None)
      /\ exists p,
           JwtService.verifyRefreshToken (X := Toy.externals)
             {| jwt_secret := None; jwt_accessTokenExpiration := Some "soon";
                jwt_refreshTokenExpiration := None |}
             (refresh_token Fixtures.customer_pair) Toy.world0
           = (Ok p, Toy.world0)).
Proof.
  apply (@refreshTokens_throws_only_401_500 Toy.externals
           {| jwt_secret := None; jwt_accessTokenExpiration := Some "soon";
              jwt_refreshTokenExpiration := None |}
           (refresh_token Fixtures.customer_pair) Toy.world0).
  reflexivity.
Defined.

(** X23.  A registration gives the reach of a customer and no more.  The
    access token of an answer of [register], sent as a bearer token before
    it expires, gets [GET /auth/profile] answered with the new id, the
    email and the role "customer", and [GET /auth/admin] refused with the
    403 [Insufficient permissions]. *)
Theorem registered_user_is_a_customer
    {X : Externals} {L : JwsLaws X} (cfg : Config) (dto : RegisterDto)
    (w w' w2 : World) (resp : AuthResponse) (h : string) (da : Z) :
  AuthService.register cfg dto w = (Ok resp, w') ->
  access_span cfg = Some da ->
  JwtService.extractTokenFromHeader h = Some (ar_access_token resp) ->
  clock w2 < clock w' + da ->
  fst (AuthController.getProfile cfg {| authorization := Some h; user := None |} w2)
  = Ok {| pv_id := pu_id (ar_user resp); pv_email := r_email dto;
          pv_role := "customer"; pv_message := "Profile retrieved successfully" |}
  /\ fst (AuthController.getAdminData cfg
            {| authorization := Some h; user := None |} w2)
     = Throw (http Forbidden "Insufficient permissions").
Proof.
  intros Hreg Ha Hx Hfresh.
  destruct (register_ok_inv cfg dto w w' resp Hreg)
    as (_ & _ & _ & _ & Huser & Htok).
  destruct (generateTokens_inv cfg _ _ _ _ Htok) as (da' & dr & Ha' & Hr).
  rewrite (generateTokens_ok cfg _ _ da' dr Ha' Hr) in Htok.
  assert (da' = da) by congruence. subst da'.
  injection Htok as Haccess _. rewrite <- Haccess in Hx.
  pose proof (canActivate_bearing cfg h _ _ w2 Hx
                (jwt_verify_stamped _ _ _ _ _ Hfresh)) as Hguard.
  unfold AuthController.getProfile, AuthController.getAdminData,
    AuthController.guard, AuthController.roles_guard, AuthController.view.
  unfold bind, lift, ret, throw. rewrite Hguard, Huser. cbn. now split.
Qed.

Lemma registered_user_is_a_customer_witness :
  exists resp,
    fst (AuthService.register (X := Toy.externals) Toy.defaults
           Fixtures.register_a Toy.world0) = Ok resp
    /\ fst (AuthController.getAdminData (X := Toy.externals) Toy.defaults
              (Fixtures.bearing (ar_access_token resp)) Fixtures.world1)
       = Throw (http Forbidden "Insufficient permissions").
Proof.
  destruct (AuthService.register (X := Toy.externals) Toy.defaults
              Fixtures.register_a Toy.world0) as [r w'] eqn:Hreg.
  assert (Hrun : (r, w') = AuthService.register (X := Toy.externals) Toy.defaults
                             Fixtures.register_a Toy.world0) by now symmetry.
  vm_compute in Hrun. injection Hrun as -> ->.
  eexists. split; [reflexivity|].
  apply (@registered_user_is_a_customer Toy.externals toy_laws Toy.defaults
           Fixtures.register_a Toy.world0 _ Fixtures.world1 _ _ 900 Hreg);
    reflexivity.
Defined.
